(** * ManageUsers (flask-react-auth backend): a shallow embedding of
    [backend/app.py] and [backend/models.py].

    The Flask handlers are modelled as computations in a small state and
    exception monad over a world that keeps apart the rows committed to the
    SQLite database and the SQLAlchemy session of the current request.
    Attribute assignments, [db.session.add] and [db.session.delete] change
    the session; [db.session.commit()] checks the table constraints (flush)
    and publishes the session; a query autoflushes first.  When the request
    ends, Flask-SQLAlchemy removes the session, so whatever was not committed
    is rolled back; an uncaught Python exception becomes a 500 response. *)

From Stdlib Require Import List String Ascii NArith ZArith Bool Lia Sorted Permutation.
Import ListNotations.
Open Scope list_scope.
Set Warnings "-register-all".


(** ** Python values *)

(** A Python [str], as its list of Unicode code points. *)
Definition text := list N.

(** An ASCII literal as a [text]. *)
Definition txt (s : string) : text :=
  map (fun a => N_of_ascii a) (list_ascii_of_string s).

Definition text_eqb (a b : text) : bool :=
  if list_eq_dec N.eq_dec a b then true else false.

(** [p] is a prefix of [s]; [p] occurs in [s] (Python [p in s] on [str]). *)
Fixpoint prefixb (p s : text) : bool :=
  match p, s with
  | [], _ => true
  | _ :: _, [] => false
  | a :: p', b :: s' => N.eqb a b && prefixb p' s'
  end.

Fixpoint substringb (p s : text) : bool :=
  prefixb p s || match s with [] => false | _ :: s' => substringb p s' end.

(** A lone surrogate (U+D800 to U+DFFF).  Python's JSON decoder turns an
    unpaired [\ud800] escape into one; a [str] holding one cannot be
    encoded as UTF-8, so sqlite3 cannot bind it and [str.encode()] raises
    UnicodeEncodeError. *)
Definition is_surrogate (c : N) : bool := (55296 <=? c)%N && (c <=? 57343)%N.

Definition has_surrogate (s : text) : bool := existsb is_surrogate s.

(** The value returned by [request.get_json()]: the parsed JSON body, with
    [JNull] for a [null] body (Python [None]).  A [JObj] is a Python [dict]:
    its keys are distinct. *)
Inductive JValue :=
| JNull
| JBool (b : bool)
| JNum (z : Z)
| JStr (s : text)
| JArr (l : list JValue)
| JObj (kvs : list (text * JValue)).

(** Python truthiness ([not v]). *)
Definition truthy (v : JValue) : bool :=
  match v with
  | JNull => false
  | JBool b => b
  | JNum z => negb (Z.eqb z 0)
  | JStr s => negb (match s with [] => true | _ => false end)
  | JArr l => negb (match l with [] => true | _ => false end)
  | JObj kvs => negb (match kvs with [] => true | _ => false end)
  end.

Fixpoint dict_get (kvs : list (text * JValue)) (k : text) : option JValue :=
  match kvs with
  | [] => None
  | (k', v) :: kvs' => if text_eqb k k' then Some v else dict_get kvs' k
  end.

(** [k in data]; [None] is the [TypeError] raised when [data] is not a
    container ([None], a bool or a number). *)
Definition py_in (k : text) (data : JValue) : option bool :=
  match data with
  | JObj kvs => Some (match dict_get kvs k with Some _ => true | None => false end)
  | JStr s => Some (substringb k s)
  | JArr l =>
      Some (existsb (fun e => match e with JStr s => text_eqb s k | _ => false end) l)
  | _ => None
  end.

(** [data[k]]; [None] is a [KeyError] or [TypeError]. *)
Definition py_getitem (data : JValue) (k : text) : option JValue :=
  match data with
  | JObj kvs => dict_get kvs k
  | _ => None
  end.

(** [data.get(k)]: [Some r] on a [dict], [None] is the [AttributeError]
    raised on any other value. *)
Definition py_get (data : JValue) (k : text) : option (option JValue) :=
  match data with
  | JObj kvs => Some (dict_get kvs k)
  | _ => None
  end.

(** [len(v)]; [None] is the [TypeError] raised by [len] on a scalar. *)
Definition py_len (v : JValue) : option nat :=
  match v with
  | JStr s => Some (List.length s)
  | JArr l => Some (List.length l)
  | JObj kvs => Some (List.length kvs)
  | _ => None
  end.

(** ** Column values *)

(** Decimal digits of a natural number, as SQLite writes an integer stored
    in a TEXT column. *)
Fixpoint n_digits (fuel : nat) (n : N) (acc : text) : text :=
  match fuel with
  | O => acc
  | S f =>
      let acc' := (48 + N.modulo n 10)%N :: acc in
      if N.ltb n 10 then acc' else n_digits f (N.div n 10) acc'
  end.

Definition z_text (z : Z) : text :=
  match z with
  | Z.neg p => 45%N :: n_digits (S (Pos.size_nat p)) (Npos p) []
  | _ => n_digits (S (N.size_nat (Z.to_N z))) (Z.to_N z) []
  end.

(** sqlite3 binds a Python [int] as a signed 64-bit INTEGER and raises
    OverflowError outside that range. *)
Definition int64_ok (z : Z) : bool := (- 2 ^ 63 <=? z)%Z && (z <? 2 ^ 63)%Z.

(** A rowid is a signed 64-bit integer. *)
Definition rowid_ok (id : nat) : bool := (Z.of_nat id <? 2 ^ 63)%Z.

(** The content of a TEXT column once the value is bound: [CNull] for
    [None], [CBad] for a value sqlite3 cannot bind (a list, a dict, an
    integer outside 64 bits, a string with a lone surrogate).  Integers and
    booleans are stored as text (TEXT affinity). *)
Inductive cell := CNull | CText (s : text) | CBad.

Definition to_cell (v : JValue) : cell :=
  match v with
  | JNull => CNull
  | JBool true => CText (txt "1")
  | JBool false => CText (txt "0")
  | JNum z => if int64_ok z then CText (z_text z) else CBad
  | JStr s => if has_surrogate s then CBad else CText s
  | JArr _ | JObj _ => CBad
  end.

Definition cell_eqb (a b : cell) : bool :=
  match a, b with
  | CNull, CNull | CBad, CBad => true
  | CText x, CText y => text_eqb x y
  | _, _ => false
  end.

(** A [db.Boolean] column: SQLAlchemy accepts [None], [True], [False]
    (and [0], [1]); any other value raises at flush ([BBad]). *)
Inductive bcell := BNull | BVal (b : bool) | BBad.

Definition to_bcell (v : JValue) : bcell :=
  match v with
  | JNull => BNull
  | JBool b => BVal b
  | JNum 0 => BVal false
  | JNum 1 => BVal true
  | _ => BBad
  end.

Definition bcell_truthy (b : bcell) : bool :=
  match b with BVal true => true | _ => false end.

(** ** The four tables (models.py) *)

Record User := mkUser {
  user_id : nat;
  username : cell;
  email : cell;
  password_hash : cell;
  is_admin : bcell;
  user_created_at : Z }.

Record Post := mkPost {
  post_id : nat;
  title : cell;
  content : cell;
  post_user_id : nat;
  post_created_at : Z;
  post_updated_at : Z }.

Record Comment := mkComment {
  comment_id : nat;
  comment_content : cell;
  comment_user_id : nat;
  comment_post_id : nat;
  comment_created_at : Z;
  comment_updated_at : Z }.

Record Like := mkLike {
  like_id : nat;
  like_user_id : nat;
  like_post_id : option nat;
  like_comment_id : option nat;
  like_created_at : Z }.

(** Each table in rowid order. *)
Record DB := mkDB {
  users : list User;
  posts : list Post;
  comments : list Comment;
  likes : list Like }.

Definition empty_db : DB := mkDB [] [] [] [].

(** ** Table constraints, checked by SQLite when the session is flushed.
    Foreign keys are not enforced (SQLite's default). *)

(** No two rows of [l] collide under [clash]. *)
Fixpoint no_clash {A} (clash : A -> A -> bool) (l : list A) : bool :=
  match l with
  | [] => true
  | x :: xs => negb (existsb (clash x) xs) && no_clash clash xs
  end.

Definition nodup_nat (l : list nat) : bool := no_clash Nat.eqb l.

(** A UNIQUE column: two NULLs never collide. *)
Definition cell_clash (c d : cell) : bool :=
  match c with CText _ => cell_eqb c d | _ => false end.

Definition unique_cells (l : list cell) : bool := no_clash cell_clash l.

Definition not_null (c : cell) : bool :=
  match c with CText _ => true | _ => false end.

(** A NOT NULL TEXT column filled from the request: what SQLite holds was
    bound, so it is valid UTF-8 and has no lone surrogate. *)
Definition text_ok (c : cell) : bool :=
  match c with CText s => negb (has_surrogate s) | _ => false end.

Definition bcell_ok (b : bcell) : bool :=
  match b with BBad => false | _ => true end.

(** [check_like_target]: exactly one of post_id / comment_id is set. *)
Definition like_target_ok (l : Like) : bool :=
  match like_post_id l, like_comment_id l with
  | Some _, None | None, Some _ => true
  | _, _ => false
  end.

Definition opt_nat_eqb (a b : option nat) : bool :=
  match a, b with
  | Some x, Some y => Nat.eqb x y
  | None, None => true
  | _, _ => false
  end.

(** [unique_user_like] over (user_id, post_id, comment_id): as in SQL, two
    rows collide only when none of the three columns is NULL. *)
Definition like_triple_clash (a b : Like) : bool :=
  match like_post_id a, like_comment_id a, like_post_id b, like_comment_id b with
  | Some pa, Some ca, Some pb, Some cb =>
      Nat.eqb (like_user_id a) (like_user_id b) && Nat.eqb pa pb && Nat.eqb ca cb
  | _, _, _, _ => false
  end.

Definition like_triples_unique (l : list Like) : bool := no_clash like_triple_clash l.

Definition db_ok (db : DB) : bool :=
  forallb (fun u => text_ok (username u) && text_ok (email u)
                    && not_null (password_hash u) && bcell_ok (is_admin u)) (users db)
  && nodup_nat (map user_id (users db))
  && unique_cells (map username (users db))
  && unique_cells (map email (users db))
  && forallb (fun p => text_ok (title p) && text_ok (content p)) (posts db)
  && nodup_nat (map post_id (posts db))
  && forallb (fun c => text_ok (comment_content c)) (comments db)
  && nodup_nat (map comment_id (comments db))
  && forallb like_target_ok (likes db)
  && nodup_nat (map like_id (likes db))
  && like_triples_unique (likes db).

(** ** Row lookups and session updates *)

Definition find_user (uid : nat) (db : DB) : option User :=
  find (fun u => Nat.eqb (user_id u) uid) (users db).
Definition find_post (pid : nat) (db : DB) : option Post :=
  find (fun p => Nat.eqb (post_id p) pid) (posts db).
Definition find_comment (cid : nat) (db : DB) : option Comment :=
  find (fun c => Nat.eqb (comment_id c) cid) (comments db).

(** SQLite's rowid for a new row: one more than the largest rowid. *)
Definition next_id (ids : list nat) : nat := S (fold_right Nat.max 0 ids).

Definition add_user (u : User) (db : DB) : DB :=
  mkDB (users db ++ [u]) (posts db) (comments db) (likes db).
Definition add_post (p : Post) (db : DB) : DB :=
  mkDB (users db) (posts db ++ [p]) (comments db) (likes db).
Definition add_comment (c : Comment) (db : DB) : DB :=
  mkDB (users db) (posts db) (comments db ++ [c]) (likes db).
Definition add_like (l : Like) (db : DB) : DB :=
  mkDB (users db) (posts db) (comments db) (likes db ++ [l]).

(** Assignment to attributes of the row with a given id. *)
Definition map_user (uid : nat) (f : User -> User) (db : DB) : DB :=
  mkDB (map (fun u => if Nat.eqb (user_id u) uid then f u else u) (users db))
       (posts db) (comments db) (likes db).
Definition map_post (pid : nat) (f : Post -> Post) (db : DB) : DB :=
  mkDB (users db) (map (fun p => if Nat.eqb (post_id p) pid then f p else p) (posts db))
       (comments db) (likes db).
Definition map_comment (cid : nat) (f : Comment -> Comment) (db : DB) : DB :=
  mkDB (users db) (posts db)
       (map (fun c => if Nat.eqb (comment_id c) cid then f c else c) (comments db))
       (likes db).

Definition set_username (v : cell) (u : User) : User :=
  mkUser (user_id u) v (email u) (password_hash u) (is_admin u) (user_created_at u).
Definition set_email (v : cell) (u : User) : User :=
  mkUser (user_id u) (username u) v (password_hash u) (is_admin u) (user_created_at u).
Definition set_password_hash (h : text) (u : User) : User :=
  mkUser (user_id u) (username u) (email u) (CText h) (is_admin u) (user_created_at u).
Definition set_is_admin (v : bcell) (u : User) : User :=
  mkUser (user_id u) (username u) (email u) (password_hash u) v (user_created_at u).
Definition set_title (v : cell) (p : Post) : Post :=
  mkPost (post_id p) v (content p) (post_user_id p) (post_created_at p) (post_updated_at p).
Definition set_content (v : cell) (p : Post) : Post :=
  mkPost (post_id p) (title p) v (post_user_id p) (post_created_at p) (post_updated_at p).
Definition set_post_updated_at (now : Z) (p : Post) : Post :=
  mkPost (post_id p) (title p) (content p) (post_user_id p) (post_created_at p) now.
Definition set_comment_content (v : cell) (now : Z) (c : Comment) : Comment :=
  mkComment (comment_id c) v (comment_user_id c) (comment_post_id c)
            (comment_created_at c) now.

Definition mem_nat (x : nat) (l : list nat) : bool := existsb (Nat.eqb x) l.

(** [Post.likes] (primaryjoin: post_id = id and comment_id IS NULL) and
    [Comment.likes] (comment_id = id and post_id IS NULL). *)
Definition is_post_like (pid : nat) (l : Like) : bool :=
  opt_nat_eqb (like_post_id l) (Some pid) && opt_nat_eqb (like_comment_id l) None.
Definition is_comment_like (cid : nat) (l : Like) : bool :=
  opt_nat_eqb (like_comment_id l) (Some cid) && opt_nat_eqb (like_post_id l) None.

(** The ORM cascades ('all, delete-orphan'): deleting a set of users, posts
    and comments also deletes the posts of the users, the comments of the
    users and of the deleted posts, and the likes of all of them. *)
Definition delete_rows (du : User -> bool) (dp : Post -> bool) (dc : Comment -> bool)
    (db : DB) : DB :=
  let uids := map user_id (filter du (users db)) in
  let dp' p := dp p || mem_nat (post_user_id p) uids in
  let pids := map post_id (filter dp' (posts db)) in
  let dc' c := dc c || mem_nat (comment_user_id c) uids || mem_nat (comment_post_id c) pids in
  let cids := map comment_id (filter dc' (comments db)) in
  let dl l := mem_nat (like_user_id l) uids
              || existsb (fun pid => is_post_like pid l) pids
              || existsb (fun cid => is_comment_like cid l) cids in
  mkDB (filter (fun u => negb (du u)) (users db))
       (filter (fun p => negb (dp' p)) (posts db))
       (filter (fun c => negb (dc' c)) (comments db))
       (filter (fun l => negb (dl l)) (likes db)).

Definition delete_user_row (uid : nat) : DB -> DB :=
  delete_rows (fun u => Nat.eqb (user_id u) uid) (fun _ => false) (fun _ => false).
Definition delete_post_row (pid : nat) : DB -> DB :=
  delete_rows (fun _ => false) (fun p => Nat.eqb (post_id p) pid) (fun _ => false).
Definition delete_comment_row (cid : nat) : DB -> DB :=
  delete_rows (fun _ => false) (fun _ => false) (fun c => Nat.eqb (comment_id c) cid).
Definition delete_like_row (lid : nat) (db : DB) : DB :=
  mkDB (users db) (posts db) (comments db)
       (filter (fun l => negb (Nat.eqb (like_id l) lid)) (likes db)).

(** ** The request: session, exceptions and responses *)

Record World := mkWorld { committed : DB; session : DB }.

Inductive res (A : Type) :=
| Ok (a : A) (w : World)
| Exc (w : World).
Arguments Ok {A} a w.
Arguments Exc {A} w.

Definition M (A : Type) := World -> res A.

Definition ret {A} (a : A) : M A := fun w => Ok a w.
Definition bind {A B} (m : M A) (k : A -> M B) : M B :=
  fun w => match m w with Ok a w' => k a w' | Exc w' => Exc w' end.

Notation "x <- m ;; k" := (bind m (fun x => k))
  (at level 61, m at next level, right associativity).
Notation "m ;; k" := (bind m (fun _ => k)) (at level 61, right associativity).

(** An uncaught Python exception. *)
Definition raise {A} : M A := fun w => Exc w.

Definition lift {A} (o : option A) : M A :=
  match o with Some a => ret a | None => raise end.

(** Reading objects already in the identity map ([Query.get]). *)
Definition read {A} (f : DB -> A) : M A := fun w => Ok (f (session w)) w.

Definition modify (f : DB -> DB) : M unit :=
  fun w => Ok tt (mkWorld (committed w) (f (session w))).

(** Flushing the pending changes: SQLite rejects them when a constraint
    fails (IntegrityError, or the TypeError of a bad Boolean value). *)
Definition flush : M unit :=
  fun w => if db_ok (session w) then Ok tt w else Exc w.

(** A query ([filter_by(...).first()], [count()], [all()]): autoflush, then
    read. *)
Definition query {A} (f : DB -> A) : M A := flush ;; read f.

Definition commit : M unit :=
  flush ;; (fun w => Ok tt (mkWorld (session w) (session w))).

Inductive Payload :=
| PMsg
| PToken (uid : nat)
| PUser (u : User)
| PUsers (us : list User)
| PPost (p : Post)
| PPosts (ps : list Post)
| PPage (ps : list Post) (total page per_page total_pages : Z)
| PComments (cs : list Comment)
| PComment (c : Comment)
| PLiked (liked : bool) (likes_count : nat)
| PUserLiked (liked : bool)
| PLikes (ls : list Like)
| PProfile (u : User) (recent : list Post) (total_posts total_comments total_likes : nat).

Record Response := mkResp { status : nat; payload : Payload }.

Definition reply (s : nat) (p : Payload) : M Response := ret (mkResp s p).

(** [x.to_dict()] of a row the handler holds: it is in the session, so the
    lookup by id always finds it. *)
Definition user_payload (o : option User) : Payload :=
  match o with Some u => PUser u | None => PMsg end.
Definition post_payload (o : option Post) : Payload :=
  match o with Some p => PPost p | None => PMsg end.
Definition comment_payload (o : option Comment) : Payload :=
  match o with Some c => PComment c | None => PMsg end.

(** The [Authorization] header, as [jwt.decode] sees it: absent or empty,
    not a valid HS256 token for the secret key, or a validly signed token.
    [jwt.decode] checks its [exp] claim first (a token without one never
    expires: it acts as one with a large [exp]).  Its [user_id] claim is
    then passed to [User.query.get]: [TSigned uid exp] when it designates
    the row id [uid] (a claim SQLite matches with no integer id, such as a
    negative number, acts as the id of no row), [TBadUserId exp] when the
    claim is missing (KeyError) or a value the lookup cannot take (a list,
    an object, an integer below -2^63), which raises. *)
Inductive Token := TMissing | TInvalid | TSigned (uid : nat) (exp : Z) | TBadUserId (exp : Z).

Record Request := mkReq {
  req_token : Token;
  req_body : JValue;
  req_args : list (text * text);
  req_now : Z }.

(** [request.args.get(k, default)]: the first value of [k]. *)
Fixpoint args_get (args : list (text * text)) (k : text) : option text :=
  match args with
  | [] => None
  | (k', v) :: args' => if text_eqb k k' then Some v else args_get args' k
  end.

(** [int(s)] as [type=int] applies it: surrounding whitespace, an optional
    sign, decimal digits with single underscores between them, once the
    non-ASCII digits and spaces are mapped to ASCII. *)
Definition is_space (c : N) : bool := (N.eqb c 32) || ((9 <=? c)%N && (c <=? 13)%N).

Fixpoint strip_left (s : text) : text :=
  match s with c :: s' => if is_space c then strip_left s' else s | [] => [] end.

Definition py_strip (s : text) : text := rev (strip_left (rev (strip_left s))).

Fixpoint parse_digits (s : text) (acc : Z) (prev_digit : bool) : option Z :=
  match s with
  | [] => if prev_digit then Some acc else None
  | c :: s' =>
      if (48 <=? c)%N && (c <=? 57)%N
      then parse_digits s' (acc * 10 + Z.of_N (c - 48))%Z true
      else if N.eqb c 95 && prev_digit then parse_digits s' acc false
      else None
  end.

(** The non-ASCII characters [int()] reads (CPython 3.11, Unicode 14.0):
    the first code point of each run of ten decimal digits 0 to 9, and the
    white space characters from U+007F up. *)
Definition unicode_digit_starts : list N :=
  [1632; 1776; 1984; 2406; 2534; 2662; 2790; 2918; 3046; 3174; 3302; 3430; 3558;
   3664; 3792; 3872; 4160; 4240; 6112; 6160; 6470; 6608; 6784; 6800; 6992; 7088;
   7232; 7248; 42528; 43216; 43264; 43472; 43504; 43600; 44016; 65296; 66720;
   68912; 69734; 69872; 69942; 70096; 70384; 70736; 70864; 71248; 71360; 71472;
   71904; 72016; 72784; 73040; 73120; 92768; 92864; 93008; 120782; 120792;
   120802; 120812; 120822; 123200; 123632; 125264; 130032]%N.

Definition unicode_spaces : list N :=
  [133; 160; 5760; 8192; 8193; 8194; 8195; 8196; 8197; 8198; 8199; 8200; 8201;
   8202; 8232; 8233; 8239; 8287; 12288]%N.

Definition unicode_decimal (c : N) : option N :=
  match find (fun z => (z <=? c)%N && (c <? z + 10)%N) unicode_digit_starts with
  | Some z => Some (c - z)%N
  | None => None
  end.

(** [_PyUnicode_TransformDecimalAndSpaceToASCII]: characters below U+007F
    stay, other white space becomes a space, other decimal digits their
    ASCII digit; any other character makes [int()] fail. *)
Fixpoint to_ascii_decimal (s : text) : option text :=
  match s with
  | [] => Some []
  | c :: s' =>
      match to_ascii_decimal s' with
      | None => None
      | Some a =>
          if (c <? 127)%N then Some (c :: a)
          else if existsb (N.eqb c) unicode_spaces then Some (32%N :: a)
          else match unicode_decimal c with
               | Some d => Some ((48 + d)%N :: a)
               | None => None
               end
      end
  end.

Definition is_digit (c : N) : bool := (48 <=? c)%N && (c <=? 57)%N.

(** [sys.get_int_max_str_digits()]: [int()] refuses a string with more
    digits (ValueError). *)
Definition max_str_digits : nat := 4300.

Definition py_int (s : text) : option Z :=
  match to_ascii_decimal s with
  | None => None
  | Some a =>
      if Nat.ltb max_str_digits (List.length (filter is_digit a)) then None else
      match py_strip a with
      | c :: s' =>
          if N.eqb c 45 then option_map Z.opp (parse_digits s' 0 false)
          else if N.eqb c 43 then parse_digits s' 0 false
          else parse_digits (c :: s') 0 false
      | [] => None
      end
  end.

(** [request.args.get(k, default, type=int)]: the default when the value is
    absent or [int] raises [ValueError]. *)
Definition args_get_int (args : list (text * text)) (k : text) (default : Z) : Z :=
  match args_get args k with
  | Some s => match py_int s with Some z => z | None => default end
  | None => default
  end.

Section Handlers.

(** werkzeug's [generate_password_hash] and [check_password_hash]. *)
Variable gen_hash : text -> text.
Variable check_hash : text -> text -> bool.

(** [User.set_password]: [generate_password_hash] encodes its argument
    ([password.encode()]), which raises on anything but a [str] and on a
    [str] with a lone surrogate. *)
Definition set_password (v : JValue) : M text :=
  match v with
  | JStr s => if has_surrogate s then raise else ret (gen_hash s)
  | _ => raise
  end.

(** [User.check_password]: [check_password_hash] splits the stored hash
    (one [generate_password_hash] returned, so it has its three parts) and
    encodes the password the same way. *)
Definition check_password (u : User) (v : JValue) : M bool :=
  match password_hash u, v with
  | CText h, JStr s => if has_surrogate s then raise else ret (check_hash h s)
  | _, _ => raise
  end.

(** [not data.get(k)] evaluated left to right after [not data]. *)
Definition get_truthy (data : JValue) (k : text) : M bool :=
  r <- lift (py_get data k);;
  ret (match r with Some v => truthy v | None => false end).

Fixpoint fields_present (data : JValue) (ks : list text) : M bool :=
  match ks with
  | [] => ret true
  | k :: ks' => b <- get_truthy data k;; if b then fields_present data ks' else ret false
  end.

Definition body_has (data : JValue) (ks : list text) : M bool :=
  if truthy data then fields_present data ks else ret false.

(** [User.query.filter_by(col=v).first()]; a list or dict cannot be bound. *)
Definition filter_first_user (col : User -> cell) (v : cell) : M (option User) :=
  match v with
  | CBad => flush;; raise
  | _ => query (fun db => find (fun u => cell_eqb (col u) v) (users db))
  end.

(** The 404 answer after [Model.query.get(id)] found no row.  The lookup
    binds the id in its SELECT, and sqlite3 raises OverflowError for an id
    outside the signed 64-bit range (no row can carry one). *)
Abbreviation not_found id := (if rowid_ok id then reply 404 PMsg else raise).

(** [@token_required] *)
Definition token_required (rq : Request) (f : User -> M Response) : M Response :=
  match req_token rq with
  | TMissing => reply 401 PMsg
  | TInvalid => reply 401 PMsg
  | TSigned uid exp =>
      if Z.leb exp (req_now rq) then reply 401 PMsg
      else cu <- read (find_user uid);;
           match cu with
           | None => if rowid_ok uid then reply 401 PMsg else raise (* OverflowError *)
           | Some u => f u
           end
  | TBadUserId exp => if Z.leb exp (req_now rq) then reply 401 PMsg else raise
  end.

(** [@admin_required] *)
Definition admin_required (f : User -> M Response) (cu : User) : M Response :=
  if bcell_truthy (is_admin cu) then f cu else reply 403 PMsg.

(** POST /api/register *)
Definition register (rq : Request) : M Response :=
  let data := req_body rq in
  ok <- body_has data [txt "username"; txt "email"; txt "password"];;
  if negb ok then reply 400 PMsg else
  vu <- lift (py_getitem data (txt "username"));;
  ex <- filter_first_user username (to_cell vu);;
  match ex with
  | Some _ => reply 409 PMsg
  | None =>
    ve <- lift (py_getitem data (txt "email"));;
    ex' <- filter_first_user email (to_cell ve);;
    match ex' with
    | Some _ => reply 409 PMsg
    | None =>
      ia <- lift (py_get data (txt "is_admin"));;
      let admin := match ia with Some v => to_bcell v | None => BVal false end in
      pw <- lift (py_getitem data (txt "password"));;
      h <- set_password pw;;
      uid <- read (fun db => next_id (map user_id (users db)));;
      modify (add_user (mkUser uid (to_cell vu) (to_cell ve) (CText h) admin (req_now rq)));;
      commit;;
      u <- read (find_user uid);; reply 201 (user_payload u)
    end
  end.

(** POST /api/login *)
Definition login (rq : Request) : M Response :=
  let data := req_body rq in
  ok <- body_has data [txt "username"; txt "password"];;
  if negb ok then reply 400 PMsg else
  vu <- lift (py_getitem data (txt "username"));;
  u <- filter_first_user username (to_cell vu);;
  match u with
  | None => reply 401 PMsg
  | Some u =>
    pw <- lift (py_getitem data (txt "password"));;
    b <- check_password u pw;;
    if b then reply 200 (PToken (user_id u)) else reply 401 PMsg
  end.

(** GET /api/me *)
Definition get_current_user (cu : User) : M Response := reply 200 (PUser cu).

(** GET /api/admin/users *)
Definition get_all_users (cu : User) : M Response :=
  us <- query users;; reply 200 (PUsers us).

(** DELETE /api/admin/users/<user_id> *)
Definition delete_user (uid : nat) (cu : User) : M Response :=
  if Nat.eqb (user_id cu) uid then reply 400 PMsg else
  u <- read (find_user uid);;
  match u with
  | None => not_found uid
  | Some _ => modify (delete_user_row uid);; commit;; reply 200 PMsg
  end.

(** The [if 'username' in data:] (or ['email']) block of [update_user] and
    [update_own_profile], followed by the rest [k] of the handler. *)
Definition unique_field_step (data : JValue) (key : text) (col : User -> cell)
    (set : cell -> User -> User) (uid : nat) (k : M Response) : M Response :=
  b <- lift (py_in key data);;
  if b then
    v <- lift (py_getitem data key);;
    ex <- filter_first_user col (to_cell v);;
    match ex with
    | Some e =>
        if negb (Nat.eqb (user_id e) uid) then reply 409 PMsg
        else modify (map_user uid (set (to_cell v)));; k
    | None => modify (map_user uid (set (to_cell v)));; k
    end
  else k.

(** PUT /api/admin/users/<user_id> *)
Definition update_user (rq : Request) (uid : nat) (cu : User) : M Response :=
  target <- read (find_user uid);;
  match target with
  | None => not_found uid
  | Some _ =>
    let data := req_body rq in
    let finish :=
      bp <- lift (py_in (txt "password") data);;
      (if bp then
         v <- lift (py_getitem data (txt "password"));;
         if truthy v then h <- set_password v;; modify (map_user uid (set_password_hash h))
         else ret tt
       else ret tt);;
      commit;;
      u <- read (find_user uid);; reply 200 (user_payload u) in
    unique_field_step data (txt "username") username set_username uid (
    unique_field_step data (txt "email") email set_email uid (
    ba <- lift (py_in (txt "is_admin") data);;
    if ba then
      if Nat.eqb (user_id cu) uid then reply 400 PMsg
      else v <- lift (py_getitem data (txt "is_admin"));;
           modify (map_user uid (set_is_admin (to_bcell v)));;
           finish
    else finish))
  end.

(** [order_by(Post.created_at.desc())]: a stable insertion sort, rows with
    equal timestamps kept in rowid order. *)
Fixpoint insert_desc (p : Post) (l : list Post) : list Post :=
  match l with
  | [] => [p]
  | q :: l' =>
      if Z.ltb (post_created_at p) (post_created_at q) then q :: insert_desc p l'
      else p :: l
  end.

Fixpoint sort_desc (l : list Post) : list Post :=
  match l with [] => [] | p :: l' => insert_desc p (sort_desc l') end.

(** [order_by(Comment.created_at.asc())] *)
Fixpoint insert_asc (c : Comment) (l : list Comment) : list Comment :=
  match l with
  | [] => [c]
  | d :: l' =>
      if Z.ltb (comment_created_at d) (comment_created_at c) then d :: insert_asc c l'
      else c :: l
  end.

Fixpoint sort_asc (l : list Comment) : list Comment :=
  match l with [] => [] | c :: l' => insert_asc c (sort_asc l') end.

(** [.offset(o).limit(n)] in SQLite: a negative offset counts as 0, a
    negative limit means no limit. *)
Definition slice {A} (o n : Z) (l : list A) : list A :=
  let l' := skipn (Z.to_nat o) l in
  if Z.ltb n 0 then l' else firstn (Z.to_nat n) l'.

(** GET /api/posts *)
Definition get_posts (rq : Request) : M Response :=
  let page := args_get_int (req_args rq) (txt "page") 1 in
  let per_page := args_get_int (req_args rq) (txt "per_page") 10 in
  total <- query (fun db => Z.of_nat (List.length (posts db)));;
  (* OFFSET and LIMIT are bound parameters: OverflowError outside 64 bits *)
  ps <- (if int64_ok ((page - 1) * per_page) && int64_ok per_page
         then query (fun db => slice ((page - 1) * per_page) per_page (sort_desc (posts db)))
         else flush;; raise);;
  if Z.eqb per_page 0 then raise (* ZeroDivisionError *)
  else reply 200 (PPage ps total page per_page ((total + per_page - 1) / per_page)).

(** GET /api/posts/<post_id> *)
Definition get_post (pid : nat) : M Response :=
  p <- read (find_post pid);;
  match p with None => not_found pid | Some p => reply 200 (PPost p) end.

(** POST /api/posts *)
Definition create_post (rq : Request) (cu : User) : M Response :=
  let data := req_body rq in
  ok <- body_has data [txt "title"; txt "content"];;
  if negb ok then reply 400 PMsg else
  vt <- lift (py_getitem data (txt "title"));;
  vc <- lift (py_getitem data (txt "content"));;
  pid <- read (fun db => next_id (map post_id (posts db)));;
  modify (add_post (mkPost pid (to_cell vt) (to_cell vc) (user_id cu) (req_now rq) (req_now rq)));;
  commit;;
  p <- read (find_post pid);; reply 201 (post_payload p).

(** The ownership test of the four mutation handlers:
    [x.user_id != current_user.id and not current_user.is_admin]. *)
Definition forbidden (owner : nat) (cu : User) : bool :=
  negb (Nat.eqb owner (user_id cu)) && negb (bcell_truthy (is_admin cu)).

(** PUT /api/posts/<post_id> *)
Definition update_post (rq : Request) (pid : nat) (cu : User) : M Response :=
  p <- read (find_post pid);;
  match p with
  | None => not_found pid
  | Some p =>
    if forbidden (post_user_id p) cu then reply 403 PMsg else
    let data := req_body rq in
    bt <- lift (py_in (txt "title") data);;
    (if bt then v <- lift (py_getitem data (txt "title"));;
                modify (map_post pid (set_title (to_cell v)))
     else ret tt);;
    bc <- lift (py_in (txt "content") data);;
    (if bc then v <- lift (py_getitem data (txt "content"));;
                modify (map_post pid (set_content (to_cell v)))
     else ret tt);;
    modify (map_post pid (set_post_updated_at (req_now rq)));;
    commit;;
    p' <- read (find_post pid);; reply 200 (post_payload p')
  end.

(** DELETE /api/posts/<post_id> *)
Definition delete_post (pid : nat) (cu : User) : M Response :=
  p <- read (find_post pid);;
  match p with
  | None => not_found pid
  | Some p =>
    if forbidden (post_user_id p) cu then reply 403 PMsg else
    modify (delete_post_row pid);; commit;; reply 200 PMsg
  end.

(** GET /api/posts/<post_id>/comments *)
Definition get_comments (pid : nat) : M Response :=
  p <- read (find_post pid);;
  match p with
  | None => not_found pid
  | Some _ =>
    cs <- query (fun db => sort_asc (filter (fun c => Nat.eqb (comment_post_id c) pid)
                                            (comments db)));;
    reply 200 (PComments cs)
  end.

(** POST /api/posts/<post_id>/comments *)
Definition create_comment (rq : Request) (pid : nat) (cu : User) : M Response :=
  p <- read (find_post pid);;
  match p with
  | None => not_found pid
  | Some _ =>
    let data := req_body rq in
    ok <- body_has data [txt "content"];;
    if negb ok then reply 400 PMsg else
    vc <- lift (py_getitem data (txt "content"));;
    cid <- read (fun db => next_id (map comment_id (comments db)));;
    modify (add_comment (mkComment cid (to_cell vc) (user_id cu) pid (req_now rq) (req_now rq)));;
    commit;;
    c <- read (find_comment cid);; reply 201 (comment_payload c)
  end.

(** PUT /api/comments/<comment_id> *)
Definition update_comment (rq : Request) (cid : nat) (cu : User) : M Response :=
  c <- read (find_comment cid);;
  match c with
  | None => not_found cid
  | Some c =>
    if forbidden (comment_user_id c) cu then reply 403 PMsg else
    let data := req_body rq in
    ok <- body_has data [txt "content"];;
    if negb ok then reply 400 PMsg else
    vc <- lift (py_getitem data (txt "content"));;
    modify (map_comment cid (set_comment_content (to_cell vc) (req_now rq)));;
    commit;;
    c' <- read (find_comment cid);; reply 200 (comment_payload c')
  end.

(** DELETE /api/comments/<comment_id> *)
Definition delete_comment (cid : nat) (cu : User) : M Response :=
  c <- read (find_comment cid);;
  match c with
  | None => not_found cid
  | Some c =>
    if forbidden (comment_user_id c) cu then reply 403 PMsg else
    modify (delete_comment_row cid);; commit;; reply 200 PMsg
  end.

(** [Like.query.filter_by(user_id=uid, post_id=pid, comment_id=None).first()] *)
Definition find_post_like (uid pid : nat) (db : DB) : option Like :=
  find (fun l => Nat.eqb (like_user_id l) uid && is_post_like pid l) (likes db).
Definition find_comment_like (uid cid : nat) (db : DB) : option Like :=
  find (fun l => Nat.eqb (like_user_id l) uid && is_comment_like cid l) (likes db).

(** POST /api/posts/<post_id>/like.  The [likes_count] is the lazy load of
    [post.likes] after the commit, with nothing left to flush. *)
Definition toggle_post_like (rq : Request) (pid : nat) (cu : User) : M Response :=
  p <- read (find_post pid);;
  match p with
  | None => not_found pid
  | Some _ =>
    ex <- query (find_post_like (user_id cu) pid);;
    match ex with
    | Some l =>
      modify (delete_like_row (like_id l));;
      commit;;
      n <- read (fun db => List.length (filter (is_post_like pid) (likes db)));;
      reply 200 (PLiked false n)
    | None =>
      lid <- read (fun db => next_id (map like_id (likes db)));;
      modify (add_like (mkLike lid (user_id cu) (Some pid) None (req_now rq)));;
      commit;;
      n <- read (fun db => List.length (filter (is_post_like pid) (likes db)));;
      reply 201 (PLiked true n)
    end
  end.

(** POST /api/comments/<comment_id>/like *)
Definition toggle_comment_like (rq : Request) (cid : nat) (cu : User) : M Response :=
  c <- read (find_comment cid);;
  match c with
  | None => not_found cid
  | Some _ =>
    ex <- query (find_comment_like (user_id cu) cid);;
    match ex with
    | Some l =>
      modify (delete_like_row (like_id l));;
      commit;;
      n <- read (fun db => List.length (filter (is_comment_like cid) (likes db)));;
      reply 200 (PLiked false n)
    | None =>
      lid <- read (fun db => next_id (map like_id (likes db)));;
      modify (add_like (mkLike lid (user_id cu) None (Some cid) (req_now rq)));;
      commit;;
      n <- read (fun db => List.length (filter (is_comment_like cid) (likes db)));;
      reply 201 (PLiked true n)
    end
  end.

(** GET /api/posts/<post_id>/likes *)
Definition get_post_likes (pid : nat) : M Response :=
  p <- read (find_post pid);;
  match p with
  | None => not_found pid
  | Some _ => ls <- query (fun db => filter (is_post_like pid) (likes db));; reply 200 (PLikes ls)
  end.

(** GET /api/comments/<comment_id>/likes *)
Definition get_comment_likes (cid : nat) : M Response :=
  c <- read (find_comment cid);;
  match c with
  | None => not_found cid
  | Some _ => ls <- query (fun db => filter (is_comment_like cid) (likes db));; reply 200 (PLikes ls)
  end.

(** GET /api/posts/<post_id>/user-liked *)
Definition check_user_liked_post (pid : nat) (cu : User) : M Response :=
  p <- read (find_post pid);;
  match p with
  | None => not_found pid
  | Some _ =>
    l <- query (find_post_like (user_id cu) pid);;
    reply 200 (PUserLiked (match l with Some _ => true | None => false end))
  end.

(** GET /api/comments/<comment_id>/user-liked *)
Definition check_user_liked_comment (cid : nat) (cu : User) : M Response :=
  c <- read (find_comment cid);;
  match c with
  | None => not_found cid
  | Some _ =>
    l <- query (find_comment_like (user_id cu) cid);;
    reply 200 (PUserLiked (match l with Some _ => true | None => false end))
  end.

(** GET /api/users/<user_id>/profile *)
Definition get_user_profile (uid : nat) : M Response :=
  u <- read (find_user uid);;
  match u with
  | None => not_found uid
  | Some u =>
    ps <- query (fun db => firstn 10 (sort_desc (filter (fun p => Nat.eqb (post_user_id p) uid)
                                                           (posts db))));;
    np <- query (fun db => List.length (filter (fun p => Nat.eqb (post_user_id p) uid) (posts db)));;
    nc <- query (fun db => List.length (filter (fun c => Nat.eqb (comment_user_id c) uid)
                                               (comments db)));;
    nl <- query (fun db => List.length (filter (fun l => Nat.eqb (like_user_id l) uid) (likes db)));;
    reply 200 (PProfile u ps np nc nl)
  end.

(** PUT /api/profile *)
Definition update_own_profile (rq : Request) (cu : User) : M Response :=
  let data := req_body rq in
  let uid := user_id cu in
  unique_field_step data (txt "username") username set_username uid (
  unique_field_step data (txt "email") email set_email uid (
  commit;;
  u <- read (find_user uid);; reply 200 (user_payload u))).

(** PUT /api/profile/password *)
Definition update_password (rq : Request) (cu : User) : M Response :=
  let data := req_body rq in
  ok <- body_has data [txt "current_password"; txt "new_password"];;
  if negb ok then reply 400 PMsg else
  cp <- lift (py_getitem data (txt "current_password"));;
  b <- check_password cu cp;;
  if negb b then reply 401 PMsg else
  np <- lift (py_getitem data (txt "new_password"));;
  n <- lift (py_len np);;
  if Nat.ltb n 6 then reply 400 PMsg else
  h <- set_password np;;
  modify (map_user (user_id cu) (set_password_hash h));;
  commit;;
  reply 200 PMsg.

(** SQLite's [lower()] and the case folding of [LIKE]: ASCII letters only. *)
Definition lower_cp (c : N) : N := if (65 <=? c)%N && (c <=? 90)%N then (c + 32)%N else c.
Definition sql_lower (s : text) : text := map lower_cp s.

(** SQLite [LIKE] without an ESCAPE clause: [%] matches any sequence, [_]
    any one character, other characters match up to ASCII case. *)
Fixpoint like_match (pat s : text) : bool :=
  match pat with
  | [] => match s with [] => true | _ => false end
  | c :: pat' =>
      if N.eqb c 37 then existsb (fun k => like_match pat' (skipn k s)) (seq 0 (S (List.length s)))
      else match s with
           | [] => false
           | d :: s' => (N.eqb c 95 || N.eqb (lower_cp c) (lower_cp d)) && like_match pat' s'
           end
  end.

(** [col.ilike(pattern)], compiled by SQLAlchemy to
    [lower(col) LIKE lower(pattern)]; NULL never matches. *)
Definition ilike (c : cell) (pat : text) : bool :=
  match c with CText s => like_match (sql_lower pat) (sql_lower s) | _ => false end.

Definition search_filter (pattern : text) (p : Post) : bool :=
  ilike (title p) pattern || ilike (content p) pattern.

(** The length in bytes of the UTF-8 encoding, as SQLite measures a
    pattern, and [SQLITE_MAX_LIKE_PATTERN_LENGTH]: SQLite's [LIKE] refuses
    a longer pattern when it first compares a row. *)
Definition utf8_len (s : text) : N :=
  fold_right (fun c n => (if c <? 128 then 1 else if c <? 2048 then 2
                          else if c <? 65536 then 3 else 4) + n)%N 0%N s.

Definition max_like_pattern : N := 50000.

(** GET /api/posts/search *)
Definition search_posts (rq : Request) : M Response :=
  let q := match args_get (req_args rq) (txt "q") with Some s => s | None => [] end in
  if match q with [] => true | _ => false end || Nat.ltb (List.length q) 2
  then reply 400 PMsg
  else
    let search_pattern := [37%N] ++ q ++ [37%N] in
    (* binding the pattern: UnicodeEncodeError on a lone surrogate *)
    if has_surrogate search_pattern then flush;; raise else
    n <- query (fun db => List.length (posts db));;
    (* [LIKE] on the first row: 'LIKE or GLOB pattern too complex' *)
    if N.ltb max_like_pattern (utf8_len search_pattern) && negb (Nat.eqb n 0) then raise else
    ps <- read (fun db => firstn 50 (sort_desc (filter (search_filter search_pattern) (posts db))));;
    reply 200 (PPosts ps).

Inductive Route :=
| RRegister | RLogin | RMe | RGetAllUsers
| RDeleteUser (uid : nat) | RUpdateUser (uid : nat)
| RGetPosts | RGetPost (pid : nat) | RCreatePost
| RUpdatePost (pid : nat) | RDeletePost (pid : nat)
| RGetComments (pid : nat) | RCreateComment (pid : nat)
| RUpdateComment (cid : nat) | RDeleteComment (cid : nat)
| RTogglePostLike (pid : nat) | RToggleCommentLike (cid : nat)
| RGetPostLikes (pid : nat) | RGetCommentLikes (cid : nat)
| RUserLikedPost (pid : nat) | RUserLikedComment (cid : nat)
| RUserProfile (uid : nat) | RUpdateProfile | RUpdatePassword
| RSearch.

(** The URL map with the decorators of each view. *)
Definition handle (r : Route) (rq : Request) : M Response :=
  match r with
  | RRegister => register rq
  | RLogin => login rq
  | RMe => token_required rq get_current_user
  | RGetAllUsers => token_required rq (admin_required get_all_users)
  | RDeleteUser uid => token_required rq (admin_required (delete_user uid))
  | RUpdateUser uid => token_required rq (admin_required (update_user rq uid))
  | RGetPosts => get_posts rq
  | RGetPost pid => get_post pid
  | RCreatePost => token_required rq (create_post rq)
  | RUpdatePost pid => token_required rq (update_post rq pid)
  | RDeletePost pid => token_required rq (delete_post pid)
  | RGetComments pid => get_comments pid
  | RCreateComment pid => token_required rq (create_comment rq pid)
  | RUpdateComment cid => token_required rq (update_comment rq cid)
  | RDeleteComment cid => token_required rq (delete_comment cid)
  | RTogglePostLike pid => token_required rq (toggle_post_like rq pid)
  | RToggleCommentLike cid => token_required rq (toggle_comment_like rq cid)
  | RGetPostLikes pid => get_post_likes pid
  | RGetCommentLikes cid => get_comment_likes cid
  | RUserLikedPost pid => token_required rq (check_user_liked_post pid)
  | RUserLikedComment cid => token_required rq (check_user_liked_comment cid)
  | RUserProfile uid => get_user_profile uid
  | RUpdateProfile => token_required rq (update_own_profile rq)
  | RUpdatePassword => token_required rq (update_password rq)
  | RSearch => search_posts rq
  end.

(** One request against the database [db]: a fresh session, the handler,
    then the session is removed (rollback of anything not committed).  An
    exception gives a 500 response. *)
Definition run (r : Route) (rq : Request) (db : DB) : Response * DB :=
  match handle r rq (mkWorld db db) with
  | Ok resp w => (resp, committed w)
  | Exc w => (mkResp 500 PMsg, committed w)
  end.

(** The [@app.before_request] hook [create_tables]: when the users table is
    empty, insert the default admin account and commit. *)
Definition create_tables (now : Z) (db : DB) : DB :=
  match users db with
  | [] =>
      let admin := mkUser (next_id []) (CText (txt "admin")) (CText (txt "admin@example.com"))
                          (CText (gen_hash (txt "admin123"))) (BVal true) now in
      let db' := add_user admin db in
      if db_ok db' then db' else db
  | _ => db
  end.

(** The database states reachable from an empty database by requests (the
    hook may run again whenever a new process starts). *)
Inductive reachable : DB -> Prop :=
| reach_empty : reachable empty_db
| reach_hook : forall now db, reachable db -> reachable (create_tables now db)
| reach_request : forall r rq db, reachable db -> reachable (snd (run r rq db)).

End Handlers.

(** * Properties of the handlers *)

Definition is_2xx (r : Response) : bool := Nat.leb 200 (status r) && Nat.ltb (status r) 300.

Definition world_of {A} (o : res A) : World :=
  match o with Ok _ w => w | Exc w => w end.

(** ** Error atomicity *)

(** A computation that never commits. *)
Definition nocommit {A} (m : M A) : Prop :=
  forall w, committed (world_of (m w)) = committed w.

(** A handler that, unless it answers 2xx, leaves the committed rows as
    they were when it started. *)
Definition atomic (m : M Response) : Prop :=
  forall w, match m w with
            | Ok r w' => is_2xx r = true \/ committed w' = committed w
            | Exc w' => committed w' = committed w
            end.

(** What a handler does after its commit: reads, then a 2xx response. *)
Definition ends_2xx (m : M Response) : Prop :=
  forall w, exists r, m w = Ok r w /\ is_2xx r = true.

Create HintDb nocommit.

Lemma nocommit_ret {A} (a : A) : nocommit (ret a).
Proof. intro w; reflexivity. Qed.

Lemma nocommit_read {A} (f : DB -> A) : nocommit (read f).
Proof. intro w; reflexivity. Qed.

Lemma nocommit_modify f : nocommit (modify f).
Proof. intro w; reflexivity. Qed.

Lemma nocommit_flush : nocommit flush.
Proof. intro w; unfold flush; destruct (db_ok (session w)); reflexivity. Qed.

Lemma nocommit_raise {A} : nocommit (@raise A).
Proof. intro w; reflexivity. Qed.

Lemma nocommit_lift {A} (o : option A) : nocommit (lift o).
Proof. destruct o; intro w; reflexivity. Qed.

Lemma nocommit_bind {A B} (m : M A) (k : A -> M B) :
  nocommit m -> (forall a, nocommit (k a)) -> nocommit (bind m k).
Proof.
  intros Hm Hk w; unfold bind; specialize (Hm w).
  destruct (m w) as [a w'|w']; simpl in *; [rewrite Hk|]; exact Hm.
Qed.

Lemma nocommit_query {A} (f : DB -> A) : nocommit (query f).
Proof. apply nocommit_bind; [apply nocommit_flush | intro; apply nocommit_read]. Qed.

#[local] Hint Resolve nocommit_ret nocommit_read nocommit_modify nocommit_flush
  nocommit_raise nocommit_lift nocommit_query : nocommit.

Ltac nocommit_tac :=
  repeat match goal with
  | |- nocommit (bind _ _) => apply nocommit_bind; [ | intro; cbv beta]
  | |- nocommit (if ?b then _ else _) => destruct b
  | |- nocommit (match ?x with _ => _ end) => destruct x
  | |- nocommit _ => solve [auto with nocommit]
  end.

Section NoCommit.
Variable gen_hash : text -> text.
Variable check_hash : text -> text -> bool.

Lemma nocommit_set_password v : nocommit (set_password gen_hash v).
Proof. unfold set_password; nocommit_tac. Qed.

Lemma nocommit_check_password u v : nocommit (check_password check_hash u v).
Proof. unfold check_password; nocommit_tac. Qed.
End NoCommit.

Lemma nocommit_get_truthy data k : nocommit (get_truthy data k).
Proof. unfold get_truthy; nocommit_tac. Qed.

Lemma nocommit_fields_present data ks : nocommit (fields_present data ks).
Proof.
  induction ks as [|k ks IH]; simpl; nocommit_tac; auto using nocommit_get_truthy.
Qed.

Lemma nocommit_body_has data ks : nocommit (body_has data ks).
Proof. unfold body_has; nocommit_tac; apply nocommit_fields_present. Qed.

Lemma nocommit_filter_first_user col v : nocommit (filter_first_user col v).
Proof. unfold filter_first_user; nocommit_tac. Qed.

#[local] Hint Resolve nocommit_set_password nocommit_check_password nocommit_get_truthy
  nocommit_body_has nocommit_filter_first_user : nocommit.

Lemma atomic_bind {A} (m : M A) (k : A -> M Response) :
  nocommit m -> (forall a, atomic (k a)) -> atomic (bind m k).
Proof.
  intros Hm Hk w; unfold bind; specialize (Hm w).
  destruct (m w) as [a w'|w']; simpl in *; [|exact Hm].
  specialize (Hk a w'); destruct (k a w'); [destruct Hk; [left|right; congruence]|]; auto.
  congruence.
Qed.

Lemma atomic_reply s p : atomic (reply s p).
Proof. intro w; right; reflexivity. Qed.

Lemma atomic_raise : atomic raise.
Proof. intro w; reflexivity. Qed.

Lemma ends_2xx_read {A} (f : DB -> A) (k : A -> M Response) :
  (forall a, ends_2xx (k a)) -> ends_2xx (bind (read f) k).
Proof. intros Hk w; apply Hk. Qed.

Lemma ends_2xx_reply s p : is_2xx (mkResp s p) = true -> ends_2xx (reply s p).
Proof. intros H w; exists (mkResp s p); split; [reflexivity | exact H]. Qed.

Lemma atomic_commit (k : M Response) : ends_2xx k -> atomic (commit ;; k).
Proof.
  intros Hk w; cbv [bind commit flush].
  destruct (db_ok (session w)); [|reflexivity].
  destruct (Hk (mkWorld (session w) (session w))) as [r [-> H2]]; left; exact H2.
Qed.

Ltac ends_tac :=
  repeat match goal with
  | |- ends_2xx (bind (read _) _) => apply ends_2xx_read; intro; cbv beta
  | |- ends_2xx (reply _ _) => apply ends_2xx_reply; reflexivity
  end.

Ltac atomic_tac :=
  repeat match goal with
  | |- atomic (bind commit _) => apply atomic_commit; ends_tac
  | |- atomic (bind _ _) => apply atomic_bind; [nocommit_tac | intro; cbv beta]
  | |- atomic (if ?b then _ else _) => destruct b
  | |- atomic (match ?x with _ => _ end) => destruct x
  | |- atomic (reply _ _) => apply atomic_reply
  | |- atomic raise => apply atomic_raise
  end.

Lemma atomic_unique_field_step data key col set uid k :
  atomic k -> atomic (unique_field_step data key col set uid k).
Proof. intro Hk; unfold unique_field_step; atomic_tac; exact Hk. Qed.

Lemma atomic_token_required rq f :
  (forall u, atomic (f u)) -> atomic (token_required rq f).
Proof. intro Hf; unfold token_required; atomic_tac; apply Hf. Qed.

Lemma atomic_admin_required f cu :
  (forall u, atomic (f u)) -> atomic (admin_required f cu).
Proof. intro Hf; unfold admin_required; atomic_tac; apply Hf. Qed.

Ltac handler_atomic :=
  repeat match goal with
  | |- atomic (unique_field_step _ _ _ _ _ _) => apply atomic_unique_field_step
  | |- forall _, _ => intro
  | |- _ => progress atomic_tac
  end.

Lemma handle_atomic gh ch r rq : atomic (handle gh ch r rq).
Proof.
  destruct r; simpl;
    repeat first [ apply atomic_token_required; intro
                 | apply atomic_admin_required; intro ];
    cbv beta delta [register login get_current_user get_all_users delete_user update_user
                    get_posts get_post create_post update_post delete_post get_comments
                    create_comment update_comment delete_comment toggle_post_like
                    toggle_comment_like get_post_likes get_comment_likes
                    check_user_liked_post check_user_liked_comment get_user_profile
                    update_own_profile update_password search_posts] zeta;
    handler_atomic.
Qed.

(** ** Table constraints under the session updates *)

Lemma existsb_filter {A} (q p : A -> bool) l :
  existsb q (filter p l) = true -> existsb q l = true.
Proof.
  induction l as [|x l IH]; simpl; [auto|].
  destruct (p x); simpl; rewrite ?orb_true_iff; intuition.
Qed.

Lemma existsb_map_filter {A B} (q : B -> bool) (f : A -> B) p l :
  existsb q (map f (filter p l)) = true -> existsb q (map f l) = true.
Proof.
  induction l as [|x l IH]; simpl; [auto|].
  destruct (p x); simpl; rewrite ?orb_true_iff; intuition.
Qed.

Lemma no_clash_map_filter {A B} (c : B -> B -> bool) (f : A -> B) p l :
  no_clash c (map f l) = true -> no_clash c (map f (filter p l)) = true.
Proof.
  induction l as [|x l IH]; simpl; [auto|].
  rewrite andb_true_iff; intros [H1 H2].
  destruct (p x); simpl; [|auto].
  rewrite andb_true_iff; split; [|auto].
  rewrite negb_true_iff in *.
  destruct (existsb (c (f x)) (map f (filter p l))) eqn:E; [|reflexivity].
  apply existsb_map_filter in E; congruence.
Qed.

Lemma no_clash_filter {A} (c : A -> A -> bool) p l :
  no_clash c l = true -> no_clash c (filter p l) = true.
Proof.
  intro H; rewrite <- (map_id (filter p l)); apply no_clash_map_filter; rewrite map_id; exact H.
Qed.

Lemma forallb_filter {A} (q p : A -> bool) l :
  forallb q l = true -> forallb q (filter p l) = true.
Proof.
  rewrite !forallb_forall; intros H x Hx; apply filter_In in Hx; apply H; tauto.
Qed.

Lemma no_clash_app1 {A} (c : A -> A -> bool) l x :
  no_clash c (l ++ [x]) = no_clash c l && negb (existsb (fun y => c y x) l).
Proof.
  induction l as [|y l IH]; simpl; [reflexivity|].
  rewrite IH, existsb_app; simpl.
  destruct (c y x), (existsb (c y) l), (no_clash c l), (existsb (fun y0 => c y0 x) l);
    reflexivity.
Qed.

Lemma next_id_fresh l : existsb (Nat.eqb (next_id l)) l = false.
Proof.
  unfold next_id.
  assert (H : forall x, In x l -> x <= fold_right Nat.max 0 l).
  { induction l as [|y l IH]; simpl; [tauto|].
    intros x [->|Hx]; [lia|specialize (IH x Hx); lia]. }
  destruct (existsb _ l) eqn:E; [|reflexivity].
  apply existsb_exists in E; destruct E as [x [Hx Ex]].
  apply Nat.eqb_eq in Ex; specialize (H x Hx); lia.
Qed.

Lemma nodup_nat_app1 l x :
  nodup_nat l = true -> existsb (Nat.eqb x) l = false -> nodup_nat (l ++ [x]) = true.
Proof.
  unfold nodup_nat; intros H1 H2; rewrite no_clash_app1, H1; simpl.
  rewrite negb_true_iff; rewrite <- H2; clear H1 H2.
  induction l as [|y l IH]; simpl; [reflexivity|rewrite Nat.eqb_sym, IH; reflexivity].
Qed.

Lemma map_map_same_key {A B} (key : A -> B) (f : A -> A) (sel : A -> bool) l :
  (forall x, key (f x) = key x) ->
  map key (map (fun x => if sel x then f x else x) l) = map key l.
Proof.
  intro Hf; rewrite map_map; apply map_ext; intro x; destruct (sel x); auto.
Qed.

Lemma forallb_map_update {A} (q : A -> bool) (f : A -> A) (sel : A -> bool) l :
  (forall x, q x = true -> q (f x) = true) -> forallb q l = true ->
  forallb q (map (fun x => if sel x then f x else x) l) = true.
Proof.
  intros Hf; rewrite !forallb_forall; intros H y Hy.
  apply in_map_iff in Hy; destruct Hy as [x [<- Hx]].
  destruct (sel x); auto.
Qed.

Ltac split_db_ok H :=
  unfold db_ok in H; repeat rewrite andb_true_iff in H; decompose [and] H; clear H.

Ltac prove_db_ok :=
  unfold db_ok; repeat rewrite andb_true_iff; repeat split.

Lemma db_ok_delete_rows du dp dc db :
  db_ok db = true -> db_ok (delete_rows du dp dc db) = true.
Proof.
  intro H; split_db_ok H; unfold delete_rows; cbn [users posts comments likes].
  prove_db_ok;
    first [ apply forallb_filter; assumption
          | apply no_clash_map_filter; assumption
          | apply no_clash_filter; assumption ].
Qed.

Lemma db_ok_delete_like_row lid db :
  db_ok db = true -> db_ok (delete_like_row lid db) = true.
Proof.
  intro H; split_db_ok H; unfold delete_like_row; cbn [users posts comments likes].
  prove_db_ok; try assumption;
    first [ apply forallb_filter; assumption
          | apply no_clash_map_filter; assumption
          | apply no_clash_filter; assumption ].
Qed.

(** A new like on one target, with a fresh rowid. *)
Lemma db_ok_add_like l db :
  db_ok db = true -> like_target_ok l = true ->
  like_id l = next_id (map like_id (likes db)) ->
  db_ok (add_like l db) = true.
Proof.
  intros H Ht Hid; split_db_ok H; unfold add_like; prove_db_ok; cbn [users posts comments likes]; try assumption.
  - rewrite forallb_app; simpl; rewrite Ht; simpl; rewrite andb_true_r; assumption.
  - rewrite map_app; simpl; apply nodup_nat_app1; [assumption|].
    rewrite Hid; apply next_id_fresh.
  - unfold like_triples_unique; rewrite no_clash_app1.
    match goal with H : like_triples_unique _ = true |- _ => unfold like_triples_unique in H; rewrite H end.
    simpl; rewrite negb_true_iff.
    unfold like_target_ok in Ht; apply not_true_is_false; intro E.
    apply existsb_exists in E; destruct E as [y [_ Ey]].
    unfold like_triple_clash in Ey.
    destruct (like_post_id y), (like_comment_id y), (like_post_id l), (like_comment_id l);
      discriminate.
Qed.

(** ** Invariants of the committed rows *)

(** A computation with no effect on the world (reads, queries, raising). *)
Definition pure_m {A} (m : M A) : Prop := forall w, world_of (m w) = w.

Create HintDb pure_m.

Lemma pure_ret {A} (a : A) : pure_m (ret a).
Proof. intro w; reflexivity. Qed.
Lemma pure_reply s p : pure_m (reply s p).
Proof. intro w; reflexivity. Qed.
Lemma pure_read {A} (f : DB -> A) : pure_m (read f).
Proof. intro w; reflexivity. Qed.
Lemma pure_flush : pure_m flush.
Proof. intro w; unfold flush; destruct (db_ok (session w)); reflexivity. Qed.
Lemma pure_raise {A} : pure_m (@raise A).
Proof. intro w; reflexivity. Qed.
Lemma pure_lift {A} (o : option A) : pure_m (lift o).
Proof. destruct o; intro w; reflexivity. Qed.
Lemma pure_bind {A B} (m : M A) (k : A -> M B) :
  pure_m m -> (forall a, pure_m (k a)) -> pure_m (bind m k).
Proof.
  intros Hm Hk w; unfold bind; specialize (Hm w).
  destruct (m w) as [a w'|w']; simpl in *; [rewrite Hk|]; exact Hm.
Qed.
Lemma pure_query {A} (f : DB -> A) : pure_m (query f).
Proof. apply pure_bind; [apply pure_flush | intro; apply pure_read]. Qed.

#[local] Hint Resolve pure_ret pure_reply pure_read pure_flush pure_raise pure_lift pure_query : pure_m.

Ltac pure_tac :=
  repeat match goal with
  | |- pure_m (bind _ _) => apply pure_bind; [ | intro; cbv beta]
  | |- pure_m (if ?b then _ else _) => destruct b
  | |- pure_m (match ?x with _ => _ end) => destruct x
  | |- pure_m _ => solve [auto with pure_m]
  end.

Lemma pure_set_password gh v : pure_m (set_password gh v).
Proof. unfold set_password; pure_tac. Qed.
Lemma pure_check_password ch u v : pure_m (check_password ch u v).
Proof. unfold check_password; pure_tac. Qed.
Lemma pure_get_truthy data k : pure_m (get_truthy data k).
Proof. unfold get_truthy; pure_tac. Qed.
Lemma pure_fields_present data ks : pure_m (fields_present data ks).
Proof. induction ks; simpl; pure_tac; auto using pure_get_truthy. Qed.
Lemma pure_body_has data ks : pure_m (body_has data ks).
Proof. unfold body_has; pure_tac; apply pure_fields_present. Qed.
Lemma pure_filter_first_user col v : pure_m (filter_first_user col v).
Proof. unfold filter_first_user; pure_tac. Qed.

#[local] Hint Resolve pure_set_password pure_check_password pure_get_truthy
  pure_body_has pure_filter_first_user : pure_m.

(** A relation between the world before and after a step, closed under
    no step and under sequencing. *)
Class WorldPreorder (R : World -> World -> Prop) := {
  R_refl : forall w, R w w;
  R_trans : forall a b c, R a b -> R b c -> R a c }.

Section Preserve.
Context {R : World -> World -> Prop} {R_pre : WorldPreorder R}.

(** [m] moves the world only along [R]. *)
Definition preserves {A} (m : M A) : Prop := forall w, R w (world_of (m w)).

Lemma preserves_pure {A} (m : M A) : pure_m m -> preserves m.
Proof. intros H w; rewrite H; apply R_refl. Qed.

Lemma preserves_bind {A B} (m : M A) (k : A -> M B) :
  preserves m -> (forall a, preserves (k a)) -> preserves (bind m k).
Proof.
  intros Hm Hk w; unfold bind; specialize (Hm w).
  destruct (m w) as [a w'|w']; simpl in *; [eapply R_trans; [exact Hm | apply Hk]|exact Hm].
Qed.

Lemma preserves_token_required rq f :
  (forall u, preserves (f u)) -> preserves (token_required rq f).
Proof.
  intro Hf; unfold token_required.
  destruct (req_token rq); try solve [apply preserves_pure; pure_tac].
  match goal with |- preserves (if ?b then _ else _) => destruct b end;
    [apply preserves_pure; pure_tac|].
  apply preserves_bind; [apply preserves_pure; pure_tac|].
  intros [u|]; [apply Hf | apply preserves_pure; pure_tac].
Qed.

Lemma preserves_admin_required f cu :
  (forall u, preserves (f u)) -> preserves (admin_required f cu).
Proof.
  intro Hf; unfold admin_required; destruct (bcell_truthy _); [apply Hf|].
  apply preserves_pure; pure_tac.
Qed.
End Preserve.

Arguments preserves R {A} m.

Ltac pres_tac modify_tac commit_tac :=
  repeat match goal with
  | |- preserves _ (bind commit _) =>
      apply preserves_bind; [commit_tac | intro; cbv beta]
  | |- preserves _ (bind (modify _) _) =>
      apply preserves_bind; [modify_tac | intro; cbv beta]
  | |- preserves _ (modify _) => modify_tac
  | |- preserves _ (bind _ _) => apply preserves_bind; [ | intro; cbv beta]
  | |- preserves _ (if ?b then _ else _) => destruct b
  | |- preserves _ (match ?x with _ => _ end) => destruct x
  | |- preserves _ (unique_field_step _ _ _ _ _ _) => unfold unique_field_step
  | |- preserves _ _ => apply preserves_pure; pure_tac
  end.

Ltac unfold_handlers :=
  cbv beta delta [register login get_current_user get_all_users delete_user update_user
                  get_posts get_post create_post update_post delete_post get_comments
                  create_comment update_comment delete_comment
                  get_post_likes get_comment_likes
                  check_user_liked_post check_user_liked_comment get_user_profile
                  update_own_profile update_password search_posts] zeta.

(** *** Every committed state passes the table constraints *)

Definition R_ok (w w' : World) : Prop :=
  db_ok (committed w) = true -> db_ok (committed w') = true.

#[export] Instance R_ok_preorder : WorldPreorder R_ok.
Proof. split; unfold R_ok; auto. Qed.

Lemma ok_modify f : preserves R_ok (modify f).
Proof. intros w; unfold R_ok; auto. Qed.

Lemma ok_commit : preserves R_ok commit.
Proof.
  intros w; unfold R_ok; cbv [commit bind flush].
  destruct (db_ok (session w)) eqn:E; simpl; auto.
Qed.

Lemma handle_ok gh ch r rq : preserves R_ok (handle gh ch r rq).
Proof.
  destruct r; simpl;
    repeat first [ apply preserves_token_required; intro
                 | apply preserves_admin_required; intro ];
    unfold_handlers;
    cbv beta delta [toggle_post_like toggle_comment_like] zeta;
    pres_tac ltac:(apply ok_modify) ltac:(apply ok_commit).
Qed.

Lemma run_db_ok gh ch r rq db :
  db_ok db = true -> db_ok (snd (run gh ch r rq db)) = true.
Proof.
  intro H; pose proof (handle_ok gh ch r rq (mkWorld db db)) as Hp; unfold R_ok in Hp.
  unfold run; destruct (handle gh ch r rq (mkWorld db db)); simpl in *; apply Hp; exact H.
Qed.

Lemma create_tables_db_ok gh now db : db_ok db = true -> db_ok (create_tables gh now db) = true.
Proof.
  unfold create_tables; destruct (users db); [|auto].
  destruct (db_ok (add_user _ db)) eqn:E; auto.
Qed.

Lemma reachable_db_ok gh ch db : reachable gh ch db -> db_ok db = true.
Proof.
  induction 1; [reflexivity | apply create_tables_db_ok; auto | apply run_db_ok; auto].
Qed.

Lemma db_ok_like_targets db : db_ok db = true -> forallb like_target_ok (likes db) = true.
Proof. intro H; split_db_ok H; assumption. Qed.

(** *** At most one like per user and target *)

(** Two likes by the same user on the same target. *)
Definition same_like_target (a b : Like) : bool :=
  Nat.eqb (like_user_id a) (like_user_id b)
  && opt_nat_eqb (like_post_id a) (like_post_id b)
  && opt_nat_eqb (like_comment_id a) (like_comment_id b).

Definition likes_unique (db : DB) : bool := no_clash same_like_target (likes db).

Inductive Target := TPost (pid : nat) | TComment (cid : nat).

(** A like on [tgt], as the handlers select it ([filter_by(post_id=pid,
    comment_id=None)] and the converse). *)
Definition like_on (tgt : Target) (l : Like) : bool :=
  match tgt with TPost pid => is_post_like pid l | TComment cid => is_comment_like cid l end.

Definition count_likes (db : DB) (uid : nat) (tgt : Target) : nat :=
  List.length (filter (fun l => Nat.eqb (like_user_id l) uid && like_on tgt l) (likes db)).

Definition R_lu (w w' : World) : Prop :=
  likes_unique (committed w) = true -> likes_unique (session w) = true ->
  likes_unique (committed w') = true /\ likes_unique (session w') = true.

#[export] Instance R_lu_preorder : WorldPreorder R_lu.
Proof.
  split; unfold R_lu; [auto | intros a b c Hab Hbc H1 H2; destruct (Hab H1 H2); auto].
Qed.

Lemma lu_modify f :
  (forall db, likes_unique db = true -> likes_unique (f db) = true) -> preserves R_lu (modify f).
Proof. intros Hf w; unfold R_lu; simpl; auto. Qed.

Lemma lu_commit : preserves R_lu commit.
Proof.
  intros w; unfold R_lu; cbv [commit bind flush].
  destruct (db_ok (session w)); simpl; auto.
Qed.

Ltac lu_db_tac :=
  let db := fresh "db" in let H := fresh "H" in
  intros db H; unfold likes_unique in *;
  unfold add_user, add_post, add_comment, map_user, map_post, map_comment,
         delete_user_row, delete_post_row, delete_comment_row, delete_rows, delete_like_row;
  cbn [likes];
  first [exact H | apply no_clash_filter; exact H].

Lemma lu_delete_like_row lid db :
  likes_unique db = true -> likes_unique (delete_like_row lid db) = true.
Proof. revert db; lu_db_tac. Qed.

Lemma find_none_false {A} (f : A -> bool) l :
  find f l = None -> existsb f l = false.
Proof.
  induction l as [|x l IH]; simpl; [reflexivity|].
  destruct (f x); [discriminate | exact IH].
Qed.

Lemma lu_add_like uid tgt lid now db :
  find (fun l => Nat.eqb (like_user_id l) uid && like_on tgt l) (likes db) = None ->
  likes_unique db = true ->
  likes_unique (add_like (mkLike lid uid (match tgt with TPost p => Some p | _ => None end)
                                         (match tgt with TComment c => Some c | _ => None end)
                                         now) db) = true.
Proof.
  intros Hf H; unfold likes_unique in *; unfold add_like; cbn [likes].
  rewrite no_clash_app1, H; simpl; rewrite negb_true_iff.
  apply find_none_false in Hf; rewrite <- Hf; clear H Hf.
  induction (likes db) as [|y l IH]; simpl; [reflexivity|]; rewrite IH; f_equal.
  unfold same_like_target, like_on, is_post_like, is_comment_like; destruct tgt; simpl.
  - destruct (like_post_id y), (like_comment_id y); simpl;
      rewrite ?andb_false_r, ?andb_true_r; reflexivity.
  - destruct (like_post_id y), (like_comment_id y); simpl;
      rewrite ?andb_false_r, ?andb_true_r; reflexivity.
Qed.

Lemma lu_toggle_post rq pid cu : preserves R_lu (toggle_post_like rq pid cu).
Proof.
  intros w; unfold toggle_post_like; cbv [bind query flush read modify commit reply ret].
  destruct (find_post pid (session w)); [|destruct (rowid_ok pid); apply R_refl].
  destruct (db_ok (session w)); [|apply R_refl].
  destruct (find_post_like (user_id cu) pid (session w)) eqn:E.
  - match goal with |- context [db_ok ?d] => destruct (db_ok d) end;
      simpl; unfold R_lu; simpl; intros H1 H2; split; auto using lu_delete_like_row.
  - match goal with |- context [db_ok ?d] => destruct (db_ok d) end;
      simpl; unfold R_lu; simpl; intros H1 H2; split; auto;
      apply (lu_add_like (user_id cu) (TPost pid)); assumption.
Qed.

Lemma lu_toggle_comment rq cid cu : preserves R_lu (toggle_comment_like rq cid cu).
Proof.
  intros w; unfold toggle_comment_like; cbv [bind query flush read modify commit reply ret].
  destruct (find_comment cid (session w)); [|destruct (rowid_ok cid); apply R_refl].
  destruct (db_ok (session w)); [|apply R_refl].
  destruct (find_comment_like (user_id cu) cid (session w)) eqn:E.
  - match goal with |- context [db_ok ?d] => destruct (db_ok d) end;
      simpl; unfold R_lu; simpl; intros H1 H2; split; auto using lu_delete_like_row.
  - match goal with |- context [db_ok ?d] => destruct (db_ok d) end;
      simpl; unfold R_lu; simpl; intros H1 H2; split; auto;
      apply (lu_add_like (user_id cu) (TComment cid)); assumption.
Qed.

Lemma handle_lu gh ch r rq : preserves R_lu (handle gh ch r rq).
Proof.
  destruct r; simpl;
    repeat first [ apply preserves_token_required; intro
                 | apply preserves_admin_required; intro ];
    try apply lu_toggle_post; try apply lu_toggle_comment;
    unfold_handlers;
    pres_tac ltac:(apply lu_modify; lu_db_tac) ltac:(apply lu_commit).
Qed.

Lemma run_likes_unique gh ch r rq db :
  likes_unique db = true -> likes_unique (snd (run gh ch r rq db)) = true.
Proof.
  intro H; pose proof (handle_lu gh ch r rq (mkWorld db db)) as Hp; unfold R_lu in Hp.
  unfold run; destruct (handle gh ch r rq (mkWorld db db)); simpl in *; apply Hp; exact H.
Qed.

Lemma create_tables_likes gh now db : likes (create_tables gh now db) = likes db.
Proof.
  unfold create_tables; destruct (users db); [|reflexivity].
  destruct (db_ok _); reflexivity.
Qed.

Lemma reachable_likes_unique gh ch db : reachable gh ch db -> likes_unique db = true.
Proof.
  induction 1.
  - reflexivity.
  - unfold likes_unique in *; rewrite create_tables_likes; assumption.
  - apply run_likes_unique; assumption.
Qed.

Lemma like_on_same x y uid tgt :
  Nat.eqb (like_user_id x) uid && like_on tgt x = true ->
  Nat.eqb (like_user_id y) uid && like_on tgt y = true ->
  same_like_target x y = true.
Proof.
  unfold same_like_target, like_on, is_post_like, is_comment_like.
  destruct tgt; destruct (like_post_id x) as [a|], (like_comment_id x) as [b|],
    (like_post_id y) as [c|], (like_comment_id y) as [d|]; simpl;
    rewrite ?andb_false_r, ?andb_true_r; try discriminate;
    rewrite ?andb_true_iff, ?Nat.eqb_eq; intuition lia.
Qed.

Lemma likes_unique_count db uid tgt : likes_unique db = true -> count_likes db uid tgt <= 1.
Proof.
  unfold likes_unique, count_likes; induction (likes db) as [|x l IH]; simpl; [lia|].
  rewrite andb_true_iff; intros [H1 H2].
  destruct (Nat.eqb (like_user_id x) uid && like_on tgt x) eqn:Ex; simpl; [|auto].
  assert (filter (fun l0 => Nat.eqb (like_user_id l0) uid && like_on tgt l0) l = []) as ->;
    [|simpl; lia].
  rewrite negb_true_iff in H1; clear IH H2.
  induction l as [|y l IHl]; simpl in *; [reflexivity|].
  apply orb_false_iff in H1; destruct H1 as [Hy Hl].
  destruct (Nat.eqb (like_user_id y) uid && like_on tgt y) eqn:Ey; [|auto].
  rewrite (like_on_same x y uid tgt Ex Ey) in Hy; discriminate.
Qed.

(** * A small concrete deployment, used to exercise the theorems below *)

Definition gh0 (s : text) : text := s.
Definition ch0 (h s : text) : bool := text_eqb h s.

Definition u_admin : User :=
  mkUser 1 (CText (txt "admin")) (CText (txt "a@x")) (CText (txt "pw")) (BVal true) 0.
Definition u_bob : User :=
  mkUser 2 (CText (txt "bob")) (CText (txt "b@x")) (CText (txt "pw")) (BVal false) 0.
Definition post1 : Post := mkPost 1 (CText (txt "Hello React")) (CText (txt "x")) 2 5 5.
Definition db0 : DB := mkDB [u_admin; u_bob] [post1] [] [].

Definition req_of (tok : Token) (body : JValue) : Request := mkReq tok body [] 10.
Definition jfield (k v : string) : text * JValue := (txt k, JStr (txt v)).

(** The hook on an empty database, then the admin writes a post and likes it. *)
Definition db_hook : DB := create_tables gh0 0 empty_db.
Definition db_posted : DB :=
  snd (run gh0 ch0 RCreatePost
         (req_of (TSigned 1 100) (JObj [jfield "title" "t"; jfield "content" "c"])) db_hook).
Definition db_liked : DB :=
  snd (run gh0 ch0 (RTogglePostLike 1) (req_of (TSigned 1 100) JNull) db_posted).

Lemma db_liked_reachable : reachable gh0 ch0 db_liked.
Proof. apply reach_request, reach_request, reach_hook, reach_empty. Qed.

Lemma run_non_2xx gh ch r rq db :
  is_2xx (fst (run gh ch r rq db)) = false -> snd (run gh ch r rq db) = db.
Proof.
  intro H; pose proof (handle_atomic gh ch r rq (mkWorld db db)) as Ha.
  unfold run in *; destruct (handle gh ch r rq (mkWorld db db)); simpl in *.
  - destruct Ha as [Ha|Ha]; [congruence | exact Ha].
  - exact Ha.
Qed.

(** * The claims *)

(** C9: whenever a request is answered with a status outside 2xx (including
    the 500 of an exception), the committed database after the request is the
    one before it; the rows [update_user] changed in the session before a
    later check failed are rolled back. *)
Theorem run_error_atomic gh ch r rq db :
  is_2xx (fst (run gh ch r rq db)) = false -> snd (run gh ch r rq db) = db.
Proof. apply run_non_2xx. Qed.

(** The admin renames itself to a fresh name and sends [is_admin]: the
    rename happens in the session, the self check answers 400, and the
    database is unchanged. *)
Lemma run_error_atomic_witness :
  status (fst (run gh0 ch0 (RUpdateUser 1)
                 (req_of (TSigned 1 100) (JObj [jfield "username" "carl";
                                                (txt "is_admin", JBool false)])) db0)) = 400 /\
  snd (run gh0 ch0 (RUpdateUser 1)
         (req_of (TSigned 1 100) (JObj [jfield "username" "carl";
                                        (txt "is_admin", JBool false)])) db0) = db0.
Proof.
  split; [vm_compute; reflexivity|].
  apply run_error_atomic; vm_compute; reflexivity.
Defined.

(** C3: in every database reachable from the empty one, every like row has
    exactly one of [post_id] and [comment_id] set, and every request (in
    particular the two like toggles, the only inserters of likes) keeps it so. *)
Theorem like_target_invariant gh ch db :
  reachable gh ch db ->
  forallb like_target_ok (likes db) = true /\
  (forall r rq, forallb like_target_ok (likes (snd (run gh ch r rq db))) = true).
Proof.
  intro H; split.
  - apply db_ok_like_targets, (reachable_db_ok gh ch), H.
  - intros r rq; apply db_ok_like_targets, (reachable_db_ok gh ch), reach_request, H.
Qed.

Lemma like_target_invariant_witness :
  List.length (likes db_liked) = 1 /\ forallb like_target_ok (likes db_liked) = true.
Proof.
  split; [vm_compute; reflexivity|].
  apply (proj1 (like_target_invariant gh0 ch0 db_liked db_liked_reachable)).
Defined.

(** C4: in every reachable database, a user has at most one like on a given
    post and at most one on a given comment, and every request keeps it so. *)
Theorem like_unique_invariant gh ch db :
  reachable gh ch db ->
  (forall uid tgt, count_likes db uid tgt <= 1) /\
  (forall r rq uid tgt, count_likes (snd (run gh ch r rq db)) uid tgt <= 1).
Proof.
  intro H; split.
  - intros uid tgt; apply likes_unique_count, (reachable_likes_unique gh ch), H.
  - intros r rq uid tgt; apply likes_unique_count, (reachable_likes_unique gh ch), reach_request, H.
Qed.

Lemma like_unique_invariant_witness :
  count_likes db_liked 1 (TPost 1) = 1 /\ count_likes db_liked 1 (TPost 1) <= 1.
Proof.
  split; [vm_compute; reflexivity|].
  apply (proj1 (like_unique_invariant gh0 ch0 db_liked db_liked_reachable)).
Defined.

(** *** The like toggle *)

Definition toggle_route (tgt : Target) : Route :=
  match tgt with TPost pid => RTogglePostLike pid | TComment cid => RToggleCommentLike cid end.

Definition target_exists (tgt : Target) (db : DB) : bool :=
  match tgt with
  | TPost pid => match find_post pid db with Some _ => true | None => false end
  | TComment cid => match find_comment cid db with Some _ => true | None => false end
  end.

(** Whether the user has a like on the target: a row the toggle's
    [filter_by] finds. *)
Definition liked (db : DB) (uid : nat) (tgt : Target) : bool :=
  existsb (fun l => Nat.eqb (like_user_id l) uid && like_on tgt l) (likes db).

Lemma find_some_existsb {A} (f : A -> bool) l x : find f l = Some x -> existsb f l = true.
Proof.
  intro H; apply find_some in H; apply existsb_exists; exists x; tauto.
Qed.

Lemma delete_found_unique (m : Like -> bool) l xs :
  List.length (filter m xs) <= 1 -> find m xs = Some l ->
  existsb m (filter (fun x => negb (Nat.eqb (like_id x) (like_id l))) xs) = false.
Proof.
  induction xs as [|x xs IH]; simpl; [discriminate|].
  destruct (m x) eqn:Ex; simpl.
  - intros Hlen Hf; injection Hf as <-; rewrite Nat.eqb_refl; simpl.
    assert (filter m xs = []) as Hnil by (destruct (filter m xs); [reflexivity | simpl in Hlen; lia]).
    clear IH Hlen; induction xs as [|y xs IHx]; simpl in *; [reflexivity|].
    destruct (m y) eqn:Ey; [discriminate|].
    destruct (negb _); simpl; rewrite ?Ey; simpl; auto.
  - intros Hlen Hf; destruct (negb _); simpl; rewrite ?Ex; simpl; auto.
Qed.

Lemma liked_after_delete db uid tgt l :
  likes_unique db = true ->
  find (fun x => Nat.eqb (like_user_id x) uid && like_on tgt x) (likes db) = Some l ->
  liked (delete_like_row (like_id l) db) uid tgt = false.
Proof.
  intros Hlu Hf; unfold liked, delete_like_row; cbn [likes].
  apply delete_found_unique; [apply (likes_unique_count db uid tgt Hlu) | exact Hf].
Qed.

Lemma liked_after_add db uid tgt lid now :
  liked (add_like (mkLike lid uid (match tgt with TPost p => Some p | _ => None end)
                                  (match tgt with TComment c => Some c | _ => None end)
                                  now) db) uid tgt = true.
Proof.
  unfold liked, add_like; cbn [likes]; rewrite existsb_app; apply orb_true_iff; right.
  destruct tgt; unfold like_on, is_post_like, is_comment_like; simpl;
    rewrite !Nat.eqb_refl; reflexivity.
Qed.

(** One call of the like toggle by an authenticated user on an existing
    target of a database with unique likes. *)
Lemma toggle_step gh ch db uid exp tgt rq :
  db_ok db = true -> likes_unique db = true ->
  req_token rq = TSigned uid exp -> (req_now rq < exp)%Z ->
  find_user uid db <> None -> target_exists tgt db = true ->
  status (fst (run gh ch (toggle_route tgt) rq db)) = (if liked db uid tgt then 200 else 201) /\
  liked (snd (run gh ch (toggle_route tgt) rq db)) uid tgt = negb (liked db uid tgt) /\
  users (snd (run gh ch (toggle_route tgt) rq db)) = users db /\
  posts (snd (run gh ch (toggle_route tgt) rq db)) = posts db /\
  comments (snd (run gh ch (toggle_route tgt) rq db)) = comments db.
Proof.
  intros Hok Hlu Htok Hnow Hu Ht.
  destruct (find_user uid db) as [u|] eqn:Eu; [clear Hu | congruence].
  assert (user_id u = uid) as Huid
    by (apply find_some in Eu; apply Nat.eqb_eq; tauto).
  assert (Z.leb exp (req_now rq) = false) as Hleb by (apply Z.leb_gt; exact Hnow).
  unfold run; destruct tgt as [p|c]; simpl in Ht |- *;
    unfold token_required, toggle_post_like, toggle_comment_like; rewrite Htok, Hleb;
    cbv [bind read query flush commit modify reply ret]; cbn [session committed];
    rewrite Eu; cbv beta iota; cbn [session committed].
  - destruct (find_post p db); [clear Ht | discriminate].
    cbn [session committed]; rewrite Hok; cbv beta iota; cbn [session committed].
    unfold find_post_like, liked; cbv beta iota delta [like_on]; rewrite Huid.
    destruct (find _ (likes db)) as [l|] eqn:Ef.
    + rewrite (find_some_existsb _ _ _ Ef).
      rewrite (db_ok_delete_like_row _ _ Hok); cbn.
      split; [reflexivity|]; split; [|auto].
      apply (liked_after_delete db uid (TPost p) l Hlu Ef).
    + rewrite (find_none_false _ _ Ef).
      rewrite db_ok_add_like; [cbn | exact Hok | reflexivity | reflexivity].
      split; [reflexivity|]; split; [|auto].
      apply (liked_after_add db uid (TPost p)).
  - destruct (find_comment c db); [clear Ht | discriminate].
    cbn [session committed]; rewrite Hok; cbv beta iota; cbn [session committed].
    unfold find_comment_like, liked; cbv beta iota delta [like_on]; rewrite Huid.
    destruct (find _ (likes db)) as [l|] eqn:Ef.
    + rewrite (find_some_existsb _ _ _ Ef).
      rewrite (db_ok_delete_like_row _ _ Hok); cbn.
      split; [reflexivity|]; split; [|auto].
      apply (liked_after_delete db uid (TComment c) l Hlu Ef).
    + rewrite (find_none_false _ _ Ef).
      rewrite db_ok_add_like; [cbn | exact Hok | reflexivity | reflexivity].
      split; [reflexivity|]; split; [|auto].
      apply (liked_after_add db uid (TComment c)).
Qed.

Lemma db_posted_reachable : reachable gh0 ch0 db_posted.
Proof. apply reach_request, reach_hook, reach_empty. Qed.

(** C5: for an authenticated user and an existing post or comment of a
    reachable database, the like endpoint answers 200 and removes the user's
    like when there is one, answers 201 and adds one when there is none; a
    second call by the same user on the same target restores whether the
    user likes it. *)
Theorem like_toggle gh ch db uid exp exp' tgt rq rq' :
  reachable gh ch db ->
  req_token rq = TSigned uid exp -> (req_now rq < exp)%Z ->
  req_token rq' = TSigned uid exp' -> (req_now rq' < exp')%Z ->
  find_user uid db <> None -> target_exists tgt db = true ->
  status (fst (run gh ch (toggle_route tgt) rq db)) = (if liked db uid tgt then 200 else 201) /\
  liked (snd (run gh ch (toggle_route tgt) rq db)) uid tgt = negb (liked db uid tgt) /\
  liked (snd (run gh ch (toggle_route tgt) rq'
                (snd (run gh ch (toggle_route tgt) rq db)))) uid tgt = liked db uid tgt.
Proof.
  intros Hr Htok Hnow Htok' Hnow' Hu Ht.
  destruct (toggle_step gh ch db uid exp tgt rq (reachable_db_ok _ _ _ Hr)
              (reachable_likes_unique _ _ _ Hr) Htok Hnow Hu Ht) as (Hs & Hl & Hus & Hps & Hcs).
  pose proof (reach_request gh ch (toggle_route tgt) rq db Hr) as Hr1.
  set (db1 := snd (run gh ch (toggle_route tgt) rq db)) in *.
  destruct (toggle_step gh ch db1 uid exp' tgt rq' (reachable_db_ok _ _ _ Hr1)
              (reachable_likes_unique _ _ _ Hr1) Htok' Hnow') as (_ & Hl' & _).
  - unfold find_user in *; rewrite Hus; exact Hu.
  - destruct tgt; unfold target_exists, find_post, find_comment in *;
      [rewrite Hps | rewrite Hcs]; exact Ht.
  - split; [exact Hs|]; split; [exact Hl|]; rewrite Hl', Hl; apply negb_involutive.
Qed.

(** The admin likes its post, then unlikes it. *)
Lemma like_toggle_witness :
  status (fst (run gh0 ch0 (toggle_route (TPost 1)) (req_of (TSigned 1 100) JNull) db_posted))
    = 201 /\
  liked (snd (run gh0 ch0 (toggle_route (TPost 1)) (req_of (TSigned 1 100) JNull)
                (snd (run gh0 ch0 (toggle_route (TPost 1)) (req_of (TSigned 1 100) JNull)
                        db_posted)))) 1 (TPost 1)
    = liked db_posted 1 (TPost 1).
Proof.
  destruct (like_toggle gh0 ch0 db_posted 1 100 100 (TPost 1)
              (req_of (TSigned 1 100) JNull) (req_of (TSigned 1 100) JNull)
              db_posted_reachable eq_refl ltac:(vm_compute; reflexivity)
              eq_refl ltac:(vm_compute; reflexivity)
              ltac:(intro H; vm_compute in H; discriminate H)
              ltac:(vm_compute; reflexivity))
    as (Hs & _ & Hl).
  split; [rewrite Hs; vm_compute; reflexivity | exact Hl].
Defined.

(** *** Pagination *)

Lemma ceil_div_bounds t p :
  (0 <= t)%Z -> (1 <= p)%Z ->
  (((t + p - 1) / p - 1) * p < t <= ((t + p - 1) / p) * p)%Z.
Proof.
  intros Ht Hp.
  pose proof (Z.div_mod (t + p - 1) p ltac:(lia)) as Hd.
  pose proof (Z.mod_pos_bound (t + p - 1) p ltac:(lia)) as Hm.
  set (q := ((t + p - 1) / p)%Z) in *; set (r := ((t + p - 1) mod p)%Z) in *.
  nia.
Qed.

(** C8: when [per_page] reads as some [p >= 1], every successful (200)
    post listing reports [total] equal to the number of posts [t],
    [per_page] equal to [p] and [total_pages] equal to [(t + p - 1) // p],
    which is the ceiling of [t / p]: the [k] with [(k - 1) * p < t <= k * p].
    The listing does succeed when [p] and the offset [(page - 1) * p] fit
    the 64-bit integers SQLite binds. *)
Theorem get_posts_total_pages gh ch rq db p :
  db_ok db = true ->
  args_get_int (req_args rq) (txt "per_page") 10 = p -> (1 <= p)%Z ->
  let t := Z.of_nat (List.length (posts db)) in
  (forall ps tot page pp tp,
     fst (run gh ch RGetPosts rq db) = mkResp 200 (PPage ps tot page pp tp) ->
     tot = t /\ pp = p /\ tp = ((t + p - 1) / p)%Z /\
     ((tp - 1) * p < t <= tp * p)%Z) /\
  (int64_ok p = true ->
   int64_ok ((args_get_int (req_args rq) (txt "page") 1 - 1) * p) = true ->
   exists ps page,
     fst (run gh ch RGetPosts rq db) = mkResp 200 (PPage ps t page p ((t + p - 1) / p))).
Proof.
  intros Hok Hpp Hp t.
  assert (E0 : Z.eqb p 0 = false) by (apply Z.eqb_neq; lia).
  unfold run; simpl handle; unfold get_posts; rewrite Hpp.
  cbv [bind query flush read reply ret raise]; cbn [session committed]; rewrite Hok.
  cbv beta iota; split.
  - intros ps tot page pp tp.
    destruct (_ && int64_ok p); do 3 (cbn [session committed]; rewrite ?Hok, ?E0;
      cbv beta iota); cbn [fst]; intros H; [|discriminate H].
    inversion H; subst.
    split; [reflexivity|]; split; [reflexivity|]; split; [reflexivity|].
    apply ceil_div_bounds; [unfold t|]; lia.
  - intros H1 H2; rewrite H1, H2; cbn [andb session committed]; rewrite Hok.
    cbv beta iota; rewrite E0; eexists; eexists; reflexivity.
Qed.

(** A listing of the one post of [db0] with [per_page = " 1_0 "], which
    Python's [int] reads as 10: one page. *)
Lemma get_posts_total_pages_witness :
  exists ps page,
    payload (fst (run gh0 ch0 RGetPosts (mkReq TMissing JNull [(txt "per_page", txt " 1_0 ")] 10) db0))
      = PPage ps 1 page 10 1.
Proof.
  destruct (get_posts_total_pages gh0 ch0 (mkReq TMissing JNull [(txt "per_page", txt " 1_0 ")] 10)
              db0 10 ltac:(vm_compute; reflexivity) ltac:(vm_compute; reflexivity)
              ltac:(vm_compute; discriminate)) as [_ Hb].
  destruct (Hb ltac:(vm_compute; reflexivity) ltac:(vm_compute; reflexivity)) as (ps & page & Hr).
  exists ps, page; rewrite Hr; reflexivity.
Defined.

(** *** Registration *)

Lemma unique_cells_app1 l c :
  unique_cells l = true -> existsb (fun y => cell_eqb y c) l = false ->
  unique_cells (l ++ [c]) = true.
Proof.
  unfold unique_cells; intros H1 H2; rewrite no_clash_app1, H1; simpl.
  rewrite negb_true_iff; apply not_true_is_false; intro E.
  apply existsb_exists in E; destruct E as [y [Hy Ey]].
  assert (existsb (fun y => cell_eqb y c) l = true) as E'
    by (apply existsb_exists; exists y; split; [exact Hy|];
        destruct y; simpl in Ey; try discriminate; exact Ey).
  congruence.
Qed.

Lemma existsb_map_find {A B} (key : A -> B) (f : B -> bool) l :
  find (fun x => f (key x)) l = None -> existsb f (map key l) = false.
Proof.
  induction l as [|x l IH]; simpl; [reflexivity|].
  destruct (f (key x)); [discriminate | exact IH].
Qed.

Lemma db_ok_add_user u db :
  db_ok db = true ->
  text_ok (username u) && text_ok (email u) && not_null (password_hash u)
    && bcell_ok (is_admin u) = true ->
  user_id u = next_id (map user_id (users db)) ->
  find (fun v => cell_eqb (username v) (username u)) (users db) = None ->
  find (fun v => cell_eqb (email v) (email u)) (users db) = None ->
  db_ok (add_user u db) = true.
Proof.
  intros H Hu Hid Fu Fe; split_db_ok H; unfold add_user; prove_db_ok;
    cbn [users posts comments likes]; try assumption.
  - rewrite forallb_app; simpl; rewrite Hu; simpl; rewrite andb_true_r; assumption.
  - rewrite map_app; simpl; apply nodup_nat_app1; [assumption|].
    rewrite Hid; apply next_id_fresh.
  - rewrite map_app; apply unique_cells_app1; [assumption|].
    apply (existsb_map_find username (fun y => cell_eqb y (username u))); exact Fu.
  - rewrite map_app; apply unique_cells_app1; [assumption|].
    apply (existsb_map_find email (fun y => cell_eqb y (email u))); exact Fe.
Qed.

(** The body [{"username": un, "email": em, "password": pw, "is_admin": true}]. *)
Definition reg_body (un em pw : text) : JValue :=
  JObj [(txt "username", JStr un); (txt "email", JStr em); (txt "password", JStr pw);
        (txt "is_admin", JBool true)].

Lemma body_has_reg un em pw w :
  un <> [] -> em <> [] -> pw <> [] ->
  body_has (reg_body un em pw) [txt "username"; txt "email"; txt "password"] w = Ok true w.
Proof.
  intros Hu He Hp; destruct un; [congruence|]; destruct em; [congruence|];
    destruct pw; [congruence|]; reflexivity.
Qed.

Lemma reg_lookups un em pw :
  py_getitem (reg_body un em pw) (txt "username") = Some (JStr un) /\
  py_getitem (reg_body un em pw) (txt "email") = Some (JStr em) /\
  py_getitem (reg_body un em pw) (txt "password") = Some (JStr pw) /\
  py_get (reg_body un em pw) (txt "is_admin") = Some (Some (JBool true)).
Proof. repeat split. Qed.

Lemma register_run gh ch db un em pw now :
  db_ok db = true -> un <> [] -> em <> [] -> pw <> [] ->
  has_surrogate un = false -> has_surrogate em = false -> has_surrogate pw = false ->
  find (fun u => cell_eqb (username u) (CText un)) (users db) = None ->
  find (fun u => cell_eqb (email u) (CText em)) (users db) = None ->
  exists p,
    run gh ch RRegister (mkReq TMissing (reg_body un em pw) [] now) db
    = (mkResp 201 p,
       add_user (mkUser (next_id (map user_id (users db))) (CText un) (CText em)
                        (CText (gh pw)) (BVal true) now) db).
Proof.
  intros Hok Hu He Hp Su Se Sp Fu Fe.
  destruct (reg_lookups un em pw) as (L1 & L2 & L3 & L4).
  unfold run; cbn [handle]; unfold register; cbn [req_body req_now].
  rewrite L1, L2, L3, L4.
  cbv [bind]; rewrite body_has_reg by assumption; cbn [negb].
  cbv -[db_ok find cell_eqb next_id add_user find_user user_payload users username email
        session committed map user_id txt has_surrogate]; cbn [session committed].
  rewrite ?Su, ?Se, ?Sp; cbv beta iota; cbn [session committed].
  rewrite Hok; cbv beta iota; cbn [session committed]; rewrite Fu; cbv beta iota;
  cbn [session committed]; rewrite Hok; cbv beta iota; cbn [session committed];
  rewrite Fe; cbv beta iota; cbn [session committed]; rewrite ?Su, ?Se, ?Sp; cbv beta iota;
  cbn [session committed].
  rewrite db_ok_add_user;
    [| exact Hok | cbn; rewrite Su, Se; reflexivity | reflexivity | exact Fu | exact Fe].
  eexists; reflexivity.
Qed.

(** C6: a request to the public registration endpoint, with no token, whose
    body carries fresh non-empty [username] and [email], a non-empty
    [password] (none of the three holding a lone surrogate, which no string
    column can store) and ["is_admin": true], is answered 201 and creates a
    user with the admin flag set. *)
Theorem register_self_admin gh ch db un em pw now :
  db_ok db = true -> un <> [] -> em <> [] -> pw <> [] ->
  has_surrogate un = false -> has_surrogate em = false -> has_surrogate pw = false ->
  find (fun u => cell_eqb (username u) (CText un)) (users db) = None ->
  find (fun u => cell_eqb (email u) (CText em)) (users db) = None ->
  status (fst (run gh ch RRegister (mkReq TMissing (reg_body un em pw) [] now) db)) = 201 /\
  exists u, In u (users (snd (run gh ch RRegister (mkReq TMissing (reg_body un em pw) [] now) db)))
            /\ username u = CText un /\ is_admin u = BVal true.
Proof.
  intros Hok Hu He Hp Su Se Sp Fu Fe.
  destruct (register_run gh ch db un em pw now Hok Hu He Hp Su Se Sp Fu Fe) as [p ->]; simpl.
  split; [reflexivity|].
  eexists; split; [apply in_or_app; right; left; reflexivity | split; reflexivity].
Qed.

(** Registering [eve] on [db0] with ["is_admin": true]. *)
Lemma register_self_admin_witness :
  status (fst (run gh0 ch0 RRegister (mkReq TMissing (reg_body (txt "eve") (txt "e@x") (txt "pw")) [] 10) db0)) = 201 /\
  exists u, In u (users (snd (run gh0 ch0 RRegister
                               (mkReq TMissing (reg_body (txt "eve") (txt "e@x") (txt "pw")) [] 10) db0)))
            /\ username u = CText (txt "eve") /\ is_admin u = BVal true.
Proof.
  apply register_self_admin; try (vm_compute; reflexivity); intro H; discriminate H.
Defined.

(** *** Self-lockout of an admin *)

(** The statuses a computation can answer with, when it does not raise. *)
Definition answers_in (S : list nat) (m : M Response) : Prop :=
  forall w, match m w with Ok r _ => In (status r) S | Exc _ => True end.

Lemma answers_bind {A} S (m : M A) (k : A -> M Response) :
  (forall a, answers_in S (k a)) -> answers_in S (bind m k).
Proof.
  intros Hk w; unfold bind; destruct (m w) as [a w'|w']; [apply Hk | exact I].
Qed.

Lemma answers_reply S s p : In s S -> answers_in S (reply s p).
Proof. intros H w; exact H. Qed.

Lemma answers_unique_field_step S data key col set uid k :
  In 409 S -> answers_in S k -> answers_in S (unique_field_step data key col set uid k).
Proof.
  intros H409 Hk; unfold unique_field_step.
  apply answers_bind; intros [|]; [|exact Hk].
  apply answers_bind; intro v; apply answers_bind; intros [e|].
  - destruct (negb _); [apply answers_reply, H409 | apply answers_bind; intro; exact Hk].
  - apply answers_bind; intro; exact Hk.
Qed.

Lemma update_user_self_is_admin gh rq uid cu w a :
  user_id cu = uid -> py_in (txt "is_admin") (req_body rq) = Some true ->
  find_user uid (session w) = Some a ->
  match update_user gh rq uid cu w with Ok r _ => In (status r) [400; 409] | Exc _ => True end.
Proof.
  intros Hid Hin Hf; unfold update_user; unfold bind at 1; unfold read at 1; rewrite Hf.
  cbv beta iota zeta.
  match goal with |- match ?m w with _ => _ end =>
    assert (HA : answers_in [400; 409] m); [|exact (HA w)] end.
  apply answers_unique_field_step; [simpl; tauto|].
  apply answers_unique_field_step; [simpl; tauto|].
  rewrite Hin; intro w'; cbv [bind lift ret]; rewrite Hid, Nat.eqb_refl; simpl; tauto.
Qed.

Lemma find_user_id uid db a : find_user uid db = Some a -> user_id a = uid.
Proof. intro H; apply find_some in H; apply Nat.eqb_eq; tauto. Qed.

(** A request carrying a live token of an existing admin reaches the view. *)
Lemma token_admin_reaches rq db uid exp a (f : User -> M Response) :
  req_token rq = TSigned uid exp -> (req_now rq < exp)%Z ->
  find_user uid db = Some a -> bcell_truthy (is_admin a) = true ->
  token_required rq (admin_required f) (mkWorld db db) = f a (mkWorld db db).
Proof.
  intros Ht Hn Hf Ha; unfold token_required; rewrite Ht.
  replace (Z.leb exp (req_now rq)) with false by (symmetry; apply Z.leb_gt; lia).
  cbv [bind read]; cbn [session]; rewrite Hf; unfold admin_required; rewrite Ha; reflexivity.
Qed.

(** C2 (amended): for an admin [a] with a live token, a DELETE of [a]'s own
    id answers 400 and changes nothing; a PUT on [a]'s own id whose body has
    an [is_admin] key never succeeds: it answers 400, or 409 when the body's
    [username] or [email] belongs to another user (checked first), or 500
    when a value cannot be bound, and the database (with [a]'s admin flag)
    is left as it was. *)
Theorem admin_self_lockout gh ch db rq uid exp a :
  req_token rq = TSigned uid exp -> (req_now rq < exp)%Z ->
  find_user uid db = Some a -> bcell_truthy (is_admin a) = true ->
  run gh ch (RDeleteUser uid) rq db = (mkResp 400 PMsg, db) /\
  (py_in (txt "is_admin") (req_body rq) = Some true ->
   In (status (fst (run gh ch (RUpdateUser uid) rq db))) [400; 409; 500] /\
   snd (run gh ch (RUpdateUser uid) rq db) = db).
Proof.
  intros Ht Hn Hf Ha; pose proof (find_user_id _ _ _ Hf) as Hid; split.
  - unfold run; cbn [handle]; rewrite (token_admin_reaches rq db uid exp a _ Ht Hn Hf Ha).
    unfold delete_user; rewrite Hid, Nat.eqb_refl; reflexivity.
  - intro Hin.
    assert (HS : In (status (fst (run gh ch (RUpdateUser uid) rq db))) [400; 409; 500]).
    { pose proof (update_user_self_is_admin gh rq uid a (mkWorld db db) a Hid Hin Hf) as Hu.
      unfold run; cbn [handle]; rewrite (token_admin_reaches rq db uid exp a _ Ht Hn Hf Ha).
      destruct (update_user gh rq uid a (mkWorld db db)); simpl in *; [tauto | tauto]. }
    split; [exact HS|]; apply run_non_2xx.
    unfold is_2xx; destruct HS as [<-|[<-|[<-|[]]]]; reflexivity.
Qed.

(** The admin of [db0] sends [{"is_admin": false}] on its own id. *)
Lemma admin_self_lockout_witness :
  run gh0 ch0 (RDeleteUser 1) (req_of (TSigned 1 100) JNull) db0 = (mkResp 400 PMsg, db0) /\
  In (status (fst (run gh0 ch0 (RUpdateUser 1)
                     (req_of (TSigned 1 100) (JObj [(txt "is_admin", JBool false)])) db0)))
     [400; 409; 500].
Proof.
  split.
  - apply (proj1 (admin_self_lockout gh0 ch0 db0 (req_of (TSigned 1 100) JNull) 1 100 u_admin
                    eq_refl ltac:(vm_compute; reflexivity) ltac:(vm_compute; reflexivity)
                    ltac:(vm_compute; reflexivity))).
  - apply (proj2 (admin_self_lockout gh0 ch0 db0
                    (req_of (TSigned 1 100) (JObj [(txt "is_admin", JBool false)])) 1 100 u_admin
                    eq_refl ltac:(vm_compute; reflexivity) ltac:(vm_compute; reflexivity)
                    ltac:(vm_compute; reflexivity)) ltac:(vm_compute; reflexivity)).
Defined.

(** C2, as stated, fails: the admin of [db0] renaming itself to [bob], an
    existing name, while sending [is_admin] is answered 409, not 400. *)
Lemma admin_self_is_admin_409 :
  status (fst (run gh0 ch0 (RUpdateUser 1)
                 (req_of (TSigned 1 100) (JObj [jfield "username" "bob";
                                                (txt "is_admin", JBool false)])) db0)) = 409.
Proof. vm_compute; reflexivity. Qed.

(** *** Requests whose JSON body is [null] *)

Lemma token_reaches rq db uid exp a (f : User -> M Response) :
  req_token rq = TSigned uid exp -> (req_now rq < exp)%Z -> find_user uid db = Some a ->
  token_required rq f (mkWorld db db) = f a (mkWorld db db).
Proof.
  intros Ht Hn Hf; unfold token_required; rewrite Ht.
  replace (Z.leb exp (req_now rq)) with false by (symmetry; apply Z.leb_gt; lia).
  cbv [bind read]; cbn [session]; rewrite Hf; reflexivity.
Qed.

(** C10: when [request.get_json()] is [None] (a [null] body), the update
    of a post by its author or an admin, the admin update of an existing
    user and the update of one's own profile all fail on the membership
    test [k in data] and answer 500, where registration, login and post
    creation answer 400; none of them changes the database. *)
Theorem null_body_handlers gh ch db rq uid exp u :
  req_body rq = JNull -> req_token rq = TSigned uid exp -> (req_now rq < exp)%Z ->
  find_user uid db = Some u ->
  (forall pid p, find_post pid db = Some p -> forbidden (post_user_id p) u = false ->
     run gh ch (RUpdatePost pid) rq db = (mkResp 500 PMsg, db)) /\
  (bcell_truthy (is_admin u) = true -> forall tid t, find_user tid db = Some t ->
     run gh ch (RUpdateUser tid) rq db = (mkResp 500 PMsg, db)) /\
  run gh ch RUpdateProfile rq db = (mkResp 500 PMsg, db) /\
  run gh ch RRegister rq db = (mkResp 400 PMsg, db) /\
  run gh ch RLogin rq db = (mkResp 400 PMsg, db) /\
  run gh ch RCreatePost rq db = (mkResp 400 PMsg, db).
Proof.
  intros Hb Ht Hn Hf; repeat split.
  - intros pid p Hp Hfb; unfold run; cbn [handle].
    rewrite (token_reaches rq db uid exp u _ Ht Hn Hf).
    unfold update_post; cbv [bind read]; cbn [session]; rewrite Hp, Hfb, Hb; reflexivity.
  - intros Ha tid t Htg; unfold run; cbn [handle].
    rewrite (token_admin_reaches rq db uid exp u _ Ht Hn Hf Ha).
    unfold update_user; cbv [bind read]; cbn [session]; rewrite Htg, Hb; reflexivity.
  - unfold run; cbn [handle]; rewrite (token_reaches rq db uid exp u _ Ht Hn Hf).
    unfold update_own_profile; rewrite Hb; reflexivity.
  - unfold run; cbn [handle]; unfold register; rewrite Hb; reflexivity.
  - unfold run; cbn [handle]; unfold login; rewrite Hb; reflexivity.
  - unfold run; cbn [handle]; rewrite (token_reaches rq db uid exp u _ Ht Hn Hf).
    unfold create_post; rewrite Hb; reflexivity.
Qed.

(** The admin of [db0] sends [null] bodies: the post of [bob], [bob]'s
    account and its own profile. *)
Lemma null_body_handlers_witness :
  run gh0 ch0 (RUpdatePost 1) (req_of (TSigned 1 100) JNull) db0 = (mkResp 500 PMsg, db0) /\
  run gh0 ch0 (RUpdateUser 2) (req_of (TSigned 1 100) JNull) db0 = (mkResp 500 PMsg, db0) /\
  run gh0 ch0 RUpdateProfile (req_of (TSigned 1 100) JNull) db0 = (mkResp 500 PMsg, db0) /\
  run gh0 ch0 RRegister (req_of (TSigned 1 100) JNull) db0 = (mkResp 400 PMsg, db0).
Proof.
  destruct (null_body_handlers gh0 ch0 db0 (req_of (TSigned 1 100) JNull) 1 100 u_admin
              eq_refl eq_refl ltac:(vm_compute; reflexivity) ltac:(vm_compute; reflexivity))
    as (H1 & H2 & H3 & H4 & _).
  split; [apply (H1 1 post1); vm_compute; reflexivity|].
  split; [apply (H2 ltac:(vm_compute; reflexivity) 2 u_bob); vm_compute; reflexivity|].
  split; [exact H3 | exact H4].
Defined.

(** *** Ownership of posts and comments *)

Lemma db_ok_map_post pid f db :
  db_ok db = true -> (forall p, post_id (f p) = post_id p) ->
  (forall p, text_ok (title p) && text_ok (content p) = true ->
             text_ok (title (f p)) && text_ok (content (f p)) = true) ->
  db_ok (map_post pid f db) = true.
Proof.
  intros H Hid Hf; split_db_ok H; unfold map_post; prove_db_ok;
    cbn [users posts comments likes]; try assumption.
  - apply forallb_map_update; assumption.
  - rewrite map_map_same_key; assumption.
Qed.

Lemma db_ok_map_comment cid f db :
  db_ok db = true -> (forall c, comment_id (f c) = comment_id c) ->
  (forall c, text_ok (comment_content c) = true -> text_ok (comment_content (f c)) = true) ->
  db_ok (map_comment cid f db) = true.
Proof.
  intros H Hid Hf; split_db_ok H; unfold map_comment; prove_db_ok;
    cbn [users posts comments likes]; try assumption.
  - apply forallb_map_update; assumption.
  - rewrite map_map_same_key; assumption.
Qed.

(** The value under [k], when present, is a string. *)
Definition str_or_absent (kvs : list (text * JValue)) (k : text) : bool :=
  match dict_get kvs k with
  | None => true
  | Some (JStr s) => negb (has_surrogate s)
  | Some _ => false
  end.

(** The rows [update_post] leaves in the session: the title and the content
    the body carries, then [updated_at]. *)
Definition post_update (kvs : list (text * JValue)) (now : Z) (pid : nat) (db : DB) : DB :=
  let db1 := match dict_get kvs (txt "title") with
             | Some v => map_post pid (set_title (to_cell v)) db
             | None => db
             end in
  let db2 := match dict_get kvs (txt "content") with
             | Some v => map_post pid (set_content (to_cell v)) db1
             | None => db1
             end in
  map_post pid (set_post_updated_at now) db2.

Lemma text_ok_str s : negb (has_surrogate s) = true -> text_ok (to_cell (JStr s)) = true.
Proof. intros H; apply negb_true_iff in H; unfold to_cell; rewrite H; simpl; rewrite H; reflexivity. Qed.

Ltac nn_tac S :=
  let q := fresh "q" in let Hq := fresh "Hq" in
  intros q Hq; cbn [title content set_title set_content];
  apply andb_true_iff in Hq as [? ?]; rewrite (text_ok_str _ S); apply andb_true_iff; auto.

Lemma db_ok_post_update kvs now pid db :
  db_ok db = true -> str_or_absent kvs (txt "title") = true ->
  str_or_absent kvs (txt "content") = true ->
  db_ok (post_update kvs now pid db) = true.
Proof.
  unfold str_or_absent, post_update; intros H Ht Hc.
  apply db_ok_map_post; [| reflexivity | intros q Hq; exact Hq].
  destruct (dict_get kvs (txt "content")) as [[]|]; try discriminate;
    [apply db_ok_map_post; [| reflexivity | nn_tac Hc] |];
    (destruct (dict_get kvs (txt "title")) as [[]|]; try discriminate;
     [apply db_ok_map_post; [exact H | reflexivity | nn_tac Ht]
     | exact H]).
Qed.

Lemma run_post_forbidden gh ch db rq uid exp u pid p :
  req_token rq = TSigned uid exp -> (req_now rq < exp)%Z -> find_user uid db = Some u ->
  find_post pid db = Some p -> forbidden (post_user_id p) u = true ->
  run gh ch (RUpdatePost pid) rq db = (mkResp 403 PMsg, db) /\
  run gh ch (RDeletePost pid) rq db = (mkResp 403 PMsg, db).
Proof.
  intros Ht Hn Hf Hp Hfb; split; unfold run; cbn [handle];
    rewrite (token_reaches rq db uid exp u _ Ht Hn Hf);
    [unfold update_post | unfold delete_post];
    cbv [bind read]; cbn [session]; rewrite Hp, Hfb; reflexivity.
Qed.

Lemma run_comment_forbidden gh ch db rq uid exp u cid c :
  req_token rq = TSigned uid exp -> (req_now rq < exp)%Z -> find_user uid db = Some u ->
  find_comment cid db = Some c -> forbidden (comment_user_id c) u = true ->
  run gh ch (RUpdateComment cid) rq db = (mkResp 403 PMsg, db) /\
  run gh ch (RDeleteComment cid) rq db = (mkResp 403 PMsg, db).
Proof.
  intros Ht Hn Hf Hc Hfb; split; unfold run; cbn [handle];
    rewrite (token_reaches rq db uid exp u _ Ht Hn Hf);
    [unfold update_comment | unfold delete_comment];
    cbv [bind read]; cbn [session]; rewrite Hc, Hfb; reflexivity.
Qed.

Lemma run_delete_post_allowed gh ch db rq uid exp u pid p :
  db_ok db = true ->
  req_token rq = TSigned uid exp -> (req_now rq < exp)%Z -> find_user uid db = Some u ->
  find_post pid db = Some p -> forbidden (post_user_id p) u = false ->
  run gh ch (RDeletePost pid) rq db = (mkResp 200 PMsg, delete_post_row pid db).
Proof.
  intros Hok Ht Hn Hf Hp Hfb.
  assert (Hd : db_ok (delete_post_row pid db) = true) by (apply db_ok_delete_rows; exact Hok).
  unfold run; cbn [handle]; rewrite (token_reaches rq db uid exp u _ Ht Hn Hf).
  unfold delete_post; cbv [bind read modify commit flush reply ret]; cbn [session committed].
  rewrite Hp, Hfb; cbv beta iota; cbn [session committed]; rewrite Hd; reflexivity.
Qed.

Lemma run_delete_comment_allowed gh ch db rq uid exp u cid c :
  db_ok db = true ->
  req_token rq = TSigned uid exp -> (req_now rq < exp)%Z -> find_user uid db = Some u ->
  find_comment cid db = Some c -> forbidden (comment_user_id c) u = false ->
  run gh ch (RDeleteComment cid) rq db = (mkResp 200 PMsg, delete_comment_row cid db).
Proof.
  intros Hok Ht Hn Hf Hc Hfb.
  assert (Hd : db_ok (delete_comment_row cid db) = true) by (apply db_ok_delete_rows; exact Hok).
  unfold run; cbn [handle]; rewrite (token_reaches rq db uid exp u _ Ht Hn Hf).
  unfold delete_comment; cbv [bind read modify commit flush reply ret]; cbn [session committed].
  rewrite Hc, Hfb; cbv beta iota; cbn [session committed]; rewrite Hd; reflexivity.
Qed.

Lemma run_update_post_allowed gh ch db rq uid exp u pid p kvs :
  db_ok db = true ->
  req_token rq = TSigned uid exp -> (req_now rq < exp)%Z -> find_user uid db = Some u ->
  find_post pid db = Some p -> forbidden (post_user_id p) u = false ->
  req_body rq = JObj kvs -> str_or_absent kvs (txt "title") = true ->
  str_or_absent kvs (txt "content") = true ->
  status (fst (run gh ch (RUpdatePost pid) rq db)) = 200 /\
  snd (run gh ch (RUpdatePost pid) rq db) = post_update kvs (req_now rq) pid db.
Proof.
  intros Hok Ht Hn Hf Hp Hfb Hb Hst Hsc.
  pose proof (db_ok_post_update kvs (req_now rq) pid db Hok Hst Hsc) as Hd.
  unfold run; cbn [handle]; rewrite (token_reaches rq db uid exp u _ Ht Hn Hf).
  unfold update_post;
    cbv [bind read lift ret modify commit flush reply py_in py_getitem]; cbn [session committed].
  rewrite Hp, Hfb, Hb; cbv beta iota; cbn [session committed].
  unfold post_update in Hd |- *.
  destruct (dict_get kvs (txt "title")) as [vt|]; destruct (dict_get kvs (txt "content")) as [vc|];
    cbv beta iota; cbn [session committed]; rewrite Hd; split; reflexivity.
Qed.

Lemma run_update_comment_allowed gh ch db rq uid exp u cid c kvs s :
  db_ok db = true ->
  req_token rq = TSigned uid exp -> (req_now rq < exp)%Z -> find_user uid db = Some u ->
  find_comment cid db = Some c -> forbidden (comment_user_id c) u = false ->
  req_body rq = JObj kvs -> dict_get kvs (txt "content") = Some (JStr s) -> s <> [] ->
  has_surrogate s = false ->
  status (fst (run gh ch (RUpdateComment cid) rq db)) = 200 /\
  snd (run gh ch (RUpdateComment cid) rq db)
    = map_comment cid (set_comment_content (CText s) (req_now rq)) db.
Proof.
  intros Hok Ht Hn Hf Hc Hfb Hb Hs Hne Hsu.
  assert (Hd : db_ok (map_comment cid (set_comment_content (CText s) (req_now rq)) db) = true)
    by (apply db_ok_map_comment; [exact Hok | reflexivity |];
        intros c0 _; cbn [comment_content set_comment_content text_ok]; rewrite Hsu; reflexivity).
  assert (Hkvs : kvs <> []) by (intros ->; discriminate Hs).
  unfold run; cbn [handle]; rewrite (token_reaches rq db uid exp u _ Ht Hn Hf).
  unfold update_comment;
    cbv [bind read lift ret modify commit flush reply py_get py_getitem body_has fields_present
         get_truthy]; cbn [session committed].
  rewrite Hc, Hfb, Hb; cbv beta iota; cbn [session committed truthy].
  destruct kvs as [|kv kvs']; [congruence|]; cbn [negb].
  rewrite Hs; destruct s as [|x s']; [congruence|]; cbv beta iota; cbn [truthy negb].
  cbn [session committed to_cell]; rewrite Hsu; cbv beta iota; rewrite Hd; split; reflexivity.
Qed.

Definition u_carol : User :=
  mkUser 3 (CText (txt "carol")) (CText (txt "c@x")) (CText (txt "pw")) (BVal false) 0.
Definition comment1 : Comment := mkComment 1 (CText (txt "nice")) 2 1 6 6.
Definition db_c : DB := mkDB [u_admin; u_bob; u_carol] [post1] [comment1] [].

(** C1 (amended): for a request with a live token of a user [u] on an
    existing post or comment, when [u] is neither its author nor an admin,
    the update and the delete answer 403 and change nothing. When [u] is
    the author or an admin, the delete is applied (200, the row and its
    cascade removed). The update is applied (200) when the body is a JSON
    object whose [title] and [content], if present, are strings with no
    lone surrogate (posts), or whose [content] is a non-empty string with
    no lone surrogate (comments). *)
Theorem owner_or_admin_mutations gh ch db rq uid exp u :
  db_ok db = true ->
  req_token rq = TSigned uid exp -> (req_now rq < exp)%Z -> find_user uid db = Some u ->
  (forall pid p, find_post pid db = Some p ->
     (forbidden (post_user_id p) u = true ->
        run gh ch (RUpdatePost pid) rq db = (mkResp 403 PMsg, db) /\
        run gh ch (RDeletePost pid) rq db = (mkResp 403 PMsg, db)) /\
     (forbidden (post_user_id p) u = false ->
        run gh ch (RDeletePost pid) rq db = (mkResp 200 PMsg, delete_post_row pid db) /\
        (forall kvs, req_body rq = JObj kvs ->
           str_or_absent kvs (txt "title") = true -> str_or_absent kvs (txt "content") = true ->
           status (fst (run gh ch (RUpdatePost pid) rq db)) = 200 /\
           snd (run gh ch (RUpdatePost pid) rq db) = post_update kvs (req_now rq) pid db))) /\
  (forall cid c, find_comment cid db = Some c ->
     (forbidden (comment_user_id c) u = true ->
        run gh ch (RUpdateComment cid) rq db = (mkResp 403 PMsg, db) /\
        run gh ch (RDeleteComment cid) rq db = (mkResp 403 PMsg, db)) /\
     (forbidden (comment_user_id c) u = false ->
        run gh ch (RDeleteComment cid) rq db = (mkResp 200 PMsg, delete_comment_row cid db) /\
        (forall kvs s, req_body rq = JObj kvs -> dict_get kvs (txt "content") = Some (JStr s) ->
           s <> [] -> has_surrogate s = false ->
           status (fst (run gh ch (RUpdateComment cid) rq db)) = 200 /\
           snd (run gh ch (RUpdateComment cid) rq db)
             = map_comment cid (set_comment_content (CText s) (req_now rq)) db))).
Proof.
  intros Hok Ht Hn Hf; split.
  - intros pid p Hp; split.
    + apply (run_post_forbidden gh ch db rq uid exp u pid p Ht Hn Hf Hp).
    + intro Hfb; split.
      * apply (run_delete_post_allowed gh ch db rq uid exp u pid p Hok Ht Hn Hf Hp Hfb).
      * intros kvs Hb; apply (run_update_post_allowed gh ch db rq uid exp u pid p kvs
                                Hok Ht Hn Hf Hp Hfb Hb).
  - intros cid c Hc; split.
    + apply (run_comment_forbidden gh ch db rq uid exp u cid c Ht Hn Hf Hc).
    + intro Hfb; split.
      * apply (run_delete_comment_allowed gh ch db rq uid exp u cid c Hok Ht Hn Hf Hc Hfb).
      * intros kvs s Hb; apply (run_update_comment_allowed gh ch db rq uid exp u cid c kvs s
                                  Hok Ht Hn Hf Hc Hfb Hb).
Qed.

(** [carol] may not delete [bob]'s post; [bob] may, and may rewrite the
    comment [bob] wrote. *)
Lemma owner_or_admin_mutations_witness :
  run gh0 ch0 (RDeletePost 1) (req_of (TSigned 3 100) JNull) db_c = (mkResp 403 PMsg, db_c) /\
  run gh0 ch0 (RDeletePost 1) (req_of (TSigned 2 100) JNull) db_c
    = (mkResp 200 PMsg, delete_post_row 1 db_c) /\
  status (fst (run gh0 ch0 (RUpdateComment 1)
                 (req_of (TSigned 2 100) (JObj [jfield "content" "ok"])) db_c)) = 200.
Proof.
  split; [|split].
  - apply (proj2 (proj1 (proj1 (owner_or_admin_mutations gh0 ch0 db_c (req_of (TSigned 3 100) JNull)
             3 100 u_carol ltac:(vm_compute; reflexivity) eq_refl ltac:(vm_compute; reflexivity)
             ltac:(vm_compute; reflexivity)) 1 post1 ltac:(vm_compute; reflexivity))
             ltac:(vm_compute; reflexivity))).
  - apply (proj1 (proj2 (proj1 (owner_or_admin_mutations gh0 ch0 db_c (req_of (TSigned 2 100) JNull)
             2 100 u_bob ltac:(vm_compute; reflexivity) eq_refl ltac:(vm_compute; reflexivity)
             ltac:(vm_compute; reflexivity)) 1 post1 ltac:(vm_compute; reflexivity))
             ltac:(vm_compute; reflexivity))).
  - apply (proj1 (proj2 (proj2 (proj2 (owner_or_admin_mutations gh0 ch0 db_c
             (req_of (TSigned 2 100) (JObj [jfield "content" "ok"]))
             2 100 u_bob ltac:(vm_compute; reflexivity) eq_refl ltac:(vm_compute; reflexivity)
             ltac:(vm_compute; reflexivity)) 1 comment1 ltac:(vm_compute; reflexivity))
             ltac:(vm_compute; reflexivity)) _ (txt "ok") eq_refl ltac:(vm_compute; reflexivity)
             ltac:(discriminate) ltac:(vm_compute; reflexivity))).
Defined.

(** C1, as stated, fails: [bob], the author of the comment, sends an empty
    object; the update is not applied, the answer is 400. *)
Lemma author_update_not_applied :
  run gh0 ch0 (RUpdateComment 1) (req_of (TSigned 2 100) (JObj [])) db_c = (mkResp 400 PMsg, db_c).
Proof. vm_compute; reflexivity. Qed.

(** *** Search *)

Lemma lower_cp_idem c : lower_cp (lower_cp c) = lower_cp c.
Proof.
  unfold lower_cp.
  destruct ((65 <=? c)%N) eqn:E1, ((c <=? 90)%N) eqn:E2; simpl; rewrite ?E1, ?E2; try reflexivity.
  apply N.leb_le in E1; apply N.leb_le in E2.
  replace ((c + 32 <=? 90)%N) with false by (symmetry; apply N.leb_gt; lia).
  rewrite andb_false_r; reflexivity.
Qed.

Lemma lower_cp_wild c : c <> 37%N -> c <> 95%N -> lower_cp c <> 37%N /\ lower_cp c <> 95%N.
Proof.
  unfold lower_cp; intros H1 H2.
  destruct ((65 <=? c)%N) eqn:E1, ((c <=? 90)%N) eqn:E2; simpl; try tauto.
  apply N.leb_le in E1; apply N.leb_le in E2; split; lia.
Qed.

(** [q] holds neither LIKE wildcard. *)
Definition no_wildcards (q : text) : bool :=
  forallb (fun c => negb (N.eqb c 37 || N.eqb c 95)) q.

Lemma like_match_prefix (q t : text) :
  forallb (fun c => negb (N.eqb c 37 || N.eqb c 95)) q = true ->
  Forall (fun c => lower_cp c = c) q -> Forall (fun d => lower_cp d = d) t ->
  like_match (q ++ [37%N]) t = prefixb q t.
Proof.
  revert t; induction q as [|c q IH]; intros t Hw Hq Ht.
  - change (existsb (fun k => like_match [] (skipn k t)) (seq 0 (S (List.length t))) = true).
    apply existsb_exists; exists (List.length t); split.
    + apply in_seq; lia.
    + rewrite skipn_all; reflexivity.
  - simpl in Hw; apply andb_true_iff in Hw; destruct Hw as [Hc Hw].
    rewrite negb_true_iff, orb_false_iff, !N.eqb_neq in Hc; destruct Hc as [Hc37 Hc95].
    inversion Hq as [|? ? Hlc Hq']; subst.
    cbn [app like_match]; replace (N.eqb c 37) with false by (symmetry; apply N.eqb_neq; exact Hc37).
    destruct t as [|d t]; [reflexivity|].
    inversion Ht as [|? ? Hld Ht']; subst.
    replace (N.eqb c 95) with false by (symmetry; apply N.eqb_neq; exact Hc95).
    rewrite Hlc, Hld, (IH t Hw Hq' Ht'); reflexivity.
Qed.

Lemma existsb_ext_in {A} (f g : A -> bool) l :
  (forall x, In x l -> f x = g x) -> existsb f l = existsb g l.
Proof.
  induction l as [|x l IH]; intro H; simpl; [reflexivity|].
  rewrite (H x (or_introl eq_refl)), IH; [reflexivity | intros y Hy; apply H; right; exact Hy].
Qed.

Lemma existsb_seq_shift (f : nat -> bool) a n :
  existsb f (seq (S a) n) = existsb (fun k => f (S k)) (seq a n).
Proof. revert a; induction n as [|n IH]; intro a; simpl; [reflexivity | rewrite IH; reflexivity]. Qed.

Lemma existsb_prefix_substring (q s : text) :
  existsb (fun k => prefixb q (skipn k s)) (seq 0 (S (List.length s))) = substringb q s.
Proof.
  induction s as [|d s IH].
  - simpl; rewrite orb_false_r; reflexivity.
  - replace (seq 0 (S (List.length (d :: s)))) with (0 :: seq 1 (S (List.length s)))
      by reflexivity.
    cbn [existsb]; rewrite existsb_seq_shift; cbn [skipn substringb].
    rewrite IH; reflexivity.
Qed.

Lemma sql_lower_lowered s : Forall (fun d => lower_cp d = d) (sql_lower s).
Proof.
  unfold sql_lower; induction s as [|c s IH]; simpl; constructor; [apply lower_cp_idem | exact IH].
Qed.

Lemma Forall_skipn {A} (P : A -> Prop) k l : Forall P l -> Forall P (skipn k l).
Proof.
  revert l; induction k as [|k IH]; intros l H; [exact H|].
  destruct l as [|x l]; [constructor|]; inversion H; subst; apply IH; assumption.
Qed.

Lemma no_wildcards_lower q :
  no_wildcards q = true -> forallb (fun c => negb (N.eqb c 37 || N.eqb c 95)) (sql_lower q) = true.
Proof.
  unfold no_wildcards, sql_lower; induction q as [|c q IH]; simpl; [reflexivity|].
  rewrite !andb_true_iff, !negb_true_iff, !orb_false_iff, !N.eqb_neq.
  intros [[H1 H2] H]; destruct (lower_cp_wild c H1 H2); tauto.
Qed.

(** With no wildcard in [q], [lower(s) LIKE lower('%' || q || '%')] is the
    substring test up to ASCII case. *)
Lemma ilike_substring q s :
  no_wildcards q = true ->
  like_match (sql_lower ([37%N] ++ q ++ [37%N])) (sql_lower s) = substringb (sql_lower q) (sql_lower s).
Proof.
  intro Hw; unfold sql_lower at 1; rewrite !map_app; cbn [map].
  replace (lower_cp 37) with 37%N by reflexivity.
  cbn [app like_match N.eqb Pos.eqb]; fold (sql_lower q).
  rewrite <- existsb_prefix_substring; apply existsb_ext_in; intros k _.
  apply like_match_prefix.
  - apply no_wildcards_lower, Hw.
  - apply sql_lower_lowered.
  - apply Forall_skipn, sql_lower_lowered.
Qed.

(** [order_by(Post.created_at.desc())]: newer first. *)
Definition created_desc (a b : Post) : Prop := (post_created_at b <= post_created_at a)%Z.

Lemma insert_desc_hd q p l :
  created_desc q p -> HdRel created_desc q l -> HdRel created_desc q (insert_desc p l).
Proof.
  intros Hqp Hl; destruct l as [|r l]; simpl; [constructor; exact Hqp|].
  destruct (Z.ltb (post_created_at p) (post_created_at r)); constructor;
    [inversion Hl; assumption | exact Hqp].
Qed.

Lemma insert_desc_sorted p l : Sorted created_desc l -> Sorted created_desc (insert_desc p l).
Proof.
  induction l as [|q l IH]; simpl; intro H; [repeat constructor|].
  destruct (Z.ltb (post_created_at p) (post_created_at q)) eqn:E.
  - apply Z.ltb_lt in E; inversion H; subst; constructor; [apply IH; assumption|].
    apply insert_desc_hd; [unfold created_desc; lia | assumption].
  - apply Z.ltb_ge in E; constructor; [exact H | constructor; unfold created_desc; lia].
Qed.

Lemma sort_desc_sorted l : Sorted created_desc (sort_desc l).
Proof. induction l; simpl; [constructor | apply insert_desc_sorted; assumption]. Qed.

Lemma insert_desc_perm p l : Permutation (insert_desc p l) (p :: l).
Proof.
  induction l as [|q l IH]; simpl; [reflexivity|].
  destruct (Z.ltb _ _); [|reflexivity].
  transitivity (q :: p :: l); [constructor; exact IH | constructor].
Qed.

Lemma sort_desc_perm l : Permutation (sort_desc l) l.
Proof.
  induction l as [|p l IH]; simpl; [reflexivity|].
  rewrite insert_desc_perm; constructor; exact IH.
Qed.

Lemma Sorted_firstn {A} (R : A -> A -> Prop) n l : Sorted R l -> Sorted R (firstn n l).
Proof.
  revert l; induction n as [|n IH]; intros l H; simpl; [constructor|].
  destruct l as [|x l]; [constructor|]; inversion H as [|? ? Hl Hh]; subst.
  constructor; [apply IH, Hl|].
  destruct l as [|y l]; destruct n; simpl; constructor; inversion Hh; assumption.
Qed.

Lemma incl_firstn {A} n (l : list A) : incl (firstn n l) l.
Proof.
  intros x Hx; rewrite <- (firstn_skipn n l); apply in_or_app; left; exact Hx.
Qed.

(** Case-insensitive (ASCII) containment of [q] in a non-NULL text column. *)
Definition contains_ci (c : cell) (q : text) : bool :=
  match c with CText s => substringb (sql_lower q) (sql_lower s) | _ => false end.

(** [request.args.get('q', '')] *)
Definition search_q (rq : Request) : text :=
  match args_get (req_args rq) (txt "q") with Some s => s | None => [] end.

(** The posts the search's [WHERE] clause selects. *)
Definition search_matches (q : text) (db : DB) : list Post :=
  filter (search_filter ([37%N] ++ q ++ [37%N])) (posts db).

Lemma search_filter_ci q p :
  no_wildcards q = true ->
  search_filter ([37%N] ++ q ++ [37%N]) p = contains_ci (title p) q || contains_ci (content p) q.
Proof.
  intro Hw; unfold search_filter, ilike, contains_ci.
  destruct (title p), (content p); rewrite ?ilike_substring by exact Hw; reflexivity.
Qed.

(** C7: a query [q] (absent: empty) shorter than 2 characters is answered
    400. A longer one with no lone surrogate, whose pattern
    ['%' || q || '%'] fits SQLite's LIKE limit (or with no posts), is
    answered 200 with the first 50, newest first, of the posts whose title
    or content matches that pattern without regard to ASCII case: at most
    50 posts, in descending [created_at], all of them matches, and all the
    matches when there are at most 50. When [q] holds no LIKE wildcard
    ([%] or [_]), matching is ASCII-case-insensitive containment of [q]. *)
Theorem search_posts_result gh ch db rq :
  db_ok db = true ->
  (List.length (search_q rq) < 2 -> run gh ch RSearch rq db = (mkResp 400 PMsg, db)) /\
  (2 <= List.length (search_q rq) -> has_surrogate (search_q rq) = false ->
   (utf8_len ([37%N] ++ search_q rq ++ [37%N]) <= max_like_pattern)%N \/ posts db = [] ->
   exists ps,
     run gh ch RSearch rq db = (mkResp 200 (PPosts ps), db) /\
     ps = firstn 50 (sort_desc (search_matches (search_q rq) db)) /\
     List.length ps <= 50 /\
     Sorted created_desc ps /\
     incl ps (search_matches (search_q rq) db) /\
     (List.length (search_matches (search_q rq) db) <= 50 ->
        Permutation ps (search_matches (search_q rq) db)) /\
     (no_wildcards (search_q rq) = true ->
        forall p, In p (search_matches (search_q rq) db) <->
                  In p (posts db) /\
                  contains_ci (title p) (search_q rq) || contains_ci (content p) (search_q rq)
                    = true)).
Proof.
  intro Hok; unfold run; cbn [handle]; unfold search_posts; cbv zeta; fold (search_q rq).
  split.
  - intro Hlt; replace (Nat.ltb (List.length (search_q rq)) 2) with true
      by (symmetry; apply Nat.ltb_lt; exact Hlt).
    rewrite orb_true_r; reflexivity.
  - intros Hge Hsu Hlim; replace (Nat.ltb (List.length (search_q rq)) 2) with false
      by (symmetry; apply Nat.ltb_ge; exact Hge).
    assert (Hs : has_surrogate ([37%N] ++ search_q rq ++ [37%N]) = false)
      by (unfold has_surrogate in *; rewrite !existsb_app, Hsu; reflexivity).
    assert (Hl : N.ltb max_like_pattern (utf8_len ([37%N] ++ search_q rq ++ [37%N]))
                 && negb (Nat.eqb (List.length (posts db)) 0) = false)
      by (destruct Hlim as [Hlim | ->];
          [apply andb_false_intro1, N.ltb_ge, Hlim | apply andb_false_r]).
    destruct (search_q rq) as [|c q] eqn:Eq; [simpl in Hge; lia|]; cbn [orb].
    rewrite <- Eq in *; rewrite Hs.
    cbv [bind query flush read reply ret]; cbn [session committed]; rewrite Hok.
    cbv beta iota; cbn [session]; rewrite Hl.
    eexists; split; [reflexivity|].
    fold (search_matches (search_q rq) db).
    split; [reflexivity|]; split; [apply firstn_le_length|]; split;
      [apply Sorted_firstn, sort_desc_sorted|]; split.
    + intros x Hx; apply (Permutation_in _ (sort_desc_perm _)), (incl_firstn 50), Hx.
    + split.
      * intro Hlen; rewrite firstn_all2; [apply sort_desc_perm|].
        rewrite (Permutation_length (sort_desc_perm _)); exact Hlen.
      * intros Hw p; unfold search_matches; rewrite filter_In, search_filter_ci by exact Hw.
        reflexivity.
Qed.

(** Searching [db0] for [React]. *)
Lemma search_posts_result_witness :
  run gh0 ch0 RSearch (mkReq TMissing JNull [(txt "q", txt "REACT")] 10) db0
    = (mkResp 200 (PPosts [post1]), db0).
Proof.
  destruct (proj2 (search_posts_result gh0 ch0 db0 (mkReq TMissing JNull [(txt "q", txt "REACT")] 10)
                     ltac:(vm_compute; reflexivity)) ltac:(vm_compute; lia)
                     ltac:(vm_compute; reflexivity) ltac:(left; vm_compute; discriminate))
    as (ps & Hr & Hps & _).
  rewrite Hr, Hps; vm_compute; reflexivity.
Defined.

(** Fifty-one posts titled [ab]. *)
Definition db_many : DB :=
  mkDB [u_admin] (map (fun i => mkPost i (CText (txt "ab")) (CText (txt "x")) 1 0 0) (seq 1 51)) [] [].

(** A post titled [été] (U+00E9, [t], U+00E9). *)
Definition post_ete : Post := mkPost 1 (CText [233%N; 116%N; 233%N]) (CText (txt "x")) 1 0 0.
Definition db_ete : DB := mkDB [u_admin] [post_ete] [] [].

(** A query of 49999 letters [a]: its pattern ['%' || q || '%'] has 50001
    bytes. *)
Definition long_q : text := N.iter 49999 (cons 97%N) [].

(** C7, as stated, fails four times: [%%] (of length 2) matches
    [Hello React], which does not contain it; [ÉTÉ] does not find the post
    titled [été], which contains it up to case; a query of 49999 letters,
    contained in no post, is answered 500 instead of an empty list; and of
    51 posts containing [ab] only 50 are returned. *)
Lemma search_not_substring :
  run gh0 ch0 RSearch (mkReq TMissing JNull [(txt "q", txt "%%")] 10) db0
    = (mkResp 200 (PPosts [post1]), db0) /\
  contains_ci (title post1) (txt "%%") || contains_ci (content post1) (txt "%%") = false /\
  db_ok db_ete = true /\
  run gh0 ch0 RSearch (mkReq TMissing JNull [(txt "q", [201%N; 84%N; 201%N])] 10) db_ete
    = (mkResp 200 (PPosts []), db_ete) /\
  run gh0 ch0 RSearch (mkReq TMissing JNull [(txt "q", long_q)] 10) db0 = (mkResp 500 PMsg, db0) /\
  List.length (search_matches (txt "ab") db_many) = 51 /\
  (exists ps, run gh0 ch0 RSearch (mkReq TMissing JNull [(txt "q", txt "ab")] 10) db_many
                = (mkResp 200 (PPosts ps), db_many) /\ List.length ps = 50).
Proof.
  split; [vm_compute; reflexivity|].
  split; [vm_compute; reflexivity|].
  split; [vm_compute; reflexivity|].
  split; [vm_compute; reflexivity|].
  split; [vm_compute; reflexivity|].
  split; [vm_compute; reflexivity|].
  eexists; split; [vm_compute; reflexivity | vm_compute; reflexivity].
Qed.

(** * Further properties of the handlers *)

(** ** Authentication and authorisation *)

(** The routes whose view the URL map wraps in [@token_required]. *)
Definition protected (r : Route) : bool :=
  match r with
  | RRegister | RLogin | RGetPosts | RGetPost _ | RGetComments _
  | RGetPostLikes _ | RGetCommentLikes _ | RUserProfile _ | RSearch => false
  | _ => true
  end.

(** The routes also wrapped in [@admin_required]. *)
Definition admin_route (r : Route) : bool :=
  match r with RGetAllUsers | RDeleteUser _ | RUpdateUser _ => true | _ => false end.

(** A token [@token_required] turns away with 401: missing, not a valid
    signed token, expired, or naming as [user_id] a 64-bit row id that no
    user has. *)
Definition token_rejected (rq : Request) (db : DB) : bool :=
  match req_token rq with
  | TMissing | TInvalid => true
  | TSigned uid exp =>
      Z.leb exp (req_now rq)
      || match find_user uid db with Some _ => false | None => rowid_ok uid end
  | TBadUserId exp => Z.leb exp (req_now rq)
  end.

Lemma token_required_rejects rq db f :
  token_rejected rq db = true ->
  token_required rq f (mkWorld db db) = Ok (mkResp 401 PMsg) (mkWorld db db).
Proof.
  unfold token_rejected, token_required; intro Ht.
  destruct (req_token rq) as [| |uid exp|exp]; try reflexivity.
  - destruct (Z.leb exp (req_now rq)); [reflexivity|].
    cbv [bind read]; cbn [session]; destruct (find_user uid db); [discriminate|].
    cbn [orb] in Ht; rewrite Ht; reflexivity.
  - destruct (Z.leb exp (req_now rq)); [reflexivity | discriminate].
Qed.

(** X1: every view behind [@token_required] answers 401 to a request whose
    token is missing, invalid, expired or names as [user_id] a 64-bit row
    id that no user has, and the database is left as it was. *)
Theorem protected_routes_401 gh ch r rq db :
  protected r = true -> token_rejected rq db = true ->
  run gh ch r rq db = (mkResp 401 PMsg, db).
Proof.
  intros Hp Ht; unfold run.
  destruct r; try discriminate Hp; cbn [handle]; rewrite (token_required_rejects rq db _ Ht);
    reflexivity.
Qed.

(** Bob's token, expired at time 5, used at time 10 to delete the post Bob wrote. *)
Lemma protected_routes_401_witness :
  run gh0 ch0 (RDeletePost 1) (req_of (TSigned 2 5) JNull) db0 = (mkResp 401 PMsg, db0).
Proof. apply protected_routes_401; vm_compute; reflexivity. Defined.

(** X2: an authenticated user without the admin flag gets 403 from the
    three administration views, and the database is left as it was. *)
Theorem admin_routes_403 gh ch r rq db uid exp u :
  admin_route r = true ->
  req_token rq = TSigned uid exp -> (req_now rq < exp)%Z ->
  find_user uid db = Some u -> bcell_truthy (is_admin u) = false ->
  run gh ch r rq db = (mkResp 403 PMsg, db).
Proof.
  intros Hr Ht Hn Hf Ha; unfold run.
  destruct r; try discriminate Hr; cbn [handle];
    rewrite (token_reaches rq db uid exp u _ Ht Hn Hf); unfold admin_required; rewrite Ha;
    reflexivity.
Qed.

(** Bob tries to delete the admin. *)
Lemma admin_routes_403_witness :
  run gh0 ch0 (RDeleteUser 1) (req_of (TSigned 2 100) JNull) db0 = (mkResp 403 PMsg, db0).
Proof.
  apply (admin_routes_403 gh0 ch0 (RDeleteUser 1) _ db0 2 100 u_bob);
    vm_compute; reflexivity.
Defined.

(** ** Views that only read *)

Lemma pure_token_required rq f : (forall u, pure_m (f u)) -> pure_m (token_required rq f).
Proof. intro Hf; unfold token_required; pure_tac; apply Hf. Qed.

Lemma pure_admin_required f cu : (forall u, pure_m (f u)) -> pure_m (admin_required f cu).
Proof. intro Hf; unfold admin_required; pure_tac; apply Hf. Qed.

(** The views that have no [db.session.add], [delete], assignment or
    [commit]. *)
Definition read_only (r : Route) : bool :=
  match r with
  | RLogin | RMe | RGetAllUsers | RGetPosts | RGetPost _ | RGetComments _
  | RGetPostLikes _ | RGetCommentLikes _ | RUserLikedPost _ | RUserLikedComment _
  | RUserProfile _ | RSearch => true
  | _ => false
  end.

(** X3: login, the listings, the like queries, the profile and the search
    never change the database, whatever the request. *)
Theorem read_only_routes gh ch r rq db :
  read_only r = true -> snd (run gh ch r rq db) = db.
Proof.
  intro Hr; assert (Hp : pure_m (handle gh ch r rq)).
  { destruct r; try discriminate Hr; simpl;
      repeat first [ apply pure_token_required; intro | apply pure_admin_required; intro ];
      unfold_handlers; pure_tac. }
  specialize (Hp (mkWorld db db)); unfold run.
  destruct (handle gh ch r rq (mkWorld db db)); simpl in Hp; subst; reflexivity.
Qed.

(** The admin logs in. *)
Lemma read_only_routes_witness :
  snd (run gh0 ch0 RLogin (req_of TMissing (JObj [jfield "username" "admin"; jfield "password" "pw"]))
         db0) = db0.
Proof. apply read_only_routes; reflexivity. Defined.

(** ** Login *)

Lemma text_eqb_refl s : text_eqb s s = true.
Proof. unfold text_eqb; destruct (list_eq_dec N.eq_dec s s); congruence. Qed.

Lemma login_run gh ch db rq kvs un pw :
  db_ok db = true -> req_body rq = JObj kvs ->
  dict_get kvs (txt "username") = Some (JStr un) -> un <> [] ->
  dict_get kvs (txt "password") = Some (JStr pw) -> pw <> [] ->
  has_surrogate un = false -> has_surrogate pw = false ->
  run gh ch RLogin rq db =
    (match find (fun u => cell_eqb (username u) (CText un)) (users db) with
     | None => mkResp 401 PMsg
     | Some u => match password_hash u with
                 | CText h => if ch h pw then mkResp 200 (PToken (user_id u)) else mkResp 401 PMsg
                 | _ => mkResp 500 PMsg
                 end
     end, db).
Proof.
  intros Hok Hb Hu Hun Hp Hpw Su Sp.
  unfold run; cbn [handle]; unfold login; rewrite Hb.
  destruct kvs as [|kv kvs']; [discriminate Hu|].
  cbv [bind read lift ret query flush reply py_get py_getitem body_has fields_present
       get_truthy filter_first_user check_password]; cbn [session committed truthy negb].
  rewrite Hu, Hp; destruct un as [|a un']; [congruence|]; destruct pw as [|b pw']; [congruence|].
  cbv beta iota; cbn [truthy negb to_cell]; rewrite Su;
  cbv beta iota; cbn [session committed].
  rewrite Hok; cbv beta iota; cbn [session committed].
  destruct (find _ (users db)) as [u|]; [|reflexivity].
  destruct (password_hash u); try reflexivity; rewrite Sp; destruct (ch _ _); reflexivity.
Qed.

(** X4: a login whose body carries non-empty string [username] and
    [password], neither holding a lone surrogate, never changes the
    database. It answers 401 when no user
    has that name, or when [check_password_hash] rejects the password
    against the stored hash. Otherwise it answers 200 with a token for that
    user's id. *)
Theorem login_outcome gh ch db rq kvs un pw :
  db_ok db = true -> req_body rq = JObj kvs ->
  dict_get kvs (txt "username") = Some (JStr un) -> un <> [] ->
  dict_get kvs (txt "password") = Some (JStr pw) -> pw <> [] ->
  has_surrogate un = false -> has_surrogate pw = false ->
  run gh ch RLogin rq db =
    (match find (fun u => cell_eqb (username u) (CText un)) (users db) with
     | None => mkResp 401 PMsg
     | Some u => match password_hash u with
                 | CText h => if ch h pw then mkResp 200 (PToken (user_id u)) else mkResp 401 PMsg
                 | _ => mkResp 500 PMsg
                 end
     end, db).
Proof. exact (login_run gh ch db rq kvs un pw). Qed.

(** Bob logs in with a wrong password. *)
Lemma login_outcome_witness :
  run gh0 ch0 RLogin (req_of TMissing (JObj [jfield "username" "bob"; jfield "password" "nope"])) db0
    = (mkResp 401 PMsg, db0).
Proof.
  rewrite (login_outcome gh0 ch0 db0 _ [jfield "username" "bob"; jfield "password" "nope"]
             (txt "bob") (txt "nope")); try reflexivity; intro H; discriminate H.
Defined.

(** ** Registration *)

(** The body [{"username": un, "email": em, "password": pw}]. *)
Definition signup_body (un em pw : text) : JValue :=
  JObj [(txt "username", JStr un); (txt "email", JStr em); (txt "password", JStr pw)].

Lemma signup_steps gh ch db un em pw now :
  db_ok db = true -> un <> [] -> em <> [] -> pw <> [] ->
  has_surrogate un = false -> has_surrogate em = false ->
  handle gh ch RRegister (mkReq TMissing (signup_body un em pw) [] now) (mkWorld db db)
  = match find (fun u => cell_eqb (username u) (CText un)) (users db) with
    | Some _ => Ok (mkResp 409 PMsg) (mkWorld db db)
    | None =>
      match find (fun u => cell_eqb (email u) (CText em)) (users db) with
      | Some _ => Ok (mkResp 409 PMsg) (mkWorld db db)
      | None =>
        if has_surrogate pw then Exc (mkWorld db db) else
        let u := mkUser (next_id (map user_id (users db))) (CText un) (CText em)
                        (CText (gh pw)) (BVal false) now in
        if db_ok (add_user u db)
        then Ok (mkResp 201 (user_payload (find_user (user_id u) (add_user u db))))
                (mkWorld (add_user u db) (add_user u db))
        else Exc (mkWorld db (add_user u db))
      end
    end.
Proof.
  intros Hok Hu He Hp Su Se.
  cbn [handle]; unfold register; cbn [req_body req_now].
  assert (Hb : body_has (signup_body un em pw) [txt "username"; txt "email"; txt "password"]
                 (mkWorld db db) = Ok true (mkWorld db db))
    by (destruct un; [congruence|]; destruct em; [congruence|]; destruct pw; [congruence|];
        reflexivity).
  assert (L : py_getitem (signup_body un em pw) (txt "username") = Some (JStr un) /\
              py_getitem (signup_body un em pw) (txt "email") = Some (JStr em) /\
              py_getitem (signup_body un em pw) (txt "password") = Some (JStr pw) /\
              py_get (signup_body un em pw) (txt "is_admin") = Some None)
    by (repeat split).
  destruct L as (L1 & L2 & L3 & L4); rewrite L1, L2, L3, L4.
  cbv [bind]; rewrite Hb; cbn [negb].
  cbv -[db_ok find cell_eqb next_id add_user find_user user_payload users username email
        session committed map user_id txt has_surrogate]; cbn [session committed].
  rewrite Su; cbv beta iota; cbn [session committed].
  rewrite Hok; cbv beta iota; cbn [session committed].
  destruct (find _ (users db)); [reflexivity|]; cbv beta iota; cbn [session committed].
  rewrite Se; cbv beta iota; cbn [session committed].
  rewrite Hok; cbv beta iota; cbn [session committed].
  destruct (find _ (users db)); [reflexivity|]; cbv beta iota; cbn [session committed].
  destruct (has_surrogate pw); [reflexivity|]; cbv beta iota; cbn [session committed].
  destruct (db_ok (add_user _ db)); reflexivity.
Qed.

(** X5: a registration whose username or email is already taken answers
    409 and changes nothing, when neither holds a lone surrogate. *)
Theorem register_conflict gh ch db un em pw now :
  db_ok db = true -> un <> [] -> em <> [] -> pw <> [] ->
  has_surrogate un = false -> has_surrogate em = false ->
  (find (fun u => cell_eqb (username u) (CText un)) (users db) <> None \/
   find (fun u => cell_eqb (email u) (CText em)) (users db) <> None) ->
  run gh ch RRegister (mkReq TMissing (signup_body un em pw) [] now) db = (mkResp 409 PMsg, db).
Proof.
  intros Hok Hu He Hp Su Se Hc; unfold run; rewrite signup_steps by assumption.
  destruct (find (fun u => cell_eqb (username u) (CText un)) (users db)); [reflexivity|].
  destruct (find (fun u => cell_eqb (email u) (CText em)) (users db)); [reflexivity|].
  destruct Hc; congruence.
Qed.

(** A second account named [bob]. *)
Lemma register_conflict_witness :
  run gh0 ch0 RRegister (mkReq TMissing (signup_body (txt "bob") (txt "new@x") (txt "pw")) [] 10) db0
    = (mkResp 409 PMsg, db0).
Proof.
  apply register_conflict; try (intro H; discriminate H); try reflexivity.
  left; intro H; discriminate H.
Defined.

Lemma find_app_none {A} (f : A -> bool) l x :
  find f l = None -> find f (l ++ [x]) = if f x then Some x else None.
Proof.
  induction l as [|y l IH]; simpl; [reflexivity|].
  destruct (f y); [discriminate | exact IH].
Qed.

(** X6: registering a fresh username and email with a password [pw], then
    logging in with the same username and [pw], answers 201 and then 200
    with a token for the new user's id, for any hash pair under which
    [check_password_hash(generate_password_hash(pw), pw)] holds, when
    none of the three strings holds a lone surrogate. *)
Theorem register_then_login gh ch db un em pw now rq :
  db_ok db = true -> un <> [] -> em <> [] -> pw <> [] ->
  has_surrogate un = false -> has_surrogate em = false -> has_surrogate pw = false ->
  find (fun u => cell_eqb (username u) (CText un)) (users db) = None ->
  find (fun u => cell_eqb (email u) (CText em)) (users db) = None ->
  ch (gh pw) pw = true ->
  req_body rq = JObj [(txt "username", JStr un); (txt "password", JStr pw)] ->
  status (fst (run gh ch RRegister (mkReq TMissing (signup_body un em pw) [] now) db)) = 201 /\
  fst (run gh ch RLogin rq (snd (run gh ch RRegister (mkReq TMissing (signup_body un em pw) [] now) db)))
    = mkResp 200 (PToken (next_id (map user_id (users db)))).
Proof.
  intros Hok Hu He Hp Su Se Sp Fu Fe Hch Hb.
  set (u := mkUser (next_id (map user_id (users db))) (CText un) (CText em)
                   (CText (gh pw)) (BVal false) now).
  assert (Hadd : db_ok (add_user u db) = true)
    by (apply db_ok_add_user; [exact Hok | cbn; rewrite Su, Se; reflexivity | reflexivity
                               | exact Fu | exact Fe]).
  assert (Hr : run gh ch RRegister (mkReq TMissing (signup_body un em pw) [] now) db
               = (mkResp 201 (user_payload (find_user (user_id u) (add_user u db))), add_user u db)).
  { unfold run; rewrite signup_steps by assumption; rewrite Fu, Fe, Sp; cbv zeta; fold u.
    rewrite Hadd; reflexivity. }
  rewrite Hr; split; [reflexivity|]; cbn [snd].
  rewrite (login_run gh ch (add_user u db) rq _ un pw Hadd Hb); try reflexivity; try assumption.
  unfold add_user; cbn [users]; rewrite (find_app_none _ _ u Fu).
  subst u; cbn [username password_hash user_id cell_eqb]; rewrite text_eqb_refl.
  cbn [password_hash user_id]; rewrite Hch; reflexivity.
Qed.

(** [eve] signs up on [db0] and logs in, with the identity as hash. *)
Lemma register_then_login_witness :
  status (fst (run gh0 ch0 RRegister (mkReq TMissing (signup_body (txt "eve") (txt "e@x") (txt "pw")) [] 10) db0)) = 201 /\
  fst (run gh0 ch0 RLogin (req_of TMissing (JObj [(txt "username", JStr (txt "eve")); (txt "password", JStr (txt "pw"))]))
         (snd (run gh0 ch0 RRegister (mkReq TMissing (signup_body (txt "eve") (txt "e@x") (txt "pw")) [] 10) db0)))
    = mkResp 200 (PToken 3).
Proof.
  apply (register_then_login gh0 ch0 db0 (txt "eve") (txt "e@x") (txt "pw") 10);
    try reflexivity; intro H; discriminate H.
Defined.

(** ** Deletions and their cascades *)

Lemma mem_nat_In x l : mem_nat x l = true <-> In x l.
Proof.
  unfold mem_nat; rewrite existsb_exists; split.
  - intros [y [Hy E]]; apply Nat.eqb_eq in E; subst; exact Hy.
  - intro H; exists x; split; [exact H | apply Nat.eqb_refl].
Qed.

Lemma mem_nat_false x l : mem_nat x l = false -> ~ In x l.
Proof. intros H Hin; apply mem_nat_In in Hin; congruence. Qed.

Lemma run_delete_user_allowed gh ch db rq aid exp a uid v :
  db_ok db = true ->
  req_token rq = TSigned aid exp -> (req_now rq < exp)%Z ->
  find_user aid db = Some a -> bcell_truthy (is_admin a) = true ->
  aid <> uid -> find_user uid db = Some v ->
  run gh ch (RDeleteUser uid) rq db = (mkResp 200 PMsg, delete_user_row uid db).
Proof.
  intros Hok Ht Hn Hf Ha Hne Hv.
  assert (Hd : db_ok (delete_user_row uid db) = true) by (apply db_ok_delete_rows; exact Hok).
  unfold run; cbn [handle]; rewrite (token_admin_reaches rq db aid exp a _ Ht Hn Hf Ha).
  unfold delete_user; rewrite (find_user_id _ _ _ Hf).
  replace (Nat.eqb aid uid) with false by (symmetry; apply Nat.eqb_neq; exact Hne).
  cbv [bind read modify commit flush reply ret]; cbn [session committed]; rewrite Hv.
  cbv beta iota; cbn [session committed]; rewrite Hd; reflexivity.
Qed.

(** X7: an admin deleting another existing user gets 200. The user row
    goes, with the user's posts, comments and likes and the comments left
    on the user's posts; every other user stays. *)
Theorem delete_user_cascade gh ch db rq aid exp a uid v :
  db_ok db = true ->
  req_token rq = TSigned aid exp -> (req_now rq < exp)%Z ->
  find_user aid db = Some a -> bcell_truthy (is_admin a) = true ->
  aid <> uid -> find_user uid db = Some v ->
  fst (run gh ch (RDeleteUser uid) rq db) = mkResp 200 PMsg /\
  (forall w, In w (users (snd (run gh ch (RDeleteUser uid) rq db)))
             <-> In w (users db) /\ user_id w <> uid) /\
  (forall p, In p (posts (snd (run gh ch (RDeleteUser uid) rq db))) -> post_user_id p <> uid) /\
  (forall c, In c (comments (snd (run gh ch (RDeleteUser uid) rq db))) ->
             comment_user_id c <> uid /\
             forall p, In p (posts db) -> post_user_id p = uid -> comment_post_id c <> post_id p) /\
  (forall l, In l (likes (snd (run gh ch (RDeleteUser uid) rq db))) -> like_user_id l <> uid).
Proof.
  intros Hok Ht Hn Hf Ha Hne Hv.
  rewrite (run_delete_user_allowed gh ch db rq aid exp a uid v Hok Ht Hn Hf Ha Hne Hv); cbn [fst snd].
  apply find_some in Hv; destruct Hv as [Hv Hvid].
  set (uids := map user_id (filter (fun u => Nat.eqb (user_id u) uid) (users db))).
  assert (Hm : forall x, mem_nat x uids = true <-> x = uid).
  { intro x; unfold uids; rewrite mem_nat_In, in_map_iff; split.
    - intros [w [<- Hw]]; apply filter_In in Hw; apply Nat.eqb_eq; tauto.
    - intros ->; exists v; split; [apply Nat.eqb_eq; exact Hvid | apply filter_In; tauto]. }
  assert (Hm' : forall x, mem_nat x uids = false -> x <> uid)
    by (intros x Hx E; apply Hm in E; congruence).
  unfold delete_user_row, delete_rows; cbv zeta; fold uids; cbn [users posts comments likes orb].
  split; [reflexivity|]; split; [|split; [|split]].
  - intro w; rewrite filter_In, negb_true_iff, Nat.eqb_neq; reflexivity.
  - intros p Hp; apply filter_In in Hp; destruct Hp as [_ Hp].
    apply negb_true_iff in Hp; exact (Hm' _ Hp).
  - intros c Hc; apply filter_In in Hc; destruct Hc as [_ Hc].
    apply negb_true_iff, orb_false_iff in Hc; destruct Hc as [Hcu Hcp].
    split; [exact (Hm' _ Hcu)|].
    intros p Hp Hpu E; apply mem_nat_false in Hcp; apply Hcp; rewrite E.
    apply in_map, filter_In; split; [exact Hp|]; apply Hm; exact Hpu.
  - intros l Hl; apply filter_In in Hl; destruct Hl as [_ Hl].
    apply negb_true_iff, orb_false_iff in Hl; destruct Hl as [Hl _].
    apply orb_false_iff in Hl; destruct Hl as [Hl _]; exact (Hm' _ Hl).
Qed.

(** The admin deletes Bob: Bob's post goes with him. *)
Lemma delete_user_cascade_witness :
  fst (run gh0 ch0 (RDeleteUser 2) (req_of (TSigned 1 100) JNull) db0) = mkResp 200 PMsg /\
  (forall w, In w (users (snd (run gh0 ch0 (RDeleteUser 2) (req_of (TSigned 1 100) JNull) db0)))
             <-> In w (users db0) /\ user_id w <> 2) /\
  (forall p, In p (posts (snd (run gh0 ch0 (RDeleteUser 2) (req_of (TSigned 1 100) JNull) db0))) ->
             post_user_id p <> 2) /\
  (forall c, In c (comments (snd (run gh0 ch0 (RDeleteUser 2) (req_of (TSigned 1 100) JNull) db0))) ->
             comment_user_id c <> 2 /\
             forall p, In p (posts db0) -> post_user_id p = 2 -> comment_post_id c <> post_id p) /\
  (forall l, In l (likes (snd (run gh0 ch0 (RDeleteUser 2) (req_of (TSigned 1 100) JNull) db0))) ->
             like_user_id l <> 2).
Proof.
  apply (delete_user_cascade gh0 ch0 db0 _ 1 100 u_admin 2 u_bob);
    try reflexivity; try (vm_compute; reflexivity); intro H; discriminate H.
Defined.

Lemma filter_const_false {A} (l : list A) : filter (fun _ => false) l = [].
Proof. induction l; simpl; auto. Qed.

Lemma filter_const_negb_false {A} (l : list A) : filter (fun _ => negb false) l = l.
Proof. induction l as [|x l IH]; [reflexivity|]; cbn [filter negb]; f_equal; exact IH. Qed.

(** X8: the author of an existing post, or an admin, deleting it gets 200.
    The post goes with its comments, the likes on the post and the likes
    on those comments; the users and the other posts stay. *)
Theorem delete_post_cascade gh ch db rq uid exp u pid p :
  db_ok db = true ->
  req_token rq = TSigned uid exp -> (req_now rq < exp)%Z -> find_user uid db = Some u ->
  find_post pid db = Some p -> forbidden (post_user_id p) u = false ->
  fst (run gh ch (RDeletePost pid) rq db) = mkResp 200 PMsg /\
  users (snd (run gh ch (RDeletePost pid) rq db)) = users db /\
  (forall q, In q (posts (snd (run gh ch (RDeletePost pid) rq db)))
             <-> In q (posts db) /\ post_id q <> pid) /\
  (forall c, In c (comments (snd (run gh ch (RDeletePost pid) rq db))) ->
             In c (comments db) /\ comment_post_id c <> pid) /\
  (forall l, In l (likes (snd (run gh ch (RDeletePost pid) rq db))) ->
             is_post_like pid l = false /\
             forall c, In c (comments db) -> comment_post_id c = pid ->
                       is_comment_like (comment_id c) l = false).
Proof.
  intros Hok Ht Hn Hf Hp Hfb.
  rewrite (run_delete_post_allowed gh ch db rq uid exp u pid p Hok Ht Hn Hf Hp Hfb); cbn [fst snd].
  apply find_some in Hp; destruct Hp as [Hp Hpid].
  set (pids := map post_id (filter (fun q => Nat.eqb (post_id q) pid || mem_nat (post_user_id q) [])
                                   (posts db))).
  assert (Hm : forall x, mem_nat x pids = true <-> x = pid).
  { intro x; unfold pids; rewrite mem_nat_In, in_map_iff; split.
    - intros [q [<- Hq]]; apply filter_In in Hq; destruct Hq as [_ Hq].
      apply orb_true_iff in Hq; destruct Hq as [Hq|Hq]; [apply Nat.eqb_eq, Hq | discriminate].
    - intros ->; exists p; split; [apply Nat.eqb_eq; exact Hpid|].
      apply filter_In; split; [exact Hp|]; rewrite Hpid; reflexivity. }
  unfold delete_post_row, delete_rows; cbv zeta; rewrite filter_const_false, filter_const_negb_false.
  cbn [users posts comments likes orb map]; fold pids; split; [reflexivity|]; split; [reflexivity|]; split; [|split].
  - intro q; rewrite filter_In, negb_true_iff; cbn [mem_nat existsb]; rewrite orb_false_r.
    rewrite Nat.eqb_neq; reflexivity.
  - intros c Hc; apply filter_In in Hc; destruct Hc as [Hc Hc'].
    split; [exact Hc|]; intro E; rewrite <- E in Hm.
    rewrite negb_true_iff, (proj2 (Hm _) eq_refl) in Hc'; destruct (mem_nat _ []); discriminate.
  - intros l Hl; apply filter_In in Hl; destruct Hl as [_ Hl].
    rewrite negb_true_iff, !orb_false_iff in Hl; destruct Hl as [[_ Hlp] Hlc].
    split.
    + destruct (is_post_like pid l) eqn:E; [|reflexivity].
      rewrite <- Hlp; symmetry; apply existsb_exists; exists pid; split; [|exact E].
      apply mem_nat_In, Hm; reflexivity.
    + intros c Hc Hcp; destruct (is_comment_like (comment_id c) l) eqn:E; [|reflexivity].
      rewrite <- Hlc; symmetry; apply existsb_exists; exists (comment_id c); split; [|exact E].
      apply in_map, filter_In; split; [exact Hc|].
      rewrite Hcp, (proj2 (Hm _) eq_refl), orb_true_r; reflexivity.
Qed.

(** Bob deletes the post Bob wrote, which has Bob's comment. *)
Lemma delete_post_cascade_witness :
  fst (run gh0 ch0 (RDeletePost 1) (req_of (TSigned 2 100) JNull) db_c) = mkResp 200 PMsg /\
  users (snd (run gh0 ch0 (RDeletePost 1) (req_of (TSigned 2 100) JNull) db_c)) = users db_c /\
  (forall q, In q (posts (snd (run gh0 ch0 (RDeletePost 1) (req_of (TSigned 2 100) JNull) db_c)))
             <-> In q (posts db_c) /\ post_id q <> 1) /\
  (forall c, In c (comments (snd (run gh0 ch0 (RDeletePost 1) (req_of (TSigned 2 100) JNull) db_c))) ->
             In c (comments db_c) /\ comment_post_id c <> 1) /\
  (forall l, In l (likes (snd (run gh0 ch0 (RDeletePost 1) (req_of (TSigned 2 100) JNull) db_c))) ->
             is_post_like 1 l = false /\
             forall c, In c (comments db_c) -> comment_post_id c = 1 ->
                       is_comment_like (comment_id c) l = false).
Proof.
  apply (delete_post_cascade gh0 ch0 db_c _ 2 100 u_bob 1 post1); vm_compute; reflexivity.
Defined.

(** X9: the author of an existing comment, or an admin, deleting it gets
    200. The comment goes with the likes on it; the users, the posts and
    the other comments stay. *)
Theorem delete_comment_cascade gh ch db rq uid exp u cid c :
  db_ok db = true ->
  req_token rq = TSigned uid exp -> (req_now rq < exp)%Z -> find_user uid db = Some u ->
  find_comment cid db = Some c -> forbidden (comment_user_id c) u = false ->
  fst (run gh ch (RDeleteComment cid) rq db) = mkResp 200 PMsg /\
  users (snd (run gh ch (RDeleteComment cid) rq db)) = users db /\
  posts (snd (run gh ch (RDeleteComment cid) rq db)) = posts db /\
  (forall d, In d (comments (snd (run gh ch (RDeleteComment cid) rq db)))
             <-> In d (comments db) /\ comment_id d <> cid) /\
  (forall l, In l (likes (snd (run gh ch (RDeleteComment cid) rq db))) ->
             In l (likes db) /\ is_comment_like cid l = false).
Proof.
  intros Hok Ht Hn Hf Hc Hfb.
  rewrite (run_delete_comment_allowed gh ch db rq uid exp u cid c Hok Ht Hn Hf Hc Hfb);
    cbn [fst snd].
  apply find_some in Hc; destruct Hc as [Hc Hcid].
  unfold delete_comment_row, delete_rows; cbv zeta; rewrite filter_const_false.
  cbn [users posts comments likes orb map mem_nat existsb].
  rewrite !filter_const_negb_false, filter_const_false; cbn [map mem_nat existsb orb].
  split; [reflexivity|]; split; [reflexivity|]; split; [reflexivity|]; split.
  - intro d; rewrite filter_In, negb_true_iff, !orb_false_r, Nat.eqb_neq; reflexivity.
  - intros l Hl; apply filter_In in Hl; destruct Hl as [Hl Hl'].
    split; [exact Hl|]; rewrite negb_true_iff in Hl'.
    destruct (is_comment_like cid l) eqn:E; [|reflexivity].
    rewrite <- Hl'; symmetry; apply existsb_exists; exists cid; split; [|exact E].
    apply Nat.eqb_eq in Hcid; rewrite <- Hcid; apply in_map, filter_In; split; [exact Hc|].
    rewrite Hcid, Nat.eqb_refl; reflexivity.
Qed.

(** Bob deletes the comment Bob wrote. *)
Lemma delete_comment_cascade_witness :
  fst (run gh0 ch0 (RDeleteComment 1) (req_of (TSigned 2 100) JNull) db_c) = mkResp 200 PMsg /\
  users (snd (run gh0 ch0 (RDeleteComment 1) (req_of (TSigned 2 100) JNull) db_c)) = users db_c /\
  posts (snd (run gh0 ch0 (RDeleteComment 1) (req_of (TSigned 2 100) JNull) db_c)) = posts db_c /\
  (forall d, In d (comments (snd (run gh0 ch0 (RDeleteComment 1) (req_of (TSigned 2 100) JNull) db_c)))
             <-> In d (comments db_c) /\ comment_id d <> 1) /\
  (forall l, In l (likes (snd (run gh0 ch0 (RDeleteComment 1) (req_of (TSigned 2 100) JNull) db_c))) ->
             In l (likes db_c) /\ is_comment_like 1 l = false).
Proof.
  apply (delete_comment_cascade gh0 ch0 db_c _ 2 100 u_bob 1 comment1); vm_compute; reflexivity.
Defined.

(** ** Creating posts and comments *)

Lemma find_fresh_id {A} (key : A -> nat) l :
  find (fun x => Nat.eqb (key x) (next_id (map key l))) l = None.
Proof.
  destruct (find _ l) as [x|] eqn:E; [|reflexivity].
  apply find_some in E; destruct E as [Hx Ex].
  pose proof (next_id_fresh (map key l)) as Hf.
  assert (existsb (Nat.eqb (next_id (map key l))) (map key l) = true) as Ht
    by (apply existsb_exists; exists (key x); split; [apply in_map, Hx | rewrite Nat.eqb_sym; exact Ex]).
  congruence.
Qed.

Lemma db_ok_add_post p db :
  db_ok db = true -> text_ok (title p) && text_ok (content p) = true ->
  post_id p = next_id (map post_id (posts db)) ->
  db_ok (add_post p db) = true.
Proof.
  intros H Hp Hid; split_db_ok H; unfold add_post; prove_db_ok;
    cbn [users posts comments likes]; try assumption.
  - rewrite forallb_app; simpl; rewrite Hp; simpl; rewrite andb_true_r; assumption.
  - rewrite map_app; simpl; apply nodup_nat_app1; [assumption|].
    rewrite Hid; apply next_id_fresh.
Qed.

Lemma db_ok_add_comment c db :
  db_ok db = true -> text_ok (comment_content c) = true ->
  comment_id c = next_id (map comment_id (comments db)) ->
  db_ok (add_comment c db) = true.
Proof.
  intros H Hc Hid; split_db_ok H; unfold add_comment; prove_db_ok;
    cbn [users posts comments likes]; try assumption.
  - rewrite forallb_app; simpl; rewrite Hc; simpl; rewrite andb_true_r; assumption.
  - rewrite map_app; simpl; apply nodup_nat_app1; [assumption|].
    rewrite Hid; apply next_id_fresh.
Qed.

Lemma create_post_run gh ch db rq uid exp u kvs t c :
  db_ok db = true ->
  req_token rq = TSigned uid exp -> (req_now rq < exp)%Z -> find_user uid db = Some u ->
  req_body rq = JObj kvs ->
  dict_get kvs (txt "title") = Some (JStr t) -> t <> [] ->
  dict_get kvs (txt "content") = Some (JStr c) -> c <> [] ->
  has_surrogate t = false -> has_surrogate c = false ->
  run gh ch RCreatePost rq db
    = (mkResp 201 (PPost (mkPost (next_id (map post_id (posts db))) (CText t) (CText c) uid
                                 (req_now rq) (req_now rq))),
       add_post (mkPost (next_id (map post_id (posts db))) (CText t) (CText c) uid
                        (req_now rq) (req_now rq)) db).
Proof.
  intros Hok Ht Hn Hf Hb Htt Htne Hc Hcne St Sc.
  set (p := mkPost (next_id (map post_id (posts db))) (CText t) (CText c) uid
                   (req_now rq) (req_now rq)).
  assert (Hd : db_ok (add_post p db) = true)
    by (apply db_ok_add_post; [exact Hok | cbn; rewrite St, Sc; reflexivity | reflexivity]).
  unfold run; cbn [handle]; rewrite (token_reaches rq db uid exp u _ Ht Hn Hf).
  unfold create_post; rewrite Hb; destruct kvs as [|kv kvs']; [discriminate Htt|].
  cbv [bind read lift ret modify commit flush reply py_get py_getitem body_has fields_present
       get_truthy]; cbn [session committed truthy negb].
  rewrite Htt, Hc; destruct t as [|a t']; [congruence|]; destruct c as [|b c']; [congruence|].
  cbv beta iota; cbn [truthy negb to_cell]; rewrite St, Sc; cbv beta iota; cbn [session committed].
  rewrite (find_user_id _ _ _ Hf); fold p; rewrite Hd; cbn [session committed].
  unfold find_post, add_post, post_payload; cbn [posts]; rewrite find_app_none;
    [subst p; cbn [post_id]; rewrite Nat.eqb_refl; reflexivity | apply find_fresh_id].
Qed.

(** X10: an authenticated user posting non-empty string [title] and
    [content], with no lone surrogate, gets 201 with the new post. The post is appended with a
    rowid no other post has, the user as author and the request time as
    both timestamps; the other tables stay as they were. *)
Theorem create_post_appends gh ch db rq uid exp u kvs t c :
  db_ok db = true ->
  req_token rq = TSigned uid exp -> (req_now rq < exp)%Z -> find_user uid db = Some u ->
  req_body rq = JObj kvs ->
  dict_get kvs (txt "title") = Some (JStr t) -> t <> [] ->
  dict_get kvs (txt "content") = Some (JStr c) -> c <> [] ->
  has_surrogate t = false -> has_surrogate c = false ->
  run gh ch RCreatePost rq db
    = (mkResp 201 (PPost (mkPost (next_id (map post_id (posts db))) (CText t) (CText c) uid
                                 (req_now rq) (req_now rq))),
       add_post (mkPost (next_id (map post_id (posts db))) (CText t) (CText c) uid
                        (req_now rq) (req_now rq)) db) /\
  ~ In (next_id (map post_id (posts db))) (map post_id (posts db)).
Proof.
  intros Hok Ht Hn Hf Hb Htt Htne Hc Hcne St Sc; split.
  - exact (create_post_run gh ch db rq uid exp u kvs t c Hok Ht Hn Hf Hb Htt Htne Hc Hcne St Sc).
  - apply mem_nat_false; unfold mem_nat; apply next_id_fresh.
Qed.

(** Bob posts on [db0]. *)
Lemma create_post_appends_witness :
  run gh0 ch0 RCreatePost (req_of (TSigned 2 100) (JObj [jfield "title" "t"; jfield "content" "c"])) db0
    = (mkResp 201 (PPost (mkPost 2 (CText (txt "t")) (CText (txt "c")) 2 10 10)),
       add_post (mkPost 2 (CText (txt "t")) (CText (txt "c")) 2 10 10) db0) /\
  ~ In 2 (map post_id (posts db0)).
Proof.
  apply (create_post_appends gh0 ch0 db0
           (req_of (TSigned 2 100) (JObj [jfield "title" "t"; jfield "content" "c"])) 2 100 u_bob
           [jfield "title" "t"; jfield "content" "c"] (txt "t") (txt "c"));
    try reflexivity; try (vm_compute; reflexivity); intro H; discriminate H.
Defined.

(** X11: an authenticated user commenting on a post that does not exist
    (with an id in the 64-bit range) gets 404 and nothing changes. On an
    existing post, a non-empty string [content] with no lone surrogate
    gets 201 with the new comment, appended with a fresh rowid,
    the user as author and the post as parent. *)
Theorem create_comment_outcome gh ch db rq uid exp u pid :
  db_ok db = true ->
  req_token rq = TSigned uid exp -> (req_now rq < exp)%Z -> find_user uid db = Some u ->
  (find_post pid db = None -> rowid_ok pid = true ->
     run gh ch (RCreateComment pid) rq db = (mkResp 404 PMsg, db)) /\
  (forall kvs s, find_post pid db <> None -> req_body rq = JObj kvs ->
     dict_get kvs (txt "content") = Some (JStr s) -> s <> [] -> has_surrogate s = false ->
     run gh ch (RCreateComment pid) rq db
       = (mkResp 201 (PComment (mkComment (next_id (map comment_id (comments db))) (CText s) uid pid
                                          (req_now rq) (req_now rq))),
          add_comment (mkComment (next_id (map comment_id (comments db))) (CText s) uid pid
                                 (req_now rq) (req_now rq)) db)).
Proof.
  intros Hok Ht Hn Hf.
  unfold run; cbn [handle]; rewrite (token_reaches rq db uid exp u _ Ht Hn Hf).
  unfold create_comment; split.
  - intros Hp Hr; cbv [bind read]; cbn [session]; rewrite Hp, Hr; reflexivity.
  - intros kvs s Hp Hb Hs Hsne Ss.
    set (c := mkComment (next_id (map comment_id (comments db))) (CText s) uid pid
                        (req_now rq) (req_now rq)).
    assert (Hd : db_ok (add_comment c db) = true)
      by (apply db_ok_add_comment; [exact Hok | cbn; rewrite Ss; reflexivity | reflexivity]).
    rewrite Hb; destruct kvs as [|kv kvs']; [discriminate Hs|].
    cbv [bind read lift ret modify commit flush reply py_get py_getitem body_has fields_present
         get_truthy]; cbn [session committed truthy negb].
    destruct (find_post pid db); [|congruence].
    rewrite Hs; destruct s as [|a s']; [congruence|].
    cbv beta iota; cbn [truthy negb to_cell]; rewrite Ss; cbv beta iota; cbn [session committed].
    rewrite (find_user_id _ _ _ Hf); fold c; rewrite Hd; cbn [session committed].
    unfold find_comment, add_comment, comment_payload; cbn [comments]; rewrite find_app_none;
      [subst c; cbn [comment_id]; rewrite Nat.eqb_refl; reflexivity | apply find_fresh_id].
Qed.

(** Carol comments on [db_c]'s post. *)
Lemma create_comment_outcome_witness :
  run gh0 ch0 (RCreateComment 1) (req_of (TSigned 3 100) (JObj [jfield "content" "hi"])) db_c
    = (mkResp 201 (PComment (mkComment 2 (CText (txt "hi")) 3 1 10 10)),
       add_comment (mkComment 2 (CText (txt "hi")) 3 1 10 10) db_c).
Proof.
  apply (proj2 (create_comment_outcome gh0 ch0 db_c
                  (req_of (TSigned 3 100) (JObj [jfield "content" "hi"])) 3 100 u_carol 1
                  ltac:(reflexivity) ltac:(reflexivity) ltac:(vm_compute; reflexivity)
                  ltac:(reflexivity)) [jfield "content" "hi"] (txt "hi"));
    try reflexivity; intro H; discriminate H.
Defined.

(** ** Listings *)

(** [order_by(Comment.created_at.asc())]: older first. *)
Definition created_asc (a b : Comment) : Prop := (comment_created_at a <= comment_created_at b)%Z.

Lemma insert_asc_hd d c l :
  created_asc d c -> HdRel created_asc d l -> HdRel created_asc d (insert_asc c l).
Proof.
  intros Hdc Hl; destruct l as [|e l]; simpl; [constructor; exact Hdc|].
  destruct (Z.ltb (comment_created_at e) (comment_created_at c)); constructor;
    [inversion Hl; assumption | exact Hdc].
Qed.

Lemma insert_asc_sorted c l : Sorted created_asc l -> Sorted created_asc (insert_asc c l).
Proof.
  induction l as [|d l IH]; simpl; intro H; [repeat constructor|].
  destruct (Z.ltb (comment_created_at d) (comment_created_at c)) eqn:E.
  - apply Z.ltb_lt in E; inversion H; subst; constructor; [apply IH; assumption|].
    apply insert_asc_hd; [unfold created_asc; lia | assumption].
  - apply Z.ltb_ge in E; constructor; [exact H | constructor; unfold created_asc; lia].
Qed.

Lemma sort_asc_sorted l : Sorted created_asc (sort_asc l).
Proof. induction l; simpl; [constructor | apply insert_asc_sorted; assumption]. Qed.

Lemma insert_asc_perm c l : Permutation (insert_asc c l) (c :: l).
Proof.
  induction l as [|d l IH]; simpl; [reflexivity|].
  destruct (Z.ltb _ _); [|reflexivity].
  transitivity (d :: c :: l); [constructor; exact IH | constructor].
Qed.

Lemma sort_asc_perm l : Permutation (sort_asc l) l.
Proof.
  induction l as [|c l IH]; simpl; [reflexivity|].
  rewrite insert_asc_perm; constructor; exact IH.
Qed.

(** X12: the comment listing of a post that does not exist (with an id in
    the 64-bit range) answers 404.
    For an existing post it answers 200 with exactly the post's comments,
    oldest first. *)
Theorem get_comments_sorted gh ch db rq pid :
  db_ok db = true ->
  (find_post pid db = None -> rowid_ok pid = true ->
     run gh ch (RGetComments pid) rq db = (mkResp 404 PMsg, db)) /\
  (find_post pid db <> None ->
   exists cs, run gh ch (RGetComments pid) rq db = (mkResp 200 (PComments cs), db) /\
              Sorted created_asc cs /\
              Permutation cs (filter (fun c => Nat.eqb (comment_post_id c) pid) (comments db))).
Proof.
  intro Hok; unfold run; cbn [handle]; unfold get_comments.
  cbv [bind read query flush reply ret]; cbn [session committed].
  split; [intros Hp Hr; rewrite Hp, Hr; reflexivity|].
  intro Hp; destruct (find_post pid db); [|congruence].
  cbv beta iota; cbn [session committed]; rewrite Hok; eexists; split; [reflexivity|].
  split; [apply sort_asc_sorted | apply sort_asc_perm].
Qed.

(** The comments of [db_c]'s post. *)
Lemma get_comments_sorted_witness :
  exists cs, run gh0 ch0 (RGetComments 1) (req_of TMissing JNull) db_c = (mkResp 200 (PComments cs), db_c) /\
             Sorted created_asc cs /\ Permutation cs [comment1].
Proof.
  exact (proj2 (get_comments_sorted gh0 ch0 db_c (req_of TMissing JNull) 1 ltac:(reflexivity))
           ltac:(intro H; discriminate H)).
Defined.

Lemma Sorted_skipn {A} (R : A -> A -> Prop) n l : Sorted R l -> Sorted R (skipn n l).
Proof.
  revert l; induction n as [|n IH]; intros l H; [exact H|].
  destruct l as [|x l]; [constructor|]; inversion H; apply IH; assumption.
Qed.

Lemma incl_skipn {A} n (l : list A) : incl (skipn n l) l.
Proof.
  intros x Hx; rewrite <- (firstn_skipn n l); apply in_or_app; right; exact Hx.
Qed.

Lemma Z_to_nat_nonpos z : (z <= 0)%Z -> Z.to_nat z = 0.
Proof. intro H; destruct z; [reflexivity | lia | reflexivity]. Qed.

(** X13: when [per_page] reads as some [p >= 1] and [p] and the offset
    [(page - 1) * p] fit the 64-bit integers SQLite binds, the post
    listing answers 200 with at most [p] posts, newest first, all of them posts of the
    database. A [page] of 1 or less (0 or negative included) gives the
    [p] newest posts. *)
Theorem get_posts_page gh ch rq db p :
  db_ok db = true ->
  args_get_int (req_args rq) (txt "per_page") 10 = p -> (1 <= p)%Z ->
  int64_ok p = true ->
  int64_ok ((args_get_int (req_args rq) (txt "page") 1 - 1) * p) = true ->
  exists ps total tp,
    run gh ch RGetPosts rq db
      = (mkResp 200 (PPage ps total (args_get_int (req_args rq) (txt "page") 1) p tp), db) /\
    List.length ps <= Z.to_nat p /\ Sorted created_desc ps /\ incl ps (posts db) /\
    ((args_get_int (req_args rq) (txt "page") 1 <= 1)%Z ->
     ps = firstn (Z.to_nat p) (sort_desc (posts db))).
Proof.
  intros Hok Hpp Hp H1 H2.
  unfold run; simpl handle; unfold get_posts; rewrite Hpp.
  cbv [bind query flush read reply ret]; cbn [session committed]; rewrite Hok.
  cbv beta iota; rewrite H1, H2; cbn [andb session committed]; rewrite Hok; cbv beta iota.
  replace (Z.eqb p 0) with false by (symmetry; apply Z.eqb_neq; lia).
  do 3 eexists; split; [reflexivity|].
  unfold slice; replace (Z.ltb p 0) with false by (symmetry; apply Z.ltb_ge; lia).
  split; [|split; [|split]].
  - apply firstn_le_length.
  - apply Sorted_firstn, Sorted_skipn, sort_desc_sorted.
  - intros x Hx; apply incl_firstn, incl_skipn in Hx.
    exact (Permutation_in _ (sort_desc_perm _) Hx).
  - intro Hpg; replace (Z.to_nat ((args_get_int (req_args rq) (txt "page") 1 - 1) * p)) with 0
      by (symmetry; apply Z_to_nat_nonpos; nia).
    reflexivity.
Qed.

(** Page 0 of [db0], two posts per page. *)
Lemma get_posts_page_witness :
  exists ps total tp,
    run gh0 ch0 RGetPosts (mkReq TMissing JNull [(txt "page", txt "0"); (txt "per_page", txt "2")] 10) db0
      = (mkResp 200 (PPage ps total 0 2 tp), db0) /\
    List.length ps <= 2 /\ Sorted created_desc ps /\ incl ps (posts db0) /\
    ((0 <= 1)%Z -> ps = firstn 2 (sort_desc (posts db0))).
Proof.
  exact (get_posts_page gh0 ch0 (mkReq TMissing JNull [(txt "page", txt "0"); (txt "per_page", txt "2")] 10)
           db0 2 ltac:(reflexivity) ltac:(vm_compute; reflexivity) ltac:(vm_compute; discriminate)
           ltac:(vm_compute; reflexivity) ltac:(vm_compute; reflexivity)).
Defined.

(** X14: the public profile of a user that does not exist (with an id in
    the 64-bit range) answers 404.
    For an existing user it answers 200 with the user, the user's posts
    newest first, as many as the user has up to 10, and the numbers of the
    user's posts, comments and likes. *)
Theorem user_profile_outcome gh ch db rq uid :
  db_ok db = true ->
  (find_user uid db = None -> rowid_ok uid = true ->
     run gh ch (RUserProfile uid) rq db = (mkResp 404 PMsg, db)) /\
  (forall u, find_user uid db = Some u ->
   exists ps,
     run gh ch (RUserProfile uid) rq db
       = (mkResp 200 (PProfile u ps
            (List.length (filter (fun p => Nat.eqb (post_user_id p) uid) (posts db)))
            (List.length (filter (fun c => Nat.eqb (comment_user_id c) uid) (comments db)))
            (List.length (filter (fun l => Nat.eqb (like_user_id l) uid) (likes db)))), db) /\
     List.length ps = Nat.min 10 (List.length (filter (fun p => Nat.eqb (post_user_id p) uid) (posts db))) /\
     Sorted created_desc ps /\
     (forall p, In p ps -> In p (posts db) /\ post_user_id p = uid)).
Proof.
  intro Hok; unfold run; cbn [handle]; unfold get_user_profile.
  cbv [bind read query flush reply ret]; cbn [session committed].
  split; [intros Hu Hr; rewrite Hu, Hr; reflexivity|].
  intros u Hu; rewrite Hu; cbv beta iota.
  repeat (cbn [session committed]; rewrite Hok; cbv beta iota).
  eexists; split; [reflexivity|]; split; [|split].
  - rewrite length_firstn, (Permutation_length (sort_desc_perm _)); reflexivity.
  - apply Sorted_firstn, sort_desc_sorted.
  - intros p Hp; apply incl_firstn in Hp; apply (Permutation_in _ (sort_desc_perm _)) in Hp.
    apply filter_In in Hp; destruct Hp as [Hp E]; split; [exact Hp | apply Nat.eqb_eq, E].
Qed.

(** Bob's profile on [db_c]. *)
Lemma user_profile_outcome_witness :
  exists ps,
    run gh0 ch0 (RUserProfile 2) (req_of TMissing JNull) db_c
      = (mkResp 200 (PProfile u_bob ps 1 1 0), db_c) /\
    List.length ps = 1 /\ Sorted created_desc ps /\
    (forall p, In p ps -> In p (posts db_c) /\ post_user_id p = 2).
Proof.
  exact (proj2 (user_profile_outcome gh0 ch0 db_c (req_of TMissing JNull) 2 ltac:(reflexivity))
           u_bob ltac:(reflexivity)).
Defined.

(** ** Passwords *)

Lemma text_eqb_eq a b : text_eqb a b = true -> a = b.
Proof. unfold text_eqb; destruct (list_eq_dec N.eq_dec a b); [auto | discriminate]. Qed.

Lemma db_ok_map_user uid f db :
  db_ok db = true -> (forall u, user_id (f u) = user_id u) ->
  (forall u, username (f u) = username u) -> (forall u, email (f u) = email u) ->
  (forall u, text_ok (username u) && text_ok (email u) && not_null (password_hash u)
               && bcell_ok (is_admin u) = true ->
             text_ok (username (f u)) && text_ok (email (f u)) && not_null (password_hash (f u))
               && bcell_ok (is_admin (f u)) = true) ->
  db_ok (map_user uid f db) = true.
Proof.
  intros H Hid Hun Hem Hf; split_db_ok H; unfold map_user; prove_db_ok;
    cbn [users posts comments likes]; try assumption.
  - apply forallb_map_update; assumption.
  - rewrite map_map_same_key; assumption.
  - rewrite map_map_same_key; assumption.
  - rewrite map_map_same_key; assumption.
Qed.

Lemma db_ok_set_password_hash uid hsh db :
  db_ok db = true -> db_ok (map_user uid (set_password_hash hsh) db) = true.
Proof.
  intro H; apply db_ok_map_user; try (intro; reflexivity); [exact H|].
  intro u; cbn [username email password_hash is_admin set_password_hash not_null text_ok].
  destruct (text_ok (username u)), (text_ok (email u)), (not_null (password_hash u));
    simpl; auto; discriminate.
Qed.

Lemma update_password_run gh ch db rq uid exp u kvs h cp np :
  db_ok db = true ->
  req_token rq = TSigned uid exp -> (req_now rq < exp)%Z -> find_user uid db = Some u ->
  password_hash u = CText h -> req_body rq = JObj kvs ->
  dict_get kvs (txt "current_password") = Some (JStr cp) -> cp <> [] ->
  dict_get kvs (txt "new_password") = Some (JStr np) -> np <> [] ->
  has_surrogate cp = false -> has_surrogate np = false ->
  run gh ch RUpdatePassword rq db =
    if negb (ch h cp) then (mkResp 401 PMsg, db)
    else if Nat.ltb (List.length np) 6 then (mkResp 400 PMsg, db)
    else (mkResp 200 PMsg, map_user uid (set_password_hash (gh np)) db).
Proof.
  intros Hok Ht Hn Hf Hh Hb Hcp Hcpne Hnp Hnpne Scp Snp.
  pose proof (db_ok_set_password_hash uid (gh np) db Hok) as Hd.
  unfold run; cbn [handle]; rewrite (token_reaches rq db uid exp u _ Ht Hn Hf).
  unfold update_password; rewrite Hb; destruct kvs as [|kv kvs']; [discriminate Hcp|].
  cbv [bind read lift ret modify commit flush reply py_get py_getitem py_len body_has
       fields_present get_truthy check_password set_password]; cbn [session committed truthy negb].
  rewrite Hcp, Hnp, Hh; destruct cp as [|a cp']; [congruence|]; destruct np as [|b np']; [congruence|].
  cbv beta iota; cbn [truthy negb]; rewrite Scp; cbv beta iota.
  destruct (ch h (a :: cp')); cbv beta iota; cbn [negb]; [|reflexivity].
  destruct (Nat.ltb _ 6); [reflexivity|]; rewrite Snp; cbv beta iota; cbn [session committed].
  rewrite (find_user_id _ _ _ Hf), Hd; reflexivity.
Qed.

(** X15: changing one's password with non-empty string [current_password]
    and [new_password], neither holding a lone surrogate, answers 401 and changes nothing when
    [check_password_hash] rejects the current password, then 400 and
    changes nothing when the new one has fewer than 6 characters, and
    otherwise 200 with the user's stored hash replaced by the hash of the
    new password, nothing else changed. *)
Theorem update_password_outcome gh ch db rq uid exp u kvs h cp np :
  db_ok db = true ->
  req_token rq = TSigned uid exp -> (req_now rq < exp)%Z -> find_user uid db = Some u ->
  password_hash u = CText h -> req_body rq = JObj kvs ->
  dict_get kvs (txt "current_password") = Some (JStr cp) -> cp <> [] ->
  dict_get kvs (txt "new_password") = Some (JStr np) -> np <> [] ->
  has_surrogate cp = false -> has_surrogate np = false ->
  run gh ch RUpdatePassword rq db =
    if negb (ch h cp) then (mkResp 401 PMsg, db)
    else if Nat.ltb (List.length np) 6 then (mkResp 400 PMsg, db)
    else (mkResp 200 PMsg, map_user uid (set_password_hash (gh np)) db).
Proof. exact (update_password_run gh ch db rq uid exp u kvs h cp np). Qed.

(** Bob asks for the five-character password [abcde]. *)
Lemma update_password_outcome_witness :
  run gh0 ch0 RUpdatePassword
      (req_of (TSigned 2 100) (JObj [jfield "current_password" "pw"; jfield "new_password" "abcde"])) db0
    = (mkResp 400 PMsg, db0).
Proof.
  rewrite (update_password_outcome gh0 ch0 db0 _ 2 100 u_bob
             [jfield "current_password" "pw"; jfield "new_password" "abcde"]
             (txt "pw") (txt "pw") (txt "abcde"));
    try reflexivity; try (vm_compute; reflexivity); intro H; discriminate H.
Defined.

Lemma db_ok_username_text db u :
  db_ok db = true -> In u (users db) -> text_ok (username u) = true.
Proof.
  unfold db_ok; intros H Hin; repeat (apply andb_true_iff in H; destruct H as [H _]).
  rewrite forallb_forall in H; specialize (H u Hin).
  repeat (apply andb_true_iff in H; destruct H as [H _]); exact H.
Qed.

Lemma db_ok_email_text db u :
  db_ok db = true -> In u (users db) -> text_ok (email u) = true.
Proof.
  unfold db_ok; intros H Hin; repeat (apply andb_true_iff in H; destruct H as [H _]).
  rewrite forallb_forall in H; specialize (H u Hin).
  apply andb_true_iff in H; destruct H as [H _]; apply andb_true_iff in H; destruct H as [H _].
  apply andb_true_iff in H; destruct H as [_ H]; exact H.
Qed.

(** A value [filter_by] found in a column holding only storable text has no
    lone surrogate. *)
Lemma found_text_ok (col : User -> cell) l s e :
  (forall u, In u l -> text_ok (col u) = true) ->
  find (fun v => cell_eqb (col v) (CText s)) l = Some e -> has_surrogate s = false.
Proof.
  intros Hl He; apply find_some in He; destruct He as [Hin E].
  specialize (Hl e Hin); destruct (col e) as [|x|]; try discriminate E.
  cbn [cell_eqb] in E; apply text_eqb_eq in E; subst x.
  cbn [text_ok] in Hl; apply negb_true_iff in Hl; exact Hl.
Qed.

Lemma db_ok_usernames db : db_ok db = true -> unique_cells (map username (users db)) = true.
Proof. intro H; split_db_ok H; assumption. Qed.

(** Under a UNIQUE username column, [filter_by(username=s).first()] finds
    the one user with that name. *)
Lemma find_unique_username l u s :
  unique_cells (map username l) = true -> In u l -> username u = CText s ->
  find (fun v => cell_eqb (username v) (CText s)) l = Some u.
Proof.
  induction l as [|x l IH]; [intros _ []|].
  unfold unique_cells; cbn [map no_clash find]; intros H Hin Hu.
  apply andb_true_iff in H; destruct H as [H1 H2].
  destruct Hin as [<-|Hin].
  - rewrite Hu; cbn [cell_eqb]; rewrite text_eqb_refl; reflexivity.
  - destruct (cell_eqb (username x) (CText s)) eqn:E; [|apply IH; assumption].
    exfalso; destruct (username x) as [|sx|] eqn:Ex; try discriminate E.
    apply text_eqb_eq in E; subst sx.
    assert (existsb (cell_clash (CText s)) (map username l) = true) as Hc.
    { apply existsb_exists; exists (username u); split; [apply in_map, Hin|].
      rewrite Hu; cbn; apply text_eqb_refl. }
    rewrite Hc in H1; discriminate.
Qed.

(** X16: after a successful password change to [np], a login with the
    user's name and a password [pw] (the three passwords holding no lone
    surrogate) answers 200 with the user's token when
    [check_password_hash(generate_password_hash(np), pw)] holds, and 401
    otherwise: the new password works, and an old one that does not check
    against the new hash no longer does. *)
Theorem password_change_then_login gh ch db rq rq' uid exp u kvs h cp np un pw :
  db_ok db = true ->
  req_token rq = TSigned uid exp -> (req_now rq < exp)%Z -> find_user uid db = Some u ->
  password_hash u = CText h -> username u = CText un -> un <> [] ->
  req_body rq = JObj kvs ->
  dict_get kvs (txt "current_password") = Some (JStr cp) -> cp <> [] ->
  dict_get kvs (txt "new_password") = Some (JStr np) -> np <> [] ->
  ch h cp = true -> 6 <= List.length np ->
  req_body rq' = JObj [(txt "username", JStr un); (txt "password", JStr pw)] -> pw <> [] ->
  has_surrogate cp = false -> has_surrogate np = false -> has_surrogate pw = false ->
  fst (run gh ch RUpdatePassword rq db) = mkResp 200 PMsg /\
  fst (run gh ch RLogin rq' (snd (run gh ch RUpdatePassword rq db)))
    = if ch (gh np) pw then mkResp 200 (PToken uid) else mkResp 401 PMsg.
Proof.
  intros Hok Ht Hn Hf Hh Hun Hunne Hb Hcp Hcpne Hnp Hnpne Hch Hlen Hb' Hpw Scp Snp Spw.
  pose proof (db_ok_username_text db u Hok (proj1 (find_some _ _ Hf))) as Sun.
  rewrite Hun in Sun; cbn [text_ok] in Sun; apply negb_true_iff in Sun.
  rewrite (update_password_run gh ch db rq uid exp u kvs h cp np Hok Ht Hn Hf Hh Hb Hcp Hcpne Hnp Hnpne
             Scp Snp).
  rewrite Hch; replace (Nat.ltb (List.length np) 6) with false by (symmetry; apply Nat.ltb_ge; exact Hlen).
  cbn [negb fst snd]; split; [reflexivity|].
  pose proof (db_ok_set_password_hash uid (gh np) db Hok) as Hd.
  rewrite (login_run gh ch _ rq' _ un pw Hd Hb'); try reflexivity; try assumption; cbn [fst].
  apply find_some in Hf; destruct Hf as [Hu Huid]; apply Nat.eqb_eq in Huid.
  rewrite (find_unique_username _ (set_password_hash (gh np) u) un (db_ok_usernames _ Hd)).
  - cbn [set_password_hash password_hash user_id]; rewrite Huid; reflexivity.
  - unfold map_user; cbn [users]; apply in_map_iff; exists u; split; [|exact Hu].
    rewrite Huid, Nat.eqb_refl; reflexivity.
  - exact Hun.
Qed.

Lemma password_change_then_login_witness :
  fst (run gh0 ch0 RUpdatePassword
         (req_of (TSigned 2 100) (JObj [jfield "current_password" "pw"; jfield "new_password" "secret1"])) db0)
    = mkResp 200 PMsg /\
  fst (run gh0 ch0 RLogin (req_of TMissing (JObj [jfield "username" "bob"; jfield "password" "pw"]))
         (snd (run gh0 ch0 RUpdatePassword
                 (req_of (TSigned 2 100) (JObj [jfield "current_password" "pw"; jfield "new_password" "secret1"])) db0)))
    = mkResp 401 PMsg.
Proof.
  exact (password_change_then_login gh0 ch0 db0
           (req_of (TSigned 2 100) (JObj [jfield "current_password" "pw"; jfield "new_password" "secret1"]))
           (req_of TMissing (JObj [jfield "username" "bob"; jfield "password" "pw"]))
           2 100 u_bob [jfield "current_password" "pw"; jfield "new_password" "secret1"]
           (txt "pw") (txt "pw") (txt "secret1") (txt "bob") (txt "pw")
           eq_refl eq_refl eq_refl eq_refl eq_refl eq_refl ltac:(discriminate) eq_refl eq_refl
           ltac:(discriminate) eq_refl ltac:(discriminate) eq_refl ltac:(vm_compute; lia) eq_refl ltac:(discriminate)
           eq_refl eq_refl eq_refl).
Defined.

(** A user row with its two contact columns cleared, and the database seen
    through it at row [uid]: what [update_own_profile] may not change. *)
Definition blank_contact (u : User) : User := set_username CNull (set_email CNull u).

Definition profile_frame (uid : nat) (db : DB) : DB := map_user uid blank_contact db.

Lemma frame_map_user uid f db :
  (forall u, user_id (f u) = user_id u) -> (forall u, blank_contact (f u) = blank_contact u) ->
  profile_frame uid (map_user uid f db) = profile_frame uid db.
Proof.
  intros Hid Hb; unfold profile_frame, map_user; cbn [users posts comments likes].
  f_equal; rewrite map_map; apply map_ext; intro u.
  destruct (Nat.eqb (user_id u) uid) eqn:E; [rewrite Hid, E; apply Hb | rewrite E; reflexivity].
Qed.

Definition R_frame (uid : nat) (w w' : World) : Prop :=
  profile_frame uid (session w) = profile_frame uid (committed w) ->
  profile_frame uid (session w') = profile_frame uid (session w) /\
  profile_frame uid (committed w') = profile_frame uid (committed w).

#[export] Instance R_frame_preorder uid : WorldPreorder (R_frame uid).
Proof.
  split; unfold R_frame.
  - auto.
  - intros a b c Hab Hbc H; destruct (Hab H) as [H1 H2].
    destruct Hbc as [H3 H4]; [congruence|]; split; congruence.
Qed.

Lemma frame_modify uid f :
  (forall db, profile_frame uid (f db) = profile_frame uid db) -> preserves (R_frame uid) (modify f).
Proof. intros Hf w; unfold R_frame; cbn [modify world_of session committed]; auto. Qed.

Lemma frame_commit uid : preserves (R_frame uid) commit.
Proof.
  intros w; unfold R_frame; cbv [commit bind flush].
  destruct (db_ok (session w)); cbn [world_of session committed]; auto.
Qed.

Lemma frame_set_username uid v db :
  profile_frame uid (map_user uid (set_username v) db) = profile_frame uid db.
Proof. apply frame_map_user; intros [] ; reflexivity. Qed.

Lemma frame_set_email uid v db :
  profile_frame uid (map_user uid (set_email v) db) = profile_frame uid db.
Proof. apply frame_map_user; intros []; reflexivity. Qed.

Lemma update_own_profile_frame rq cu :
  preserves (R_frame (user_id cu)) (update_own_profile rq cu).
Proof.
  unfold update_own_profile.
  pres_tac ltac:(apply frame_modify; intro; first [apply frame_set_username | apply frame_set_email])
           ltac:(apply frame_commit).
Qed.

(** X17: [update_own_profile] changes nothing but the username and email of
    the caller: for a request signed for user [uid], the result database
    agrees with the input on every other user row, on the id, password
    hash, admin flag and creation date of row [uid], and on all posts,
    comments and likes, whatever the body. *)
Theorem update_profile_only_contact gh ch rq db uid exp :
  req_token rq = TSigned uid exp ->
  profile_frame uid (snd (run gh ch RUpdateProfile rq db)) = profile_frame uid db.
Proof.
  intro Ht; unfold run; cbn [handle]; unfold token_required; rewrite Ht.
  destruct (Z.leb exp (req_now rq)); [reflexivity|].
  cbv [bind read]; cbn [session].
  destruct (find_user uid db) as [u|] eqn:Hf; [|destruct (rowid_ok uid); reflexivity].
  apply find_some in Hf; destruct Hf as [_ Hid]; apply Nat.eqb_eq in Hid; subst uid.
  pose proof (update_own_profile_frame rq u (mkWorld db db)) as Hp; unfold R_frame in Hp.
  destruct (update_own_profile rq u (mkWorld db db)) as [r w|w];
    cbn [world_of session committed snd] in *; apply Hp; reflexivity.
Qed.

Lemma update_profile_only_contact_witness :
  profile_frame 2 (snd (run gh0 ch0 RUpdateProfile
    (req_of (TSigned 2 100) (JObj [jfield "username" "robert"; (txt "is_admin", JBool true)])) db0))
  = profile_frame 2 db0.
Proof.
  exact (update_profile_only_contact gh0 ch0
           (req_of (TSigned 2 100) (JObj [jfield "username" "robert"; (txt "is_admin", JBool true)]))
           db0 2 100 eq_refl).
Defined.

(** X18: [update_own_profile] answers 409 and leaves the database as it was
    when the requested username belongs to another user, and also when the
    body has no ["username"] key and the requested email belongs to another
    user. *)
Theorem update_profile_conflict gh ch db rq uid exp u kvs :
  db_ok db = true ->
  req_token rq = TSigned uid exp -> (req_now rq < exp)%Z -> find_user uid db = Some u ->
  req_body rq = JObj kvs ->
  (forall s e, dict_get kvs (txt "username") = Some (JStr s) ->
     find (fun v => cell_eqb (username v) (CText s)) (users db) = Some e -> user_id e <> uid ->
     run gh ch RUpdateProfile rq db = (mkResp 409 PMsg, db)) /\
  (forall s e, dict_get kvs (txt "username") = None -> dict_get kvs (txt "email") = Some (JStr s) ->
     find (fun v => cell_eqb (email v) (CText s)) (users db) = Some e -> user_id e <> uid ->
     run gh ch RUpdateProfile rq db = (mkResp 409 PMsg, db)).
Proof.
  intros Hok Ht Hn Hf Hb.
  pose proof Hf as Hf'; apply find_some in Hf'; destruct Hf' as [_ Hid]; apply Nat.eqb_eq in Hid.
  split.
  - intros s e Hs He Hne; unfold run; cbn [handle]; rewrite (token_reaches rq db uid exp u _ Ht Hn Hf).
    pose proof (found_text_ok username _ s e (fun v => db_ok_username_text db v Hok) He) as Ss.
    unfold update_own_profile, unique_field_step; rewrite Hb, Hid.
    cbv [bind lift ret py_in py_getitem filter_first_user query flush read]; rewrite Hs.
    cbn [to_cell session]; rewrite Ss; cbv beta iota; cbn [session]; rewrite Hok; cbn [session]; rewrite He.
    replace (Nat.eqb (user_id e) uid) with false by (symmetry; apply Nat.eqb_neq; exact Hne).
    reflexivity.
  - intros s e Hs Hm He Hne; unfold run; cbn [handle]; rewrite (token_reaches rq db uid exp u _ Ht Hn Hf).
    unfold update_own_profile, unique_field_step; rewrite Hb, Hid.
    pose proof (found_text_ok email _ s e (fun v => db_ok_email_text db v Hok) He) as Ss.
    cbv [bind lift ret py_in py_getitem filter_first_user query flush read]; rewrite Hs, Hm.
    cbn [to_cell session]; rewrite Ss; cbv beta iota; cbn [session]; rewrite Hok; cbn [session]; rewrite He.
    replace (Nat.eqb (user_id e) uid) with false by (symmetry; apply Nat.eqb_neq; exact Hne).
    reflexivity.
Qed.

Lemma update_profile_conflict_witness :
  run gh0 ch0 RUpdateProfile (req_of (TSigned 2 100) (JObj [jfield "username" "admin"])) db0
    = (mkResp 409 PMsg, db0) /\
  run gh0 ch0 RUpdateProfile (req_of (TSigned 2 100) (JObj [jfield "email" "a@x"])) db0
    = (mkResp 409 PMsg, db0).
Proof.
  split.
  - exact (proj1 (update_profile_conflict gh0 ch0 db0
             (req_of (TSigned 2 100) (JObj [jfield "username" "admin"])) 2 100 u_bob
             [jfield "username" "admin"] eq_refl eq_refl ltac:(vm_compute; reflexivity) eq_refl eq_refl)
             (txt "admin") u_admin eq_refl eq_refl ltac:(discriminate)).
  - exact (proj2 (update_profile_conflict gh0 ch0 db0
             (req_of (TSigned 2 100) (JObj [jfield "email" "a@x"])) 2 100 u_bob
             [jfield "email" "a@x"] eq_refl eq_refl ltac:(vm_compute; reflexivity) eq_refl eq_refl)
             (txt "a@x") u_admin eq_refl eq_refl eq_refl ltac:(discriminate)).
Defined.

(** The account [create_tables] inserts. *)
Definition default_admin (gh : text -> text) (now : Z) : User :=
  mkUser (next_id []) (CText (txt "admin")) (CText (txt "admin@example.com"))
         (CText (gh (txt "admin123"))) (BVal true) now.

Lemma create_tables_empty gh now db :
  db_ok db = true -> users db = [] -> create_tables gh now db = add_user (default_admin gh now) db.
Proof.
  intros Hok He.
  assert (E : db_ok (add_user (default_admin gh now) db) = true)
    by (apply db_ok_add_user; [exact Hok | reflexivity | | |]; rewrite He; reflexivity).
  unfold create_tables; rewrite He; cbv zeta; unfold default_admin in *; rewrite E; reflexivity.
Qed.

(** X19: the [create_tables] hook, on a database that passes the table
    constraints, inserts the default admin (id 1, admin flag set, the hash
    of "admin123") exactly when the users table is empty and leaves the
    database alone otherwise; running it again changes nothing. *)
Theorem create_tables_seed gh now now' db :
  db_ok db = true ->
  (users db = [] -> create_tables gh now db = add_user (default_admin gh now) db) /\
  (users db <> [] -> create_tables gh now db = db) /\
  create_tables gh now' (create_tables gh now db) = create_tables gh now db.
Proof.
  intro Hok; split; [|split].
  - apply create_tables_empty; exact Hok.
  - intro Hne; unfold create_tables; destruct (users db); [congruence | reflexivity].
  - destruct (users db) eqn:He.
    + rewrite (create_tables_empty gh now db Hok He).
      unfold create_tables at 1; cbn [add_user users]; rewrite He; reflexivity.
    + unfold create_tables; rewrite !He; reflexivity.
Qed.

Lemma create_tables_seed_witness :
  create_tables gh0 0 empty_db = add_user (default_admin gh0 0) empty_db /\
  (users db0 <> [] -> create_tables gh0 0 db0 = db0) /\
  create_tables gh0 7 (create_tables gh0 0 empty_db) = create_tables gh0 0 empty_db.
Proof.
  destruct (create_tables_seed gh0 0 7 empty_db eq_refl) as [H1 [_ H3]].
  split; [exact (H1 eq_refl)|split; [|exact H3]].
  exact (proj1 (proj2 (create_tables_seed gh0 0 7 db0 eq_refl))).
Defined.

(** X20: after the hook seeds an empty database, logging in as
    "admin" with password "admin123" answers 200 with the token of user 1,
    as long as the password hash checks against its own password. *)
Theorem default_admin_login gh ch now db rq :
  db_ok db = true -> users db = [] ->
  ch (gh (txt "admin123")) (txt "admin123") = true ->
  req_body rq = JObj [(txt "username", JStr (txt "admin")); (txt "password", JStr (txt "admin123"))] ->
  run gh ch RLogin rq (create_tables gh now db) = (mkResp 200 (PToken 1), create_tables gh now db).
Proof.
  intros Hok He Hch Hb.
  pose proof (create_tables_db_ok gh now db Hok) as Hd.
  rewrite (login_run gh ch _ rq _ (txt "admin") (txt "admin123") Hd Hb);
    try reflexivity; try discriminate.
  rewrite (create_tables_empty gh now db Hok He); cbn [add_user users]; rewrite He.
  cbn [app find default_admin username password_hash user_id cell_eqb].
  rewrite text_eqb_refl; cbn [default_admin password_hash user_id]; rewrite Hch; reflexivity.
Qed.

Lemma default_admin_login_witness :
  run gh0 ch0 RLogin (req_of TMissing (JObj [jfield "username" "admin"; jfield "password" "admin123"]))
      (create_tables gh0 0 empty_db)
    = (mkResp 200 (PToken 1), create_tables gh0 0 empty_db).
Proof.
  exact (default_admin_login gh0 ch0 0 empty_db
           (req_of TMissing (JObj [jfield "username" "admin"; jfield "password" "admin123"]))
           eq_refl eq_refl ltac:(vm_compute; reflexivity) eq_refl).
Defined.

Definition liked_route (tgt : Target) : Route :=
  match tgt with TPost pid => RUserLikedPost pid | TComment cid => RUserLikedComment cid end.

Lemma find_is_some_existsb {A} (f : A -> bool) l :
  match find f l with Some _ => true | None => false end = existsb f l.
Proof. induction l as [|x l IH]; cbn [find existsb]; [reflexivity|]; destruct (f x); auto. Qed.

Lemma liked_run gh ch db rq uid exp u tgt :
  db_ok db = true -> req_token rq = TSigned uid exp -> (req_now rq < exp)%Z ->
  find_user uid db = Some u -> target_exists tgt db = true ->
  run gh ch (liked_route tgt) rq db = (mkResp 200 (PUserLiked (liked db uid tgt)), db).
Proof.
  intros Hok Ht Hn Hf Hx.
  assert (Hid : user_id u = uid) by (apply find_some in Hf; apply Nat.eqb_eq; tauto).
  destruct tgt as [pid|cid]; cbn [target_exists] in Hx; unfold run; cbn [handle liked_route];
    rewrite (token_reaches rq db uid exp u _ Ht Hn Hf).
  - unfold check_user_liked_post; cbv [bind read query flush ret reply]; cbn [session].
    destruct (find_post pid db); [|discriminate Hx].
    cbn [session]; rewrite Hok; cbn [session committed].
    unfold find_post_like; rewrite find_is_some_existsb, Hid; reflexivity.
  - unfold check_user_liked_comment; cbv [bind read query flush ret reply]; cbn [session].
    destruct (find_comment cid db); [|discriminate Hx].
    cbn [session]; rewrite Hok; cbn [session committed].
    unfold find_comment_like; rewrite find_is_some_existsb, Hid; reflexivity.
Qed.

(** X21: the user-liked routes report whether the caller has a like on the
    post or comment, and right after the caller toggles that like they
    report the opposite. *)
Theorem toggle_then_user_liked gh ch db rq uid exp tgt :
  db_ok db = true -> likes_unique db = true ->
  req_token rq = TSigned uid exp -> (req_now rq < exp)%Z ->
  find_user uid db <> None -> target_exists tgt db = true ->
  run gh ch (liked_route tgt) rq db = (mkResp 200 (PUserLiked (liked db uid tgt)), db) /\
  fst (run gh ch (liked_route tgt) rq (snd (run gh ch (toggle_route tgt) rq db)))
    = mkResp 200 (PUserLiked (negb (liked db uid tgt))).
Proof.
  intros Hok Hlu Ht Hn Hu Hx.
  destruct (find_user uid db) as [u|] eqn:Hf; [|congruence].
  split; [apply (liked_run gh ch db rq uid exp u); assumption|].
  destruct (toggle_step gh ch db uid exp tgt rq Hok Hlu Ht Hn ltac:(congruence) Hx)
    as [_ [Hl [Hus [Hps Hcs]]]].
  rewrite (liked_run gh ch _ rq uid exp u tgt (run_db_ok gh ch _ rq db Hok) Ht Hn).
  - rewrite Hl; reflexivity.
  - unfold find_user; rewrite Hus; exact Hf.
  - destruct tgt; cbn [target_exists] in *; unfold find_post, find_comment in *;
      [rewrite Hps | rewrite Hcs]; exact Hx.
Qed.

Lemma toggle_then_user_liked_witness :
  run gh0 ch0 (liked_route (TPost 1)) (req_of (TSigned 1 100) JNull) db0
    = (mkResp 200 (PUserLiked false), db0) /\
  fst (run gh0 ch0 (liked_route (TPost 1)) (req_of (TSigned 1 100) JNull)
         (snd (run gh0 ch0 (toggle_route (TPost 1)) (req_of (TSigned 1 100) JNull) db0)))
    = mkResp 200 (PUserLiked true).
Proof.
  exact (toggle_then_user_liked gh0 ch0 db0 (req_of (TSigned 1 100) JNull) 1 100 (TPost 1)
           eq_refl eq_refl eq_refl ltac:(vm_compute; reflexivity) ltac:(discriminate) eq_refl).
Defined.

Definition likes_route (tgt : Target) : Route :=
  match tgt with TPost pid => RGetPostLikes pid | TComment cid => RGetCommentLikes cid end.

(** The count a toggle reports is read from the committed state, in which
    the target is still present. *)
Definition toggle_count_ok (tgt : Target) (o : res Response) : Prop :=
  match o with
  | Ok (mkResp _ (PLiked _ n)) w =>
      session w = committed w /\ target_exists tgt (committed w) = true /\
      n = List.length (filter (like_on tgt) (likes (committed w)))
  | _ => True
  end.

Lemma toggle_post_count rq pid cu w : toggle_count_ok (TPost pid) (toggle_post_like rq pid cu w).
Proof.
  unfold toggle_post_like; cbv [bind read query flush modify commit ret reply].
  destruct (find_post pid (session w)) eqn:Ep; [|destruct (rowid_ok pid); exact I].
  destruct (db_ok (session w)); [|exact I]; cbn [session committed].
  destruct (find_post_like (user_id cu) pid (session w)) as [l|].
  - destruct (db_ok (delete_like_row (like_id l) (session w))); [|exact I].
    cbn [toggle_count_ok session committed target_exists].
    split; [reflexivity|]; split; [|reflexivity].
    unfold find_post in *; cbn [delete_like_row posts]; rewrite Ep; reflexivity.
  - match goal with |- context [db_ok (add_like ?x (session w))] => destruct (db_ok (add_like x (session w))) end;
      [|exact I].
    cbn [toggle_count_ok session committed target_exists].
    split; [reflexivity|]; split; [|reflexivity].
    unfold find_post in *; cbn [add_like posts]; rewrite Ep; reflexivity.
Qed.

Lemma toggle_comment_count rq cid cu w : toggle_count_ok (TComment cid) (toggle_comment_like rq cid cu w).
Proof.
  unfold toggle_comment_like; cbv [bind read query flush modify commit ret reply].
  destruct (find_comment cid (session w)) eqn:Ep; [|destruct (rowid_ok cid); exact I].
  destruct (db_ok (session w)); [|exact I]; cbn [session committed].
  destruct (find_comment_like (user_id cu) cid (session w)) as [l|].
  - destruct (db_ok (delete_like_row (like_id l) (session w))); [|exact I].
    cbn [toggle_count_ok session committed target_exists].
    split; [reflexivity|]; split; [|reflexivity].
    unfold find_comment in *; cbn [delete_like_row comments]; rewrite Ep; reflexivity.
  - match goal with |- context [db_ok (add_like ?x (session w))] => destruct (db_ok (add_like x (session w))) end;
      [|exact I].
    cbn [toggle_count_ok session committed target_exists].
    split; [reflexivity|]; split; [|reflexivity].
    unfold find_comment in *; cbn [add_like comments]; rewrite Ep; reflexivity.
Qed.

Lemma toggle_route_count gh ch rq tgt w : toggle_count_ok tgt (handle gh ch (toggle_route tgt) rq w).
Proof.
  destruct tgt as [pid|cid]; cbn [handle toggle_route]; unfold token_required;
    destruct (req_token rq) as [| |uid exp|exp]; try exact I;
    destruct (Z.leb exp (req_now rq)); try exact I;
    cbv [bind read]; destruct (find_user uid (session w)); try (destruct (rowid_ok uid); exact I);
    [apply toggle_post_count | apply toggle_comment_count].
Qed.

(** X22: whenever a like toggle answers with a [likes_count] [n], the
    likes listing of the same post or comment, asked right afterwards,
    answers 200 with a list of exactly [n] likes. *)
Theorem toggle_count_matches_listing gh ch db rq rq' tgt s b n :
  db_ok db = true ->
  fst (run gh ch (toggle_route tgt) rq db) = mkResp s (PLiked b n) ->
  exists ls,
    run gh ch (likes_route tgt) rq' (snd (run gh ch (toggle_route tgt) rq db))
      = (mkResp 200 (PLikes ls), snd (run gh ch (toggle_route tgt) rq db)) /\
    List.length ls = n.
Proof.
  intros Hok Hr.
  pose proof (run_db_ok gh ch (toggle_route tgt) rq db Hok) as Hd.
  pose proof (toggle_route_count gh ch rq tgt (mkWorld db db)) as Hc.
  unfold run in Hr, Hd |- *.
  destruct (handle gh ch (toggle_route tgt) rq (mkWorld db db)) as [[st pl] w|w];
    cbn [fst snd] in Hr, Hd |- *; [|discriminate Hr].
  injection Hr as -> ->; cbn [toggle_count_ok] in Hc; destruct Hc as [_ [Hx Hn]].
  exists (filter (like_on tgt) (likes (committed w))); split; [|symmetry; exact Hn].
  destruct tgt as [pid|cid]; cbn [handle likes_route target_exists] in *.
  - unfold get_post_likes; cbv [bind read query flush ret reply]; cbn [session].
    destruct (find_post pid (committed w)); [|discriminate Hx].
    cbn [session]; rewrite Hd; reflexivity.
  - unfold get_comment_likes; cbv [bind read query flush ret reply]; cbn [session].
    destruct (find_comment cid (committed w)); [|discriminate Hx].
    cbn [session]; rewrite Hd; reflexivity.
Qed.

Lemma toggle_count_matches_listing_witness :
  fst (run gh0 ch0 (toggle_route (TPost 1)) (req_of (TSigned 1 100) JNull) db0)
    = mkResp 201 (PLiked true 1) /\
  exists ls,
    run gh0 ch0 (likes_route (TPost 1)) (req_of TMissing JNull)
        (snd (run gh0 ch0 (toggle_route (TPost 1)) (req_of (TSigned 1 100) JNull) db0))
      = (mkResp 200 (PLikes ls), snd (run gh0 ch0 (toggle_route (TPost 1)) (req_of (TSigned 1 100) JNull) db0)) /\
    List.length ls = 1.
Proof.
  split; [vm_compute; reflexivity|].
  exact (toggle_count_matches_listing gh0 ch0 db0 (req_of (TSigned 1 100) JNull) (req_of TMissing JNull)
           (TPost 1) 201 true 1 eq_refl ltac:(vm_compute; reflexivity)).
Defined.

(** X23: a post created through POST /api/posts is served back unchanged by
    GET /api/posts/<id> on the resulting database: same id, title, content,
    author and timestamps (for a title and content with no lone
    surrogate). *)
Theorem create_then_get_post gh ch db rq rq' uid exp u kvs t c :
  db_ok db = true ->
  req_token rq = TSigned uid exp -> (req_now rq < exp)%Z -> find_user uid db = Some u ->
  req_body rq = JObj kvs ->
  dict_get kvs (txt "title") = Some (JStr t) -> t <> [] ->
  dict_get kvs (txt "content") = Some (JStr c) -> c <> [] ->
  has_surrogate t = false -> has_surrogate c = false ->
  exists p,
    fst (run gh ch RCreatePost rq db) = mkResp 201 (PPost p) /\
    run gh ch (RGetPost (post_id p)) rq' (snd (run gh ch RCreatePost rq db))
      = (mkResp 200 (PPost p), snd (run gh ch RCreatePost rq db)) /\
    title p = CText t /\ content p = CText c /\ post_user_id p = uid.
Proof.
  intros Hok Ht Hn Hf Hb Htt Htne Hc Hcne St Sc.
  rewrite (create_post_run gh ch db rq uid exp u kvs t c Hok Ht Hn Hf Hb Htt Htne Hc Hcne St Sc).
  eexists; split; [reflexivity|]; split; [|repeat split].
  cbn [fst snd post_id]; unfold run; cbn [handle]; unfold get_post.
  cbv [bind read reply ret]; cbn [session committed].
  unfold find_post, add_post; cbn [posts]; rewrite find_app_none;
    [cbn [find post_id]; rewrite Nat.eqb_refl; reflexivity | apply find_fresh_id].
Qed.

Lemma create_then_get_post_witness :
  exists p,
    fst (run gh0 ch0 RCreatePost (req_of (TSigned 2 100) (JObj [jfield "title" "t"; jfield "content" "c"])) db0)
      = mkResp 201 (PPost p) /\
    run gh0 ch0 (RGetPost (post_id p)) (req_of TMissing JNull)
        (snd (run gh0 ch0 RCreatePost (req_of (TSigned 2 100) (JObj [jfield "title" "t"; jfield "content" "c"])) db0))
      = (mkResp 200 (PPost p),
         snd (run gh0 ch0 RCreatePost (req_of (TSigned 2 100) (JObj [jfield "title" "t"; jfield "content" "c"])) db0)) /\
    title p = CText (txt "t") /\ content p = CText (txt "c") /\ post_user_id p = 2.
Proof.
  exact (create_then_get_post gh0 ch0 db0
           (req_of (TSigned 2 100) (JObj [jfield "title" "t"; jfield "content" "c"])) (req_of TMissing JNull)
           2 100 u_bob [jfield "title" "t"; jfield "content" "c"] (txt "t") (txt "c")
           eq_refl eq_refl ltac:(vm_compute; reflexivity) eq_refl eq_refl eq_refl ltac:(discriminate)
           eq_refl ltac:(discriminate) eq_refl eq_refl).
Defined.
